(** * DotaSearch bot: a shallow embedding of [bot.py]

    The development follows the layout of the source file: text values,
    the [profiles] table and its two accessors, the inline keyboards, the
    back-stack helpers, [render_prev], the callback and text handlers,
    [perform_search_and_reply] and the protected dump command.  The
    theorems at the end are stated about these definitions.

    Modelling conventions.
    - A Python [str] is the list of its code points ([len] is [length],
      slicing is [firstn]/[skipn]).  Literals are written as UTF-8 string
      constants and decoded by [U].
    - The table [profiles] is the list of its rows in rowid order
      ([user_id] is [INTEGER PRIMARY KEY]).  The columns [online] and
      [full_party] only ever receive 0 or 1 and are booleans here.
    - [context.user_data] is a record with one optional field per key the
      program uses, and a finite map for the [last_text_<step>] keys.
    - A handler returns the new world, the messages it sent, and either the
      conversation state it returned or the fact that it raised.
    - sqlite3 and Telegram calls are taken to succeed, and the [except]
      branches that guard them have no counterpart here, with one
      exception: the search binds numbers computed from a delta the user
      supplies, and when one of them does not fit SQLite's 64-bit INTEGER
      the call raises and the [except] branch of the search replies. *)

From Stdlib Require Import ZArith NArith List Bool Ascii String DecimalString Lia.
From stdpp Require Import gmap.
Import ListNotations.

Local Open Scope Z_scope.

(* ================================================================== *)
(** ** Text *)

Definition char := N.
Definition str := list char.

(** UTF-8 decoding of a byte sequence into code points; used for literals
    only, which are well-formed. *)
Fixpoint utf8_decode (bs : list N) : str :=
  match bs with
  | [] => []
  | b :: r =>
      if N.ltb b 128 then b :: utf8_decode r
      else if N.ltb b 224 then
        match r with
        | b1 :: r' =>
            N.lor (N.shiftl (N.land b 31) 6) (N.land b1 63) :: utf8_decode r'
        | _ => []
        end
      else if N.ltb b 240 then
        match r with
        | b1 :: b2 :: r' =>
            N.lor (N.shiftl (N.land b 15) 12)
              (N.lor (N.shiftl (N.land b1 63) 6) (N.land b2 63))
            :: utf8_decode r'
        | _ => []
        end
      else
        match r with
        | b1 :: b2 :: b3 :: r' =>
            N.lor (N.shiftl (N.land b 7) 18)
              (N.lor (N.shiftl (N.land b1 63) 12)
                 (N.lor (N.shiftl (N.land b2 63) 6) (N.land b3 63)))
            :: utf8_decode r'
        | _ => []
        end
  end.

Definition U (s : string) : str :=
  utf8_decode (List.map N_of_ascii (list_ascii_of_string s)).

Arguments U : simpl never.

(** The newline character, written [\n] in the source. *)
Definition nl : str := [10%N].

Fixpoint str_eqb (a b : str) : bool :=
  match a, b with
  | [], [] => true
  | x :: a', y :: b' => if N.eqb x y then str_eqb a' b' else false
  | _, _ => false
  end.

(** [s.startswith(p)] *)
Fixpoint startswith (p s : str) : bool :=
  match p, s with
  | [], _ => true
  | x :: p', y :: s' => if N.eqb x y then startswith p' s' else false
  | _ :: _, [] => false
  end.

(** [data[len(p):]] *)
Definition drop_prefix (p s : str) : str := skipn (List.length p) s.

(** [s.split(sep, 1)[1]] for a one-character separator: the text after its
    first occurrence; [None] stands for the [IndexError] when there is no
    occurrence. *)
Fixpoint split1_snd (sep : char) (s : str) : option str :=
  match s with
  | [] => None
  | c :: r => if N.eqb c sep then Some r else split1_snd sep r
  end.

(** [sep.join(parts)] *)
Fixpoint join (sep : str) (parts : list str) : str :=
  match parts with
  | [] => []
  | [p] => p
  | p :: rest => p ++ sep ++ join sep rest
  end.

(** The value of an [Optional[str]] that passes [if o:]; [None] and the
    empty string do not. *)
Definition nonempty (o : option str) : option str :=
  match o with
  | Some (c :: s) => Some (c :: s)
  | _ => None
  end.

(** [o or d] for an [Optional[str]] [o]. *)
Definition or_else (o : option str) (d : str) : str :=
  match nonempty o with
  | Some s => s
  | None => d
  end.

(** The characters [str.isspace] accepts. *)
Definition isspace (c : char) : bool :=
  ((N.leb 9 c && N.leb c 13) || (N.leb 28 c && N.leb c 32)
   || N.eqb c 133 || N.eqb c 160 || N.eqb c 5760
   || (N.leb 8192 c && N.leb c 8202)
   || N.eqb c 8232 || N.eqb c 8233 || N.eqb c 8239 || N.eqb c 8287
   || N.eqb c 12288)%bool.

Fixpoint lstrip (s : str) : str :=
  match s with
  | [] => []
  | c :: r => if isspace c then lstrip r else s
  end.

(** [s.strip()] *)
Definition strip (s : str) : str := rev (lstrip (rev (lstrip s))).

(** [s.lower()] on the Latin and Cyrillic capitals; the program compares
    the result with two words written in these alphabets only.  Other
    characters are left as they are. *)
Definition lower_char (c : char) : char :=
  if (N.leb 65 c && N.leb c 90)%bool then (c + 32)%N
  else if (N.leb 1040 c && N.leb c 1071)%bool then (c + 32)%N
  else if (N.leb 1024 c && N.leb c 1039)%bool then (c + 80)%N
  else c.

Definition lower (s : str) : str := List.map lower_char s.

(** SQLite's [LOWER]: ASCII letters only. *)
Definition sql_lower_char (c : char) : char :=
  if (N.leb 65 c && N.leb c 90)%bool then (c + 32)%N else c.

Definition sql_lower (s : str) : str := List.map sql_lower_char s.

(** [str(n)] for an integer. *)
Definition str_of_int (n : Z) : str :=
  List.map N_of_ascii (list_ascii_of_string (NilZero.string_of_int (Z.to_int n))).

(** The first code point of every run of ten decimal digits: the
    characters of category Nd in Unicode 14.0, the table of CPython 3.11.
    Each run holds the digits 0 to 9 in order. *)
Definition decimal_zeros : list N :=
  [48; 1632; 1776; 1984; 2406; 2534; 2662; 2790; 2918; 3046; 3174; 3302;
   3430; 3558; 3664; 3792; 3872; 4160; 4240; 6112; 6160; 6470; 6608; 6784;
   6800; 6992; 7088; 7232; 7248; 42528; 43216; 43264; 43472; 43504; 43600;
   44016; 65296; 66720; 68912; 69734; 69872; 69942; 70096; 70384; 70736;
   70864; 71248; 71360; 71472; 71904; 72016; 72784; 73040; 73120; 92768;
   92864; 93008; 120782; 120792; 120802; 120812; 120822; 123200; 123632;
   125264; 130032]%N.

(** The digit a character stands for, if it is a decimal digit. *)
Definition decimal_value (c : char) : option Z :=
  match find (fun z => N.leb z c && N.ltb c (z + 10))%bool decimal_zeros with
  | Some z => Some (Z.of_N (c - z))
  | None => None
  end.

(** The blanks [int] skips around a literal: among the ASCII characters
    the tab, the line feed, the vertical tab, the form feed, the carriage
    return and the space; past ASCII the characters [str.isspace] accepts.
    The separators U+001C to U+001F, which [str.strip] removes, are not
    skipped. *)
Definition int_space (c : char) : bool :=
  if N.ltb c 128 then ((N.leb 9 c && N.leb c 13) || N.eqb c 32)%bool
  else isspace c.

Fixpoint int_lstrip (s : str) : str :=
  match s with
  | [] => []
  | c :: r => if int_space c then int_lstrip r else s
  end.

Definition int_strip (s : str) : str := rev (int_lstrip (rev (int_lstrip s))).

Inductive DigitState := NeedDigit | AfterDigit.

(** The digit part of an integer literal: decimal digits, single
    underscores allowed between digits. *)
Fixpoint parse_digits (st : DigitState) (acc : Z) (s : str) : option Z :=
  match s with
  | [] => match st with AfterDigit => Some acc | NeedDigit => None end
  | c :: r =>
      match decimal_value c with
      | Some v => parse_digits AfterDigit (10 * acc + v) r
      | None =>
          if N.eqb c 95 then
            match st with
            | AfterDigit => parse_digits NeedDigit acc r
            | NeedDigit => None
            end
          else None
      end
  end.

(** [sys.get_int_max_str_digits()], at its default. *)
Definition int_max_str_digits : Z := 4300.

Definition count_digits (s : str) : Z :=
  Z.of_nat
    (List.length
       (List.filter
          (fun c => match decimal_value c with Some _ => true | None => false end)
          s)).

(** The sign of a literal and what follows it. *)
Definition split_sign (lit : str) : bool * str :=
  match lit with
  | c :: r =>
      if N.eqb c 45 then (true, r)
      else if N.eqb c 43 then (false, r)
      else (false, lit)
  | [] => (false, [])
  end.

(** [int(s)] for a string: blanks around, an optional sign, then decimal
    digits of any script with single underscores between them; a literal
    of more than 4300 digits is refused.  [None] stands for
    [ValueError]. *)
Definition py_int (s : str) : option Z :=
  let '(negative, digits) := split_sign (int_strip s) in
  if Z.ltb int_max_str_digits (count_digits digits) then None
  else
    match parse_digits NeedDigit 0 digits with
    | Some n => Some (if negative then - n else n)
    | None => None
    end.

(* ================================================================== *)
(** ** Configuration and constants *)

Definition ADMIN_DUMP_USER_ID : Z := 1637269136.

(** States for the ConversationHandler ([range(8)]), with [Idle] for
    [ConversationHandler.END]. *)
Inductive State :=
| Idle
| POSITION | MODE | MMR | SEARCH_MODE | SEARCH_POS_OPTION
| SELECT_POSITION | SEARCH_FULL_OPTION | SEARCH_MMR.

(** The dictionary [POSITIONS]. *)
Definition POSITIONS : list (str * str) :=
  [ (U "1", U "Carry");
    (U "2", U "Mid");
    (U "3", U "Offlane");
    (U "4", U "Soft Support");
    (U "5", U "Hard Support") ].

(** [POSITIONS[key]], [None] when [key not in POSITIONS]. *)
Fixpoint dict_get (d : list (str * str)) (key : str) : option str :=
  match d with
  | [] => None
  | (k, v) :: rest => if str_eqb key k then Some v else dict_get rest key
  end.

Definition GAME_MODES : list str :=
  [U "Turbo"; U "All Pick"; U "Single Draft"; U "Ranked"].

(* ================================================================== *)
(** ** Database utilities *)

(** A row of [profiles]. *)
Record Profile := mkProfile {
  user_id : Z;
  position : option str;
  mode : option str;
  mmr : option Z;
  username : option str;
  online : bool;
  full_party : bool
}.

Definition DB := list Profile.

(** [SELECT ... FROM profiles WHERE user_id = ?] followed by [fetchone]. *)
Definition get_profile (uid : Z) (db : DB) : option Profile :=
  List.find (fun r => Z.eqb (user_id r) uid) db.

(** [o.get(field)] on an optional profile, as in
    [profile.get("mmr") if profile else None]. *)
Definition field {A} (f : Profile -> option A) (p : option Profile) : option A :=
  match p with
  | Some r => f r
  | None => None
  end.

Definition flag (f : Profile -> bool) (p : option Profile) : bool :=
  match p with
  | Some r => f r
  | None => false
  end.

(** [x if x is not None else old] *)
Definition keep {A} (new : option A) (old : option A) : option A :=
  match new with
  | Some v => Some v
  | None => old
  end.

Definition keep_flag (new : option bool) (old : bool) : bool :=
  match new with
  | Some v => v
  | None => old
  end.

(** The [UPDATE profiles SET ... WHERE user_id = ?] of [upsert_profile]. *)
Definition update_row (uid : Z)
    (pos md : option str) (m : option Z) (un : option str)
    (onl fp : option bool) (r : Profile) : Profile :=
  if Z.eqb (user_id r) uid then
    mkProfile (user_id r) (keep pos (position r)) (keep md (mode r))
      (keep m (mmr r)) (keep un (username r))
      (keep_flag onl (online r)) (keep_flag fp (full_party r))
  else r.

(** [INSERT INTO profiles]: the new row takes its place in rowid order. *)
Fixpoint insert_row (r : Profile) (db : DB) : DB :=
  match db with
  | [] => [r]
  | x :: rest =>
      if Z.ltb (user_id r) (user_id x) then r :: db
      else x :: insert_row r rest
  end.

Definition upsert_profile (uid : Z)
    (pos md : option str) (m : option Z) (un : option str)
    (onl fp : option bool) (db : DB) : DB :=
  match get_profile uid db with
  | Some _ => List.map (update_row uid pos md m un onl fp) db
  | None =>
      insert_row
        (mkProfile uid pos md m un
           (match onl with Some true => true | _ => false end)
           (match fp with Some true => true | _ => false end))
        db
  end.

(* ================================================================== *)
(** ** Keyboards / UI helpers *)

Inductive Target :=
| callback_data (d : str)
| url (u : str).

Record InlineKeyboardButton := Btn {
  label : str;
  target : Target
}.

Definition InlineKeyboardMarkup := list (list InlineKeyboardButton).

Definition back_and_menu_row : list InlineKeyboardButton :=
  [ Btn (U "🔙 Назад") (callback_data (U "go_back"));
    Btn (U "🏠 В меню") (callback_data (U "main_menu")) ].

Definition get_main_keyboard : InlineKeyboardMarkup :=
  [ [Btn (U "🔍 Искать тиммейта") (callback_data (U "search_party"))];
    [Btn (U "👤 Мой профиль") (callback_data (U "my_profile"))] ].

Definition profile_edit_keyboard_dynamic (is_online fp : bool)
  : InlineKeyboardMarkup :=
  let online_label := if is_online then U "🟢 Онлайн" else U "⚪ Офлайн" in
  let full_label := if fp then U "🤝 Full: ON" else U "🤝 Full: OFF" in
  [ [ Btn online_label (callback_data (U "toggle_online"));
      Btn full_label (callback_data (U "toggle_fullparty")) ];
    [ Btn (U "✏️ Позиция") (callback_data (U "edit_position"));
      Btn (U "✏️ Режим") (callback_data (U "edit_mode")) ];
    [ Btn (U "✏️ MMR") (callback_data (U "edit_mmr")) ];
    back_and_menu_row ].

Definition menu_only_row : list InlineKeyboardButton :=
  [ Btn (U "🏠 В меню") (callback_data (U "main_menu")) ].

Definition mode_selection_keyboard (action_prefix : str) (include_back : bool)
  : InlineKeyboardMarkup :=
  List.map (fun m => [Btn m (callback_data (action_prefix ++ m))]) GAME_MODES
  ++ [if include_back then back_and_menu_row else menu_only_row].

(** The label shows the flag as stored, with [None] read as ON. *)
Definition search_pos_option_keyboard_dynamic (exclude_position : option bool)
  : InlineKeyboardMarkup :=
  let exclude := match exclude_position with Some b => b | None => true end in
  let lbl := U "🚫 Искл. мою поз.: " ++ (if exclude then U "ON" else U "OFF") in
  [ [ Btn lbl (callback_data (U "toggle_exclude_position"));
      Btn (U "▶️ Начать поиск") (callback_data (U "start_search")) ];
    [ Btn (U "🔎 Указать позицию") (callback_data (U "spec_position")) ];
    back_and_menu_row ].

Definition select_position_keyboard : InlineKeyboardMarkup :=
  [ [ Btn (U "1 — Carry") (callback_data (U "selectpos_1"));
      Btn (U "2 — Mid") (callback_data (U "selectpos_2")) ];
    [ Btn (U "3 — Offlane") (callback_data (U "selectpos_3"));
      Btn (U "4 — Soft Support") (callback_data (U "selectpos_4")) ];
    [ Btn (U "5 — Hard Support") (callback_data (U "selectpos_5")) ];
    back_and_menu_row ].

Definition search_full_option_keyboard (include_back : bool)
  : InlineKeyboardMarkup :=
  [ [ Btn (U "🔒 Только Full: Да") (callback_data (U "only_full_yes"));
      Btn (U "🔓 Только Full: Нет") (callback_data (U "only_full_no")) ];
    if include_back then back_and_menu_row else menu_only_row ].

Definition search_mmr_keyboard : InlineKeyboardMarkup :=
  [ [ Btn (U "Не учитывать MMR") (callback_data (U "mmr_none")) ];
    [ Btn (U "Δ 100") (callback_data (U "delta_100"));
      Btn (U "Δ 250") (callback_data (U "delta_250")) ];
    [ Btn (U "Δ 500") (callback_data (U "delta_500"));
      Btn (U "Указать вручную") (callback_data (U "delta_custom")) ];
    back_and_menu_row ].

(** The two-button rows built in place by the handlers. *)
Definition back_menu_keyboard : InlineKeyboardMarkup := [ back_and_menu_row ].

Definition back_menu_cancel_keyboard : InlineKeyboardMarkup :=
  [ [ Btn (U "🔙 Назад") (callback_data (U "go_back"));
      Btn (U "🏠 В меню") (callback_data (U "main_menu"));
      Btn (U "Отмена") (callback_data (U "go_back")) ] ].

Definition need_position_keyboard : InlineKeyboardMarkup :=
  [ [ Btn (U "📝 Указать позицию") (callback_data (U "edit_position")) ];
    menu_only_row ].

Definition need_mmr_keyboard : InlineKeyboardMarkup :=
  [ [ Btn (U "📝 Указать MMR") (callback_data (U "edit_mmr")) ];
    menu_only_row ].

(* ================================================================== *)
(** ** Session and messages *)

(** [context.user_data] *)
Record UserData := mkUserData {
  back_stack : option (list str);
  last_text : gmap str str;
  search_mode : option str;
  exclude_position : option bool;
  specific_position : option str;
  only_full_party : option bool;
  own_position : option str
}.

Definition empty_user_data : UserData :=
  mkUserData None ∅ None None None None None.

Record World := mkWorld {
  db : DB;
  ud : UserData
}.

(** What a handler makes visible: an edited message, a new message, and
    the candidate query that [cursor.execute] ran for the search. *)
Inductive Cond :=
| UserIdNe (uid : Z)
| OnlineIs1
| PositionEq (p : str)
| PositionNullOrNe (p : str)
| LowerModeEq (m : str)
| FullPartyIs1
| MmrBetween (lo hi : Z).

Inductive Action :=
| edit_message_text (text : str) (reply_markup : option InlineKeyboardMarkup)
| reply_text (text : str) (reply_markup : option InlineKeyboardMarkup)
| execute (sql : list Cond).

(** A callback query answers by editing its message, a text message by
    sending a new one. *)
Inductive Via := ViaQuery | ViaMessage.

Definition respond (via : Via) (text : str) (kb : InlineKeyboardMarkup) : Action :=
  match via with
  | ViaQuery => edit_message_text text (Some kb)
  | ViaMessage => reply_text text (Some kb)
  end.

(** The outcome of a handler: it returns a conversation state, or raises
    (the state of the conversation is then left as it was). *)
Inductive Outcome :=
| Return (st : State)
| Raised.

Definition Result := (World * list Action * Outcome)%type.

(* ================================================================== *)
(** ** Navigation (back stack) helpers *)

Definition with_back_stack (s : option (list str)) (u : UserData) : UserData :=
  mkUserData s (last_text u) (search_mode u) (exclude_position u)
    (specific_position u) (only_full_party u) (own_position u).

Definition get_stack (u : UserData) : list str :=
  match back_stack u with
  | Some s => s
  | None => []
  end.

Definition push_back (prev : str) (u : UserData) : UserData :=
  with_back_stack (Some (get_stack u ++ [prev])) u.

(** Returns the popped step together with the updated session. *)
Definition pop_back (u : UserData) : option str * UserData :=
  match rev (get_stack u) with
  | [] => (None, u)
  | val :: rest => (Some val, with_back_stack (Some (rev rest)) u)
  end.

Definition clear_back (u : UserData) : UserData := with_back_stack None u.

Definition store_last_text (step text : str) (u : UserData) : UserData :=
  mkUserData (back_stack u) (<[step := text]> (last_text u)) (search_mode u)
    (exclude_position u) (specific_position u) (only_full_party u)
    (own_position u).

Definition get_last_text (step : str) (u : UserData) : option str :=
  last_text u !! step.

(* ================================================================== *)
(** ** Search execution *)

(** The columns the search selects. *)
Record Candidate := mkCandidate {
  c_user_id : Z;
  c_position : option str;
  c_mode : option str;
  c_mmr : option Z;
  c_username : option str;
  c_full_party : bool
}.

Definition summary (r : Profile) : Candidate :=
  mkCandidate (user_id r) (position r) (mode r) (mmr r) (username r)
    (full_party r).

(** One conjunct of the WHERE clause on one row.  A comparison with NULL
    is not true in SQL, so it rejects the row. *)
Definition cond_holds (c : Cond) (r : Profile) : bool :=
  match c with
  | UserIdNe uid => negb (Z.eqb (user_id r) uid)
  | OnlineIs1 => online r
  | PositionEq p =>
      match position r with
      | Some q => str_eqb q p
      | None => false
      end
  | PositionNullOrNe p =>
      match position r with
      | Some q => negb (str_eqb q p)
      | None => true
      end
  | LowerModeEq m =>
      match mode r with
      | Some q => str_eqb (sql_lower q) (sql_lower m)
      | None => false
      end
  | FullPartyIs1 => full_party r
  | MmrBetween lo hi =>
      match mmr r with
      | Some x => Z.leb lo x && Z.leb x hi
      | None => false
      end
  end.

Definition where_holds (sql : list Cond) (r : Profile) : bool :=
  forallb (fun c => cond_holds c r) sql.

(** The rows the WHERE clause accepts, before [LIMIT]. *)
Definition matching (sql : list Cond) (d : DB) : list Profile :=
  List.filter (where_holds sql) d.

(** An integer that sqlite3 can bind as a parameter: one that fits the
    signed 64-bit INTEGER of SQLite.  For any other Python [int] the
    binding raises [OverflowError]. *)
Definition sqlite_int (z : Z) : bool :=
  Z.leb (- 2 ^ 63) z && Z.leb z (2 ^ 63 - 1).

(** The parameters of a conjunct that are computed from a number the user
    supplies: the two bounds of the mmr window.  (User ids are Telegram's
    and the integers of a row are SQLite's; both fit.) *)
Definition cond_binds (c : Cond) : bool :=
  match c with
  | MmrBetween lo hi => sqlite_int lo && sqlite_int hi
  | _ => true
  end.

(** Whether [cursor.execute(sql + " LIMIT 30", tuple(params))] succeeds. *)
Definition binds (sql : list Cond) : bool := forallb cond_binds sql.

(** [cursor.execute(sql + " LIMIT 30", tuple(params)); cursor.fetchall()]:
    the rows read.  None is read when [execute] raises. *)
Definition fetchall (sql : list Cond) (d : DB) : list Candidate :=
  if binds sql then List.map summary (firstn 30 (matching sql d)) else [].

(** The position conjunct. *)
Definition position_filter (requester_pos : option str)
    (exclude_pos : option bool) (specific_pos : option str) : list Cond :=
  match nonempty specific_pos with
  | Some p => [PositionEq p]
  | None =>
      match exclude_pos, nonempty requester_pos with
      | Some true, Some rp => [PositionNullOrNe rp]
      | _, _ => []
      end
  end.

(** The WHERE clause up to, and not including, the mmr conjunct. *)
Definition base_sql (requester_id : Z) (requester_pos : option str)
    (s_mode : option str) (exclude_pos : option bool)
    (specific_pos : option str) (only_full : option bool) : list Cond :=
  [UserIdNe requester_id; OnlineIs1]
  ++ position_filter requester_pos exclude_pos specific_pos
  ++ (match nonempty s_mode with Some m => [LowerModeEq m] | None => [] end)
  ++ (match only_full with Some true => [FullPartyIs1] | _ => [] end).

(** [min_m] and [max_m]. *)
Definition mmr_window (requester_mmr mmr_filter : Z) : Z * Z :=
  (Z.max 0 (requester_mmr - mmr_filter), requester_mmr + mmr_filter).

(** The query [perform_search_and_reply] builds; [None] is the early
    return taken when an mmr filter is asked for and the requester has no
    mmr. *)
Definition build_sql (d : DB) (requester_id : Z) (s_mode : option str)
    (mmr_filter : option Z) (exclude_pos : option bool)
    (specific_pos : option str) (only_full : option bool)
  : option (list Cond) :=
  let requester_profile := get_profile requester_id d in
  let requester_pos := field position requester_profile in
  let requester_mmr := field mmr requester_profile in
  let sql :=
    base_sql requester_id requester_pos s_mode exclude_pos specific_pos only_full in
  match mmr_filter with
  | None => Some sql
  | Some delta =>
      match requester_mmr with
      | None => None
      | Some m =>
          let '(min_m, max_m) := mmr_window m delta in
          Some (sql ++ [MmrBetween min_m max_m])
      end
  end.

Definition dash : str := U "—".

Definition contact_label (c : Candidate) : str :=
  match nonempty (c_username c) with
  | Some u => U "@" ++ u
  | None => U "ID " ++ str_of_int (c_user_id c)
  end.

Definition result_line (c : Candidate) : str :=
  U "👤 " ++ contact_label c ++ nl
  ++ U "🎯 " ++ or_else (c_position c) dash
  ++ U " | 🎮 " ++ or_else (c_mode c) dash
  ++ U " | 📊 "
  ++ (match c_mmr c with Some m => str_of_int m | None => dash end)
  ++ U " | " ++ (if c_full_party c then U "🤝" else dash).

Definition result_button (c : Candidate) : list InlineKeyboardButton :=
  match nonempty (c_username c) with
  | Some u =>
      [Btn (U "Написать " ++ contact_label c) (url (U "https://t.me/" ++ u))]
  | None =>
      [Btn (U "Написать " ++ contact_label c)
         (url (U "tg://user?id=" ++ str_of_int (c_user_id c)))]
  end.

Definition mmr_missing_text : str :=
  U "Чтобы фильтровать по MMR, у тебя должен быть указан MMR в профиле.".

Definition no_results_text : str :=
  U "😔 Пока никто не найден по заданным критериям. Попробуй позже!".

Definition results_text (rows : list Candidate) : str :=
  U "Результаты поиска:" ++ nl ++ nl
  ++ join (nl ++ nl) (List.map result_line rows)
  ++ nl ++ nl ++ U "Напиши игрокам, чтобы договориться о игре!".

Definition search_error_text : str := U "Ошибка поиска. Подробности в логах.".

(** The [try] block builds and runs the query; when [execute] raises, the
    [except] branch replies with the error text and the function
    returns. *)
Definition perform_search_and_reply (via : Via) (d : DB) (requester_id : Z)
    (s_mode : option str) (mmr_filter : option Z) (exclude_pos : option bool)
    (specific_pos : option str) (only_full : option bool) : list Action :=
  match build_sql d requester_id s_mode mmr_filter exclude_pos specific_pos only_full with
  | None => [respond via mmr_missing_text get_main_keyboard]
  | Some sql =>
      if binds sql then
        let rows := fetchall sql d in
        match rows with
        | [] => [execute sql; respond via no_results_text get_main_keyboard]
        | _ =>
            let buttons := List.map result_button rows ++ [menu_only_row] in
            [execute sql; respond via (results_text rows) (firstn 30 buttons)]
        end
      else [respond via search_error_text get_main_keyboard]
  end.

(* ================================================================== *)
(** ** Protected DB dump command *)

Definition dump_line (r : Profile) : str :=
  str_of_int (user_id r)
  ++ U " | pos=" ++ or_else (position r) dash
  ++ U " | mode=" ++ or_else (mode r) dash
  ++ U " | mmr=" ++ (match mmr r with Some m => str_of_int m | None => dash end)
  ++ U " " ++ U "| username=" ++ or_else (username r) dash
  ++ U " | online=" ++ (if online r then U "1" else U "0")
  ++ U " | full=" ++ (if full_party r then U "1" else U "0").

(** [range(0, n, step)] for a positive [step]. *)
Definition range_step (n step : nat) : list nat :=
  List.map (fun k => (k * step)%nat) (seq 0 ((n + step - 1) / step)%nat).

(** [text[i:i+chunk_size]] *)
Definition slice (text : str) (i size : nat) : str := firstn size (skipn i text).

Definition chunk_size : nat := 4000.

Definition chunks (text : str) : list str :=
  List.map (fun i => slice text i chunk_size)
    (range_step (List.length text) chunk_size).

Definition no_access_text : str := U "У вас нет доступа к этой команде.".

Definition empty_base_text : str := U "База профилей пуста.".

(** The messages the command sends to [caller]. *)
Definition cmd_dump_profiles_protected (caller : Z) (d : DB) : list Action :=
  if negb (Z.eqb caller ADMIN_DUMP_USER_ID) then [reply_text no_access_text None]
  else
    let rows := firstn 500 d in
    match rows with
    | [] => [reply_text empty_base_text None]
    | _ =>
        let lines := List.map dump_line rows in
        let text := join nl lines in
        List.map (fun c => reply_text c None) (chunks text)
    end.

(* ================================================================== *)
(** ** UI rendering on Back *)

Definition main_menu_text : str := U "Главное меню:".

(** The steps [render_prev] knows, with their fallback prompt. *)
Definition search_mode_prompt : str := U "Выбери режим игры для поиска:".

Definition search_pos_option_prompt : str :=
  U "Хотите исключать вашу позицию при поиске, или искать определённую позицию?".

Definition select_position_prompt : str := U "Выберите позицию для поиска:".

Definition search_full_option_prompt : str :=
  U "Искать только тех, кто согласен на Full Party?".

Definition search_mmr_prompt : str := U "Теперь выберите опции по MMR:".

(** [render_prev(prev, update_obj, context)].  The second component is the
    message shown, or [None] when the call raises: in the ["PROFILE"]
    branch the fallback text is an expression that applies a string
    literal to an argument, so evaluating it (which happens when no text
    was stored for the step) raises [TypeError]. *)
Definition render_prev (prev : option str) (via : Via) (from_user_id : Z)
    (w : World) : UserData * option Action :=
  let u := ud w in
  match nonempty prev with
  | None => (u, Some (respond via main_menu_text get_main_keyboard))
  | Some p =>
      if str_eqb p (U "MAIN_MENU") then
        (clear_back u, Some (respond via main_menu_text get_main_keyboard))
      else if str_eqb p (U "PROFILE") then
        let profile := get_profile from_user_id (db w) in
        let onl := flag online profile in
        let full := flag full_party profile in
        match nonempty (get_last_text (U "PROFILE") u) with
        | Some text =>
            (u, Some (respond via text (profile_edit_keyboard_dynamic onl full)))
        | None => (u, None)
        end
      else if str_eqb p (U "SEARCH_MODE") then
        let text := or_else (get_last_text (U "SEARCH_MODE") u) search_mode_prompt in
        (u, Some (respond via text (mode_selection_keyboard (U "mode_") true)))
      else if str_eqb p (U "SEARCH_POS_OPTION") then
        let text :=
          or_else (get_last_text (U "SEARCH_POS_OPTION") u) search_pos_option_prompt in
        (u, Some (respond via text
                    (search_pos_option_keyboard_dynamic (exclude_position u))))
      else if str_eqb p (U "SELECT_POSITION") then
        let text :=
          or_else (get_last_text (U "SELECT_POSITION") u) select_position_prompt in
        (u, Some (respond via text select_position_keyboard))
      else if str_eqb p (U "SEARCH_FULL_OPTION") then
        let text :=
          or_else (get_last_text (U "SEARCH_FULL_OPTION") u) search_full_option_prompt in
        (u, Some (respond via text (search_full_option_keyboard true)))
      else if str_eqb p (U "SEARCH_MMR") then
        let text := or_else (get_last_text (U "SEARCH_MMR") u) search_mmr_prompt in
        (u, Some (respond via text search_mmr_keyboard))
      else (u, Some (respond via main_menu_text get_main_keyboard))
  end.

(** [prev = pop_back(context); await render_prev(prev, ...); return END] *)
Definition back (via : Via) (from_user_id : Z) (w : World) : Result :=
  let '(prev, u1) := pop_back (ud w) in
  let '(u2, shown) := render_prev prev via from_user_id (mkWorld (db w) u1) in
  match shown with
  | Some a => (mkWorld (db w) u2, [a], Return Idle)
  | None => (mkWorld (db w) u2, [], Raised)
  end.

(* ================================================================== *)
(** ** Handlers *)

Definition set_search_mode (v : option str) (u : UserData) : UserData :=
  mkUserData (back_stack u) (last_text u) v (exclude_position u)
    (specific_position u) (only_full_party u) (own_position u).

Definition set_exclude_position (v : option bool) (u : UserData) : UserData :=
  mkUserData (back_stack u) (last_text u) (search_mode u) v
    (specific_position u) (only_full_party u) (own_position u).

Definition set_specific_position (v : option str) (u : UserData) : UserData :=
  mkUserData (back_stack u) (last_text u) (search_mode u) (exclude_position u)
    v (only_full_party u) (own_position u).

Definition set_only_full_party (v : option bool) (u : UserData) : UserData :=
  mkUserData (back_stack u) (last_text u) (search_mode u) (exclude_position u)
    (specific_position u) v (own_position u).

Definition set_own_position (v : option str) (u : UserData) : UserData :=
  mkUserData (back_stack u) (last_text u) (search_mode u) (exclude_position u)
    (specific_position u) (only_full_party u) v.

(** [context.user_data.setdefault("exclude_position", True)] *)
Definition setdefault_exclude_position (u : UserData) : UserData :=
  match exclude_position u with
  | Some _ => u
  | None => set_exclude_position (Some true) u
  end.

(** The five [context.user_data.pop(..., None)] that follow a search and
    open the main menu. *)
Definition pop_search_fields (u : UserData) : UserData :=
  set_own_position None
    (set_only_full_party None
       (set_specific_position None
          (set_exclude_position None (set_search_mode None u)))).

(** [start] *)
Definition start_text : str :=
  U "Привет! Это бот для поиска пати в Dota 2 🔥" ++ nl ++ U "Выбери действие:".

Definition start (w : World) : World * list Action :=
  (mkWorld (db w) (clear_back (ud w)), [reply_text start_text (Some get_main_keyboard)]).

Definition online_help : str :=
  nl ++ nl ++ U "Статус Online/Offline:" ++ nl
  ++ U "Если вы включите Online — вас будут показывать в результатах поиска и вам могут написать."
  ++ nl
  ++ U "Если выключите — вы не будете видны в поиске и вас не будут беспокоить.".

Definition full_party_help : str :=
  nl ++ nl ++ U "Full party (согласен на полную пати):" ++ nl
  ++ U "Если включено — вы помечены как готовый играть в полную пати.".

Definition profile_text (profile : option Profile) : str :=
  U "👤 Твой профиль:" ++ nl ++ nl
  ++ U "🎯 Позиция: " ++ or_else (field position profile) dash ++ nl
  ++ U "🎮 Предпочитаемый режим: " ++ or_else (field mode profile) dash ++ nl
  ++ U "📊 MMR: "
  ++ (match field mmr profile with Some m => str_of_int m | None => dash end) ++ nl
  ++ (match nonempty (field username profile) with
      | Some un => U "🔗 Username: @" ++ un ++ nl
      | None => []
      end)
  ++ online_help ++ full_party_help.

Definition on_main_menu (w : World) : Result :=
  let u := pop_search_fields (clear_back (ud w)) in
  (mkWorld (db w) u, [edit_message_text main_menu_text (Some get_main_keyboard)],
   Return Idle).

Definition on_my_profile (uid : Z) (w : World) : Result :=
  let profile := get_profile uid (db w) in
  let text := profile_text profile in
  let u := store_last_text (U "PROFILE") text (ud w) in
  (mkWorld (db w) u,
   [edit_message_text text
      (Some (profile_edit_keyboard_dynamic (flag online profile)
               (flag full_party profile)))],
   Return Idle).

Definition online_on_text : str :=
  U "🟢 Вы включили статус ONLINE." ++ nl ++ nl
  ++ U "Это означает: люди будут видеть вас в результатах поиска и смогут написать.".

Definition online_off_text : str :=
  U "⚪ Вы переключились в OFFLINE." ++ nl ++ nl
  ++ U "Вы не будете видны в поиске и вас не будут беспокоить.".

Definition on_toggle_online (uid : Z) (from_username : option str) (w : World)
  : Result :=
  let current_online := flag online (get_profile uid (db w)) in
  let new_online := negb current_online in
  let d := upsert_profile uid None None None from_username (Some new_online) None (db w) in
  let text := if new_online then online_on_text else online_off_text in
  let fp := flag full_party (get_profile uid d) in
  let u := store_last_text (U "PROFILE") text (ud w) in
  (mkWorld d u,
   [edit_message_text text (Some (profile_edit_keyboard_dynamic new_online fp))],
   Return Idle).

Definition full_on_text : str :=
  U "✅ Вы включили согласие на Full Party." ++ nl ++ nl
  ++ U "Это показывает другим, что вы согласны играть в полную пати.".

Definition full_off_text : str :=
  U "❌ Вы отключили согласие на Full Party." ++ nl ++ nl
  ++ U "Вы не помечены как желающий играть в полную пати.".

Definition on_toggle_fullparty (uid : Z) (from_username : option str) (w : World)
  : Result :=
  let current := flag full_party (get_profile uid (db w)) in
  let new := negb current in
  let d := upsert_profile uid None None None from_username None (Some new) (db w) in
  let text := if new then full_on_text else full_off_text in
  let onl := flag online (get_profile uid d) in
  let u := store_last_text (U "PROFILE") text (ud w) in
  (mkWorld d u,
   [edit_message_text text (Some (profile_edit_keyboard_dynamic onl new))],
   Return Idle).

Definition edit_position_text : str :=
  U "Укажи свою предпочитаемую позицию цифрой:" ++ nl ++ nl
  ++ U "1 — Carry" ++ nl ++ U "2 — Mid" ++ nl ++ U "3 — Offlane" ++ nl
  ++ U "4 — Soft Support" ++ nl ++ U "5 — Hard Support".

Definition on_edit_position (w : World) : Result :=
  let u := store_last_text (U "POSITION") edit_position_text
             (push_back (U "PROFILE") (ud w)) in
  (mkWorld (db w) u,
   [edit_message_text edit_position_text (Some back_menu_keyboard)],
   Return POSITION).

Definition edit_mode_text : str :=
  U "Выбери предпочитаемый режим (будет сохранён в профиле):".

Definition on_edit_mode (w : World) : Result :=
  let u := store_last_text (U "MODE") edit_mode_text
             (push_back (U "PROFILE") (ud w)) in
  (mkWorld (db w) u,
   [edit_message_text edit_mode_text
      (Some (mode_selection_keyboard (U "setmode_") true))],
   Return MODE).

Definition edit_mmr_text : str :=
  U "Введи свой MMR (целое число, например: 3500):".

Definition on_edit_mmr (w : World) : Result :=
  let u := store_last_text (U "MMR") edit_mmr_text
             (push_back (U "PROFILE") (ud w)) in
  (mkWorld (db w) u,
   [edit_message_text edit_mmr_text (Some back_menu_cancel_keyboard)],
   Return MMR).

Definition on_setmode (uid : Z) (from_username : option str) (data : str)
    (w : World) : Result :=
  let mode_name := drop_prefix (U "setmode_") data in
  let d := upsert_profile uid None (Some mode_name) None from_username None None (db w) in
  let profile := get_profile uid d in
  let text := U "✅ Предпочитаемый режим сохранён: " ++ mode_name in
  let u := store_last_text (U "PROFILE") text (ud w) in
  (mkWorld d u,
   [edit_message_text text
      (Some (profile_edit_keyboard_dynamic (flag online profile)
               (flag full_party profile)))],
   Return Idle).

Definition need_position_text : str := U "❌ Сначала укажи позицию в профиле!".

Definition on_search_party (uid : Z) (w : World) : Result :=
  let profile := get_profile uid (db w) in
  match nonempty (field position profile) with
  | None =>
      (w, [edit_message_text need_position_text (Some need_position_keyboard)],
       Return Idle)
  | Some pos =>
      let u := set_own_position (Some pos) (ud w) in
      let u := setdefault_exclude_position u in
      let u := set_specific_position None u in
      let u := set_only_full_party None u in
      let u := clear_back u in
      let u := push_back (U "MAIN_MENU") u in
      let u := store_last_text (U "SEARCH_MODE") search_mode_prompt u in
      (mkWorld (db w) u,
       [edit_message_text search_mode_prompt
          (Some (mode_selection_keyboard (U "mode_") true))],
       Return SEARCH_MODE)
  end.

Definition choose_position_first_text : str :=
  U "Сначала выберите позицию в профиле.".

Definition on_mode (data : str) (w : World) : Result :=
  let mode_name := drop_prefix (U "mode_") data in
  match nonempty (own_position (ud w)) with
  | None =>
      (w, [edit_message_text choose_position_first_text (Some get_main_keyboard)],
       Return Idle)
  | Some _ =>
      let u := push_back (U "SEARCH_MODE") (ud w) in
      let u := set_search_mode (Some mode_name) u in
      let u := setdefault_exclude_position u in
      let u := store_last_text (U "SEARCH_POS_OPTION") search_pos_option_prompt u in
      (mkWorld (db w) u,
       [edit_message_text search_pos_option_prompt
          (Some (search_pos_option_keyboard_dynamic (exclude_position u)))],
       Return SEARCH_POS_OPTION)
  end.

Definition toggle_exclude_text : str :=
  U "Выберите действие по позиции для поиска:".

(** Toggle exclude - toggle in-place, do not advance. *)
Definition on_toggle_exclude_position (w : World) : Result :=
  let cur := exclude_position (ud w) in
  let new := negb (match cur with Some b => b | None => true end) in
  let u := set_exclude_position (Some new) (ud w) in
  let u := store_last_text (U "SEARCH_POS_OPTION") toggle_exclude_text u in
  (mkWorld (db w) u,
   [edit_message_text toggle_exclude_text
      (Some (search_pos_option_keyboard_dynamic (exclude_position u)))],
   Return Idle).

Definition on_start_search (w : World) : Result :=
  let u := push_back (U "SEARCH_POS_OPTION") (ud w) in
  let u := store_last_text (U "SEARCH_FULL_OPTION") search_full_option_prompt u in
  (mkWorld (db w) u,
   [edit_message_text search_full_option_prompt
      (Some (search_full_option_keyboard true))],
   Return SEARCH_FULL_OPTION).

Definition on_spec_position (w : World) : Result :=
  let u := push_back (U "SEARCH_POS_OPTION") (ud w) in
  let u := store_last_text (U "SELECT_POSITION") select_position_prompt u in
  (mkWorld (db w) u,
   [edit_message_text select_position_prompt (Some select_position_keyboard)],
   Return SELECT_POSITION).

Definition bad_position_text : str := U "Неверный выбор позиции.".

Definition on_selectpos (data : str) (w : World) : Result :=
  match split1_snd 95%N data with
  | None => (w, [], Raised)
  | Some key =>
      match dict_get POSITIONS key with
      | None =>
          (w, [edit_message_text bad_position_text (Some get_main_keyboard)],
           Return Idle)
      | Some pos_name =>
          let u := set_specific_position (Some pos_name) (ud w) in
          let u := set_exclude_position None u in
          let u := push_back (U "SELECT_POSITION") u in
          let u := store_last_text (U "SEARCH_FULL_OPTION") search_full_option_prompt u in
          (mkWorld (db w) u,
           [edit_message_text search_full_option_prompt
              (Some (search_full_option_keyboard true))],
           Return SEARCH_FULL_OPTION)
      end
  end.

Definition only_full_yes_text : str :=
  U "Выбрано: только Full party. Теперь выберите опции по MMR:".

Definition only_full_no_text : str :=
  U "Выбрано: не фильтровать по Full party. Теперь выберите опции по MMR:".

Definition on_only_full_yes (w : World) : Result :=
  let u := set_only_full_party (Some true) (ud w) in
  let u := push_back (U "SEARCH_FULL_OPTION") u in
  let u := store_last_text (U "SEARCH_MMR") search_mmr_prompt u in
  (mkWorld (db w) u,
   [edit_message_text only_full_yes_text (Some search_mmr_keyboard)],
   Return SEARCH_MMR).

Definition on_only_full_no (w : World) : Result :=
  let u := set_only_full_party (Some false) (ud w) in
  let u := push_back (U "SEARCH_FULL_OPTION") u in
  let u := store_last_text (U "SEARCH_MMR") search_mmr_prompt u in
  (mkWorld (db w) u,
   [edit_message_text only_full_no_text (Some search_mmr_keyboard)],
   Return SEARCH_MMR).

(** The search as the three triggers run it: the session is read, the
    search replies, the session fields and the back stack are dropped. *)
Definition run_search (via : Via) (uid : Z) (mmr_filter : option Z) (w : World)
  : Result :=
  let u := ud w in
  let s_mode := search_mode u in
  let exclude_pos := match exclude_position u with Some b => b | None => true end in
  let specific_pos := specific_position u in
  let only_full := match only_full_party u with Some b => b | None => false end in
  let acts :=
    perform_search_and_reply via (db w) uid s_mode mmr_filter (Some exclude_pos)
      specific_pos (Some only_full) in
  (mkWorld (db w) (clear_back (pop_search_fields u)), acts, Return Idle).

Definition on_mmr_none (uid : Z) (w : World) : Result :=
  run_search ViaQuery uid None w.

Definition need_mmr_text : str :=
  U "Чтобы фильтровать по MMR, сначала укажи свой MMR.".

Definition on_delta (uid : Z) (data : str) (w : World) : Result :=
  match option_bind _ _ py_int (split1_snd 95%N data) with
  | None => (w, [], Raised)
  | Some delta =>
      match field mmr (get_profile uid (db w)) with
      | None =>
          (w, [edit_message_text need_mmr_text (Some need_mmr_keyboard)],
           Return Idle)
      | Some _ => run_search ViaQuery uid (Some delta) w
      end
  end.

Definition custom_delta_text : str :=
  U "Введи значение Δ (положительное целое), например: 300" ++ nl
  ++ U "(ММР будет искаться в диапазоне [your_mmr - Δ, your_mmr + Δ])".

Definition on_delta_custom (w : World) : Result :=
  let u := push_back (U "SEARCH_MMR") (ud w) in
  let u := store_last_text (U "SEARCH_MMR") custom_delta_text u in
  (mkWorld (db w) u,
   [edit_message_text custom_delta_text (Some back_menu_keyboard)],
   Return SEARCH_MMR).

(** [button_handler]: the tests are made in the order of the source. *)
Definition button_handler (uid : Z) (from_username : option str) (data : str)
    (w : World) : Result :=
  if str_eqb data (U "go_back") then back ViaQuery uid w
  else if str_eqb data (U "main_menu") then on_main_menu w
  else if str_eqb data (U "my_profile") then on_my_profile uid w
  else if str_eqb data (U "toggle_online") then on_toggle_online uid from_username w
  else if str_eqb data (U "toggle_fullparty") then on_toggle_fullparty uid from_username w
  else if str_eqb data (U "edit_position") then on_edit_position w
  else if str_eqb data (U "edit_mode") then on_edit_mode w
  else if str_eqb data (U "edit_mmr") then on_edit_mmr w
  else if startswith (U "setmode_") data then on_setmode uid from_username data w
  else if str_eqb data (U "search_party") then on_search_party uid w
  else if startswith (U "mode_") data then on_mode data w
  else if str_eqb data (U "toggle_exclude_position") then on_toggle_exclude_position w
  else if str_eqb data (U "start_search") then on_start_search w
  else if str_eqb data (U "spec_position") then on_spec_position w
  else if startswith (U "selectpos_") data then on_selectpos data w
  else if str_eqb data (U "only_full_yes") then on_only_full_yes w
  else if str_eqb data (U "only_full_no") then on_only_full_no w
  else if str_eqb data (U "mmr_none") then on_mmr_none uid w
  else if startswith (U "delta_") data then on_delta uid data w
  else if str_eqb data (U "delta_custom") then on_delta_custom w
  else (w, [], Return Idle).

(* ================================================================== *)
(** ** Text handlers *)

(** [txt.lower() in ("отмена", "cancel")] *)
Definition is_cancel (txt : str) : bool :=
  str_eqb (lower txt) (U "отмена") || str_eqb (lower txt) (U "cancel").

Definition bad_position_input_text : str := U "❌ Введи цифру от 1 до 5!".

Definition position_saved_text (position_name : str) : str :=
  U "✅ Позиция сохранена: " ++ position_name ++ nl ++ nl
  ++ U "Теперь можешь искать тиммейта!".

Definition get_position (uid : Z) (from_username : option str) (text : str)
    (w : World) : Result :=
  let txt := strip text in
  if is_cancel txt then back ViaMessage uid w
  else
    let pos_key := txt in
    match dict_get POSITIONS pos_key with
    | None =>
        (w, [reply_text bad_position_input_text (Some back_menu_keyboard)],
         Return POSITION)
    | Some position_name =>
        let d :=
          upsert_profile uid (Some position_name) None None from_username None None
            (db w) in
        (mkWorld d (ud w),
         [reply_text (position_saved_text position_name) (Some get_main_keyboard)],
         Return Idle)
    end.

Definition bad_mmr_input_text : str :=
  U "❌ Введи корректное число MMR (от 0 до 15000)!".

Definition mmr_saved_text : str := U "✅ MMR сохранён.".

Definition get_mmr (uid : Z) (from_username : option str) (text : str)
    (w : World) : Result :=
  let txt := strip text in
  if is_cancel txt then back ViaMessage uid w
  else
    let rejected :=
      (w, [reply_text bad_mmr_input_text (Some back_menu_cancel_keyboard)],
       Return MMR) in
    match py_int txt with
    | None => rejected
    | Some m =>
        if Z.ltb m 0 || Z.ltb 15000 m then rejected
        else
          let d := upsert_profile uid None None (Some m) from_username None None (db w) in
          (mkWorld d (ud w), [reply_text mmr_saved_text (Some get_main_keyboard)],
           Return Idle)
    end.

Definition bad_delta_input_text : str :=
  U "❌ Введи корректное положительное число Δ (например: 300).".

Definition get_search_mmr_custom (uid : Z) (text : str) (w : World) : Result :=
  let txt := strip text in
  if is_cancel txt then back ViaMessage uid w
  else
    let rejected :=
      (w, [reply_text bad_delta_input_text (Some back_menu_keyboard)],
       Return SEARCH_MMR) in
    match py_int txt with
    | None => rejected
    | Some delta =>
        if Z.leb delta 0 then rejected
        else
          match field mmr (get_profile uid (db w)) with
          | None =>
              (w, [reply_text need_mmr_text (Some need_mmr_keyboard)], Return Idle)
          | Some _ => run_search ViaMessage uid (Some delta) w
          end
    end.

(* ================================================================== *)
(** ** Main / setup *)

(** What reaches the bot from one user. *)
Inductive Update :=
| CallbackQuery (data : str)
| TextMessage (text : str)
| StartCommand
| DumpProfilesCommand.

(** The state after a handler: the one it returned, or the old one when it
    raised. *)
Definition settle (st : State) (r : Result) : World * list Action * State :=
  match r with
  | (w, acts, Return st') => (w, acts, st')
  | (w, acts, Raised) => (w, acts, st)
  end.

(** The routing set up in [main].  [button_handler] is the entry point and,
    with [allow_reentry], takes every callback query whatever the state;
    text goes to the message handler of the current state, if it has one;
    the two commands have handlers of their own outside the conversation. *)
Definition dispatch (st : State) (uid : Z) (from_username : option str)
    (upd : Update) (w : World) : World * list Action * State :=
  match upd with
  | StartCommand => let '(w', acts) := start w in (w', acts, st)
  | DumpProfilesCommand => (w, cmd_dump_profiles_protected uid (db w), st)
  | CallbackQuery data => settle st (button_handler uid from_username data w)
  | TextMessage text =>
      match st with
      | POSITION => settle st (get_position uid from_username text w)
      | MMR => settle st (get_mmr uid from_username text w)
      | SEARCH_MMR => settle st (get_search_mmr_custom uid text w)
      | _ => (w, [], st)
      end
  end.

(* ================================================================== *)
(** ** Notions used to state the properties *)

(** The row [r] with its mmr replaced. *)
Definition with_mmr (m : option Z) (r : Profile) : Profile :=
  mkProfile (user_id r) (position r) (mode r) m (username r) (online r)
    (full_party r).


(** The components of a handler's result. *)
Definition world_of (r : Result) : World := fst (fst r).
Definition acts_of (r : Result) : list Action := snd (fst r).
Definition outcome_of (r : Result) : Outcome := snd r.

(** Whether the database ran a candidate query. *)
Definition runs_query (acts : list Action) : bool :=
  existsb (fun a => match a with execute _ => true | _ => false end) acts.

(** The texts shown to the user, in order. *)
Definition displayed (acts : list Action) : list str :=
  flat_map
    (fun a =>
       match a with
       | edit_message_text t _ => [t]
       | reply_text t _ => [t]
       | execute _ => []
       end)
    acts.

(** All search fields of the session and the back stack are gone. *)
Definition session_cleared (u : UserData) : Prop :=
  search_mode u = None /\ exclude_position u = None
  /\ specific_position u = None /\ only_full_party u = None
  /\ own_position u = None /\ back_stack u = None.

(** The exclude flag as every reader takes it: unset means ON. *)
Definition exclude_effective (u : UserData) : bool :=
  match exclude_position u with
  | Some b => b
  | None => true
  end.

(** For every step, the text cached for it after the handler is the text
    cached before, or the one text the handler displayed. *)
Definition cache_agrees (w : World) (r : Result) : Prop :=
  forall step,
    get_last_text step (ud (world_of r)) = get_last_text step (ud w)
    \/ exists text,
         displayed (acts_of r) = [text]
         /\ get_last_text step (ud (world_of r)) = Some text.

(** A pool of profiles: a requester with position and mmr, a requester
    without mmr, and three candidates. *)
Definition requester : Profile :=
  mkProfile 10 (Some (U "Mid")) None (Some 3000) None true false.

Definition newcomer : Profile :=
  mkProfile 20 (Some (U "Mid")) None None None true false.

Definition carry_player : Profile :=
  mkProfile 11 (Some (U "Carry")) (Some (U "Ranked")) (Some 3100)
    (Some (U "carry")) true false.

Definition mid_player : Profile :=
  mkProfile 12 (Some (U "Mid")) (Some (U "Ranked")) (Some 3050) None true false.

Definition offline_player : Profile :=
  mkProfile 13 (Some (U "Offlane")) (Some (U "Ranked")) None None false false.

Definition pool : DB :=
  [requester; carry_player; mid_player; offline_player; newcomer].

(** A session that has reached the mmr-option step. *)
Definition session_at_mmr_step : UserData :=
  mkUserData
    (Some [U "MAIN_MENU"; U "SEARCH_MODE"; U "SEARCH_POS_OPTION";
           U "SEARCH_FULL_OPTION"])
    ∅ (Some (U "Ranked")) (Some false) None (Some false) (Some (U "Mid")).

Definition world_at_mmr_step : World := mkWorld pool session_at_mmr_step.

Definition fresh_world : World := mkWorld pool empty_user_data.

(** A session at the position-option step. *)
Definition session_at_pos_option : UserData :=
  mkUserData (Some [U "MAIN_MENU"; U "SEARCH_MODE"]) ∅ (Some (U "Ranked"))
    (Some true) None None (Some (U "Mid")).

Definition world_at_pos_option : World := mkWorld pool session_at_pos_option.




(** A table with 501 rows, ids 1 to 501. *)
Definition blank_profile (i : nat) : Profile :=
  mkProfile (Z.of_nat i) None None None None false false.

Definition large_pool : DB := List.map blank_profile (seq 1 501).

(** The query of a ranked search by [requester] with the default options. *)
Definition ranked_query : list Cond :=
  [UserIdNe 10; OnlineIs1; PositionNullOrNe (U "Mid"); LowerModeEq (U "Ranked")].

(** The query of the session at the mmr step, which has the exclusion of
    the own position switched off. *)
Definition open_query : list Cond :=
  [UserIdNe 10; OnlineIs1; LowerModeEq (U "Ranked")].

(** The same search with a delta of 250. *)
Definition ranked_query_250 : list Cond :=
  ranked_query ++ [MmrBetween 2750 3250].

(** The query of a search for a mid player. *)
Definition mid_query : list Cond :=
  [UserIdNe 10; OnlineIs1; PositionEq (U "Mid"); LowerModeEq (U "Ranked")].

(** The cache, the five search fields and nothing else: what of a session
    is not the back stack. *)
Definition same_but_stack (u u' : UserData) : Prop :=
  last_text u' = last_text u /\ search_mode u' = search_mode u
  /\ exclude_position u' = exclude_position u
  /\ specific_position u' = specific_position u
  /\ only_full_party u' = only_full_party u
  /\ own_position u' = own_position u.

(** The buttons with a fixed token that move one step forward, with the
    step they leave and the prompt [render_prev] falls back on for it. *)
Definition forward_buttons : list (str * (str * str)) :=
  [ (U "start_search", (U "SEARCH_POS_OPTION", search_pos_option_prompt));
    (U "spec_position", (U "SEARCH_POS_OPTION", search_pos_option_prompt));
    (U "only_full_yes", (U "SEARCH_FULL_OPTION", search_full_option_prompt));
    (U "only_full_no", (U "SEARCH_FULL_OPTION", search_full_option_prompt)) ].

(** A position that is unset or one of the labels of [POSITIONS], and an
    mmr that is unset or within the bounds the mmr prompt accepts. *)
Definition labelled (pos : option str) : Prop :=
  forall p, pos = Some p -> exists key, dict_get POSITIONS key = Some p.

Definition in_mmr_range (m : option Z) : Prop :=
  forall x, m = Some x -> 0 <= x <= 15000.

(** A table as the handlers keep it: one row per user id, every stored
    position a label, every stored mmr within the bounds. *)
Definition table_ok (d : DB) : Prop :=
  List.NoDup (List.map user_id d)
  /\ Forall (fun r => labelled (position r)) d
  /\ Forall (fun r => in_mmr_range (mmr r)) d.

(** The updates of one user handled one after the other; the result
    carries the messages of the last one. *)
Fixpoint run (st : State) (uid : Z) (from_username : option str)
    (upds : list Update) (w : World) : World * list Action * State :=
  match upds with
  | [] => (w, [], st)
  | upd :: rest =>
      let '(w', acts, st') := dispatch st uid from_username upd w in
      match rest with
      | [] => (w', acts, st')
      | _ :: _ => run st' uid from_username rest w'
      end
  end.

(** The conditions of the search on one row, as propositions: on the
    position, on the mode, on the full-party flag and on the mmr. *)
Definition position_ok (requester_pos : option str) (exclude_pos : option bool)
    (specific_pos : option str) (r : Profile) : Prop :=
  match nonempty specific_pos with
  | Some p => position r = Some p
  | None =>
      match exclude_pos, nonempty requester_pos with
      | Some true, Some rp => position r <> Some rp
      | _, _ => True
      end
  end.

Definition mode_ok (s_mode : option str) (r : Profile) : Prop :=
  match nonempty s_mode with
  | Some m => exists q, mode r = Some q /\ sql_lower q = sql_lower m
  | None => True
  end.

Definition full_party_ok (only_full : option bool) (r : Profile) : Prop :=
  only_full = Some true -> full_party r = true.

Definition mmr_ok (requester_mmr : option Z) (mmr_filter : option Z)
    (r : Profile) : Prop :=
  match mmr_filter, requester_mmr with
  | Some delta, Some m =>
      exists x, mmr r = Some x /\ Z.max 0 (m - delta) <= x <= m + delta
  | _, _ => True
  end.

(** The pool with one more player, who plays full party and whose mode is
    written in capitals. *)
Definition full_player : Profile :=
  mkProfile 30 (Some (U "Carry")) (Some (U "RANKED")) (Some 2900) None true true.

Definition party_pool : DB := pool ++ [full_player].

(** The ranked search of [requester] over such a pool, for full-party
    players only. *)
Definition full_query : list Cond :=
  ranked_query ++ [FullPartyIs1].

(** The world right after the search button was pressed. *)
Definition world_after_search_button : World :=
  world_of (button_handler 10 None (U "search_party") fresh_world).
(* ================================================================== *)
(** * Properties *)

(** ** Text comparison *)

Lemma str_eqb_eq (a b : str) : str_eqb a b = true <-> a = b.
Proof.
  revert b; induction a as [|x a IH]; intros [|y b]; simpl; try easy.
  destruct (N.eqb_spec x y) as [->|Hne].
  - rewrite IH. split; intros H; [now subst | now inversion H].
  - split; intros H; [discriminate | inversion H; contradiction].
Qed.

Lemma str_eqb_refl (a : str) : str_eqb a a = true.
Proof. now apply str_eqb_eq. Qed.

Lemma str_eqb_neq (a b : str) : str_eqb a b = false <-> a <> b.
Proof.
  rewrite <- str_eqb_eq. destruct (str_eqb a b); split; congruence.
Qed.

Lemma nonempty_some (o : option str) (s : str) :
  nonempty o = Some s -> o = Some s /\ s <> [].
Proof.
  destruct o as [[|c t]|]; simpl; intros H; inversion H; subst.
  split; [reflexivity | discriminate].
Qed.

Lemma nonempty_of (s : str) : s <> [] -> nonempty (Some s) = Some s.
Proof. destruct s; [contradiction | reflexivity]. Qed.

(** ** The candidate query *)

Lemma in_firstn {A} (n : nat) (l : list A) (x : A) :
  In x (firstn n l) -> In x l.
Proof.
  revert l; induction n as [|n IH]; intros [|y l]; simpl; try easy.
  intros [->|H]; [now left | right; now apply IH].
Qed.

(** Every fetched candidate is the summary of a stored row that satisfies
    the whole WHERE clause. *)
Lemma in_fetchall (sql : list Cond) (d : DB) (c : Candidate) :
  In c (fetchall sql d) ->
  exists r, In r d /\ where_holds sql r = true /\ summary r = c.
Proof.
  unfold fetchall, matching. intros H.
  destruct (binds sql); [|destruct H].
  apply List.in_map_iff in H as (r & Hc & Hr).
  apply in_firstn in Hr. apply List.filter_In in Hr as [Hin Hw].
  exists r; auto.
Qed.

(** When the parameters can be bound, the rows read are the summaries of
    the first thirty rows that satisfy the WHERE clause. *)
Lemma fetchall_binds (sql : list Cond) (d : DB) :
  binds sql = true ->
  fetchall sql d = List.map summary (firstn 30 (matching sql d)).
Proof. intros H. unfold fetchall. now rewrite H. Qed.

Lemma fetchall_overflow (sql : list Cond) (d : DB) :
  binds sql = false -> fetchall sql d = [].
Proof. intros H. unfold fetchall. now rewrite H. Qed.

Lemma binds_app (a b : list Cond) : binds (a ++ b) = binds a && binds b.
Proof. unfold binds. apply List.forallb_app. Qed.

Lemma where_holds_app (a b : list Cond) (r : Profile) :
  where_holds (a ++ b) r = where_holds a r && where_holds b r.
Proof. unfold where_holds. apply List.forallb_app. Qed.

Lemma where_holds_in (sql : list Cond) (r : Profile) (c : Cond) :
  where_holds sql r = true -> In c sql -> cond_holds c r = true.
Proof.
  unfold where_holds. rewrite List.forallb_forall. intros H Hin. now apply H.
Qed.

(** The shape of a query that is run: the base conjuncts, followed by the
    mmr conjunct exactly when an mmr filter is asked for. *)
Lemma build_sql_shape d rid sm mf ex sp ofp sql :
  build_sql d rid sm mf ex sp ofp = Some sql ->
  let base := base_sql rid (field position (get_profile rid d)) sm ex sp ofp in
  match mf with
  | None => sql = base
  | Some delta =>
      exists m, field mmr (get_profile rid d) = Some m /\
        sql = base ++ [MmrBetween (Z.max 0 (m - delta)) (m + delta)]
  end.
Proof.
  unfold build_sql. destruct mf as [delta|].
  - destruct (field mmr (get_profile rid d)) as [m|]; [|discriminate].
    simpl. intros H; inversion H. now exists m.
  - intros H; now inversion H.
Qed.

Lemma base_sql_head rid rp sm ex sp ofp :
  exists rest, base_sql rid rp sm ex sp ofp = UserIdNe rid :: OnlineIs1 :: rest.
Proof. unfold base_sql. simpl. eauto. Qed.

Lemma build_sql_head d rid sm mf ex sp ofp sql :
  build_sql d rid sm mf ex sp ofp = Some sql ->
  exists rest, sql = UserIdNe rid :: OnlineIs1 :: rest.
Proof.
  intros H. apply build_sql_shape in H. cbv zeta in H.
  destruct (base_sql_head rid (field position (get_profile rid d)) sm ex sp ofp)
    as [rest Hb].
  destruct mf as [delta|].
  - destruct H as (m & _ & ->). rewrite Hb. simpl. eauto.
  - subst sql. eauto.
Qed.

(** With unique user ids, a stored row is determined by its id. *)
Lemma row_of_id (d : DB) (r r' : Profile) :
  List.NoDup (List.map user_id d) -> In r d -> In r' d ->
  user_id r = user_id r' -> r = r'.
Proof.
  induction d as [|x d IH]; simpl; [easy|].
  intros Hnd [->|Hr] [->|Hr'] Heq; inversion Hnd as [|? ? Hx Hd]; subst.
  - reflexivity.
  - exfalso. apply Hx. rewrite Heq. now apply List.in_map.
  - exfalso. apply Hx. rewrite <- Heq. now apply List.in_map.
  - now apply IH.
Qed.

(** C1.  Whatever the mode, position, full-party and mmr options, every
    candidate returned by a search that is run has an id other than the
    requester's and is the summary of a stored row with [online] set; with
    one row per user id (the primary key), no offline profile has its id
    in the result list. *)
Theorem search_excludes_requester_and_offline :
  forall d rid sm mf ex sp ofp sql,
    build_sql d rid sm mf ex sp ofp = Some sql ->
    (forall c, In c (fetchall sql d) ->
       c_user_id c <> rid /\
       exists r, In r d /\ summary r = c /\ online r = true /\ user_id r <> rid)
    /\ (List.NoDup (List.map user_id d) ->
        forall r, In r d -> online r = false ->
          ~ In (user_id r) (List.map c_user_id (fetchall sql d))).
Proof.
  intros d rid sm mf ex sp ofp sql Hb.
  destruct (build_sql_head _ _ _ _ _ _ _ _ Hb) as [rest ->].
  assert (Hkey : forall c, In c (fetchall (UserIdNe rid :: OnlineIs1 :: rest) d) ->
            exists r, In r d /\ summary r = c /\ online r = true /\ user_id r <> rid).
  { intros c Hc. apply in_fetchall in Hc as (r & Hin & Hw & Hs).
    exists r. repeat split; auto.
    - apply (where_holds_in _ _ OnlineIs1) in Hw; [exact Hw | simpl; auto].
    - apply (where_holds_in _ _ (UserIdNe rid)) in Hw; [|simpl; auto].
      simpl in Hw. apply negb_true_iff in Hw. now apply Z.eqb_neq in Hw. }
  split.
  - intros c Hc. destruct (Hkey c Hc) as (r & Hin & Hs & Ho & Hne).
    split; [|eauto]. subst c. exact Hne.
  - intros Hnd r Hin Hoff Hres.
    apply List.in_map_iff in Hres as (c & Hid & Hc).
    destruct (Hkey c Hc) as (r' & Hin' & Hs & Ho & _).
    assert (r' = r).
    { apply (row_of_id d); auto. subst c. exact Hid. }
    subst r'. congruence.
Qed.

(** ** Routing of callback tokens *)

(** Decides the comparisons of [button_handler] on a token whose leading
    characters are known. *)
Ltac decide_tests :=
  repeat match goal with
    | |- context [str_eqb ?a ?b] =>
        let v := eval vm_compute in (str_eqb a b) in
        lazymatch v with
        | true => change (str_eqb a b) with true
        | false => change (str_eqb a b) with false
        end
    | |- context [startswith ?a ?b] =>
        let v := eval vm_compute in (startswith a b) in
        lazymatch v with
        | true => change (startswith a b) with true
        | false => change (startswith a b) with false
        end
    end;
  cbv iota.

Lemma button_handler_main_menu uid un w :
  button_handler uid un (U "main_menu") w = on_main_menu w.
Proof. unfold button_handler. decide_tests. reflexivity. Qed.

Lemma button_handler_toggle_exclude uid un w :
  button_handler uid un (U "toggle_exclude_position") w
  = on_toggle_exclude_position w.
Proof. unfold button_handler. decide_tests. reflexivity. Qed.

Lemma button_handler_toggle_online uid un w :
  button_handler uid un (U "toggle_online") w = on_toggle_online uid un w.
Proof. unfold button_handler. decide_tests. reflexivity. Qed.

Lemma button_handler_toggle_fullparty uid un w :
  button_handler uid un (U "toggle_fullparty") w = on_toggle_fullparty uid un w.
Proof. unfold button_handler. decide_tests. reflexivity. Qed.

Lemma button_handler_setmode uid un m w :
  button_handler uid un (U "setmode_" ++ m) w
  = on_setmode uid un (U "setmode_" ++ m) w.
Proof. unfold button_handler. decide_tests. reflexivity. Qed.

Lemma button_handler_edit_position uid un w :
  button_handler uid un (U "edit_position") w = on_edit_position w.
Proof. unfold button_handler. decide_tests. reflexivity. Qed.


Lemma button_handler_only_full_yes uid un w :
  button_handler uid un (U "only_full_yes") w = on_only_full_yes w.
Proof. unfold button_handler. decide_tests. reflexivity. Qed.

Lemma button_handler_only_full_no uid un w :
  button_handler uid un (U "only_full_no") w = on_only_full_no w.
Proof. unfold button_handler. decide_tests. reflexivity. Qed.

Lemma button_handler_mmr_none uid un w :
  button_handler uid un (U "mmr_none") w = on_mmr_none uid w.
Proof. unfold button_handler. decide_tests. reflexivity. Qed.

Lemma button_handler_selectpos uid un key w :
  button_handler uid un (U "selectpos_" ++ key) w
  = on_selectpos (U "selectpos_" ++ key) w.
Proof. unfold button_handler. decide_tests. reflexivity. Qed.

Lemma button_handler_delta uid un rest w :
  button_handler uid un (U "delta_" ++ rest) w
  = on_delta uid (U "delta_" ++ rest) w.
Proof. unfold button_handler. decide_tests. reflexivity. Qed.

(** The token of the button for a hand-typed delta starts with [delta_]: it
    is taken by that test, [int("custom")] raises, and the branch written
    for it further down is never reached. *)
Lemma button_handler_delta_custom uid un w :
  button_handler uid un (U "delta_custom") w = (w, [], Raised).
Proof.
  change (U "delta_custom") with (U "delta_" ++ U "custom").
  rewrite button_handler_delta. reflexivity.
Qed.

Lemma split_selectpos key : split1_snd 95%N (U "selectpos_" ++ key) = Some key.
Proof. reflexivity. Qed.

Lemma split_delta rest : split1_snd 95%N (U "delta_" ++ rest) = Some rest.
Proof. reflexivity. Qed.

(** The labels of [POSITIONS] are not empty. *)
Lemma positions_nonempty key pos_name :
  dict_get POSITIONS key = Some pos_name -> pos_name <> [].
Proof.
  unfold POSITIONS. simpl.
  repeat match goal with
    | |- context [if ?c then _ else _] => destruct c
    end; intros H; inversion H; discriminate.
Qed.

(** ** Position filtering *)

Lemma position_filter_specific rp ex p :
  p <> [] -> position_filter rp ex (Some p) = [PositionEq p].
Proof. intros Hp. unfold position_filter. now rewrite nonempty_of. Qed.

(** C2.  When a specific position is set, the query keeps the candidates
    whose position equals it, carries no own-position exclusion, and is the
    same for every stored value of the exclude flag; the button that
    selects a position stores its label and drops the exclude flag from the
    session. *)
Theorem specific_position_overrides_exclusion :
  (forall d rid sm mf ofp p,
     p <> [] ->
     (forall ex1 ex2,
        build_sql d rid sm mf ex1 (Some p) ofp
        = build_sql d rid sm mf ex2 (Some p) ofp
        /\ forall via,
            perform_search_and_reply via d rid sm mf ex1 (Some p) ofp
            = perform_search_and_reply via d rid sm mf ex2 (Some p) ofp)
     /\ (forall ex sql,
           build_sql d rid sm mf ex (Some p) ofp = Some sql ->
           In (PositionEq p) sql
           /\ (forall q, ~ In (PositionNullOrNe q) sql)
           /\ forall c, In c (fetchall sql d) -> c_position c = Some p))
  /\ (forall uid un key pos_name w,
        dict_get POSITIONS key = Some pos_name ->
        exists w' acts,
          button_handler uid un (U "selectpos_" ++ key) w
          = (w', acts, Return SEARCH_FULL_OPTION)
          /\ specific_position (ud w') = Some pos_name
          /\ exclude_position (ud w') = None).
Proof.
  split.
  - intros d rid sm mf ofp p Hp.
    assert (Hsame : forall ex1 ex2,
              build_sql d rid sm mf ex1 (Some p) ofp
              = build_sql d rid sm mf ex2 (Some p) ofp).
    { intros ex1 ex2. unfold build_sql, base_sql.
      now rewrite !position_filter_specific. }
    split.
    + intros ex1 ex2. split; [apply Hsame|].
      intros via. unfold perform_search_and_reply. now rewrite (Hsame ex1 ex2).
    + intros ex sql Hb. apply build_sql_shape in Hb. cbv zeta in Hb.
      unfold base_sql in Hb. rewrite position_filter_specific in Hb by exact Hp.
      assert (Hin : In (PositionEq p) sql).
      { destruct mf; [destruct Hb as (m & _ & ->)|subst sql]; simpl; auto. }
      split; [exact Hin|]. split.
      * intros q Hq.
        assert (Hq' : In (PositionNullOrNe q)
                        ([UserIdNe rid; OnlineIs1] ++ [PositionEq p]
                         ++ match nonempty sm with
                            | Some m => [LowerModeEq m]
                            | None => []
                            end
                         ++ match ofp with
                            | Some true => [FullPartyIs1]
                            | _ => []
                            end)
                      \/ exists lo hi, PositionNullOrNe q = MmrBetween lo hi).
        { destruct mf; [destruct Hb as (m & _ & ->)|subst sql; now left].
          apply List.in_app_or in Hq as [Hq|[Hq|[]]]; [now left|right; eauto]. }
        destruct Hq' as [Hq'|(lo & hi & Hq')]; [|discriminate].
        simpl in Hq'. destruct Hq' as [Hq'|[Hq'|[Hq'|Hq']]]; try discriminate.
        apply List.in_app_or in Hq' as [Hq'|Hq'].
        -- destruct (nonempty sm); simpl in Hq'; [destruct Hq' as [Hq'|[]]|];
             easy.
        -- destruct ofp as [[|]|]; simpl in Hq'; [destruct Hq' as [Hq'|[]]| |];
             easy.
      * intros c Hc. apply in_fetchall in Hc as (r & _ & Hw & <-).
        apply (where_holds_in _ _ _ Hw) in Hin. simpl in Hin. simpl.
        destruct (position r) as [q|]; [|discriminate].
        apply str_eqb_eq in Hin. now subst.
  - intros uid un key pos_name w Hk.
    rewrite button_handler_selectpos. unfold on_selectpos.
    rewrite split_selectpos, Hk. eexists _, _. split; [reflexivity|].
    split; reflexivity.
Qed.

(** ** The mmr window *)

Lemma mmr_between_holds lo hi r :
  cond_holds (MmrBetween lo hi) r = true
  <-> exists x, mmr r = Some x /\ lo <= x <= hi.
Proof.
  simpl. destruct (mmr r) as [x|].
  - rewrite andb_true_iff, !Z.leb_le. split.
    + intros [H1 H2]. exists x. auto.
    + intros (y & Hy & H1 & H2). inversion Hy; subst. auto.
  - split; [discriminate | intros (x & Hx & _); discriminate].
Qed.

Lemma build_sql_no_filter d rid sm ex sp ofp :
  build_sql d rid sm None ex sp ofp
  = Some (base_sql rid (field position (get_profile rid d)) sm ex sp ofp).
Proof. reflexivity. Qed.

Lemma build_sql_filter d rid sm delta ex sp ofp m :
  field mmr (get_profile rid d) = Some m ->
  build_sql d rid sm (Some delta) ex sp ofp
  = Some (base_sql rid (field position (get_profile rid d)) sm ex sp ofp
          ++ [MmrBetween (Z.max 0 (m - delta)) (m + delta)]).
Proof. intros Hm. unfold build_sql. now rewrite Hm. Qed.

Lemma where_holds_single c r : where_holds [c] r = cond_holds c r.
Proof. unfold where_holds. simpl. apply andb_true_r. Qed.

(** ** Unset fields *)

Lemma forallb_ext_in {A} (f g : A -> bool) (l : list A) :
  (forall x, In x l -> f x = g x) -> forallb f l = forallb g l.
Proof.
  induction l as [|x l IH]; simpl; [reflexivity|].
  intros H. rewrite (H x) by auto. f_equal. apply IH. auto.
Qed.

Lemma cond_holds_with_mmr c m r :
  (forall lo hi, c <> MmrBetween lo hi) ->
  cond_holds c (with_mmr m r) = cond_holds c r.
Proof. destruct c; simpl; try reflexivity. intros H. now elim (H lo hi). Qed.

Lemma base_sql_no_mmr rid rp sm ex sp ofp c :
  In c (base_sql rid rp sm ex sp ofp) -> forall lo hi, c <> MmrBetween lo hi.
Proof.
  unfold base_sql, position_filter. intros H lo hi ->.
  simpl in H. destruct H as [H|[H|H]]; try discriminate.
  apply List.in_app_or in H as [H|H].
  - destruct (nonempty sp); [destruct H as [H|[]]; discriminate|].
    destruct ex as [[|]|], (nonempty rp); simpl in H;
      try destruct H as [H|[]]; easy.
  - apply List.in_app_or in H as [H|H].
    + destruct (nonempty sm); [destruct H as [H|[]]; discriminate|easy].
    + destruct ofp as [[|]|]; simpl in H; try destruct H as [H|[]]; easy.
Qed.

(** C10.  Under an mmr filter the WHERE clause rejects every row whose mmr
    is unset, so no returned candidate has an unset mmr; the own-position
    exclusion accepts a row whose position is unset; without mmr filter
    the WHERE clause does not look at the mmr of a row. *)
Theorem unset_mmr_excluded_only_under_filter :
  forall d rid sm ex sp ofp,
    (forall delta sql,
       build_sql d rid sm (Some delta) ex sp ofp = Some sql ->
       (forall r, mmr r = None -> where_holds sql r = false)
       /\ (forall r, mmr r = None -> ~ In r (matching sql d))
       /\ (forall c, In c (fetchall sql d) -> c_mmr c <> None))
    /\ (forall p r, position r = None -> cond_holds (PositionNullOrNe p) r = true)
    /\ (forall sql,
          build_sql d rid sm None ex sp ofp = Some sql ->
          forall r m, where_holds sql (with_mmr m r) = where_holds sql r).
Proof.
  intros d rid sm ex sp ofp. split; [|split].
  - intros delta sql Hb. apply build_sql_shape in Hb. cbv zeta in Hb.
    destruct Hb as (m & _ & ->).
    assert (Hrej : forall r, mmr r = None ->
              where_holds
                (base_sql rid (field position (get_profile rid d)) sm ex sp ofp
                 ++ [MmrBetween (Z.max 0 (m - delta)) (m + delta)]) r = false).
    { intros r Hr. rewrite where_holds_app, where_holds_single. simpl.
      rewrite Hr. apply andb_false_r. }
    split; [exact Hrej|]. split.
    + intros r Hr Hin. unfold matching in Hin.
      apply List.filter_In in Hin as [_ Hw]. rewrite (Hrej r Hr) in Hw.
      discriminate.
    + intros c Hc Hnone. apply in_fetchall in Hc as (r & _ & Hw & <-).
      simpl in Hnone. rewrite (Hrej r Hnone) in Hw. discriminate.
  - intros p r Hr. simpl. now rewrite Hr.
  - intros sql Hb r m. rewrite build_sql_no_filter in Hb. inversion Hb; subst.
    unfold where_holds. apply forallb_ext_in. intros c Hc.
    apply cond_holds_with_mmr. now apply (base_sql_no_mmr _ _ _ _ _ _ _ Hc).
Qed.

(** ** The mmr window, as the database applies it *)

Lemma base_sql_binds rid rp sm ex sp ofp :
  binds (base_sql rid rp sm ex sp ofp) = true.
Proof.
  unfold binds. apply List.forallb_forall. intros c Hc.
  destruct c; try reflexivity.
  exfalso. exact (base_sql_no_mmr _ _ _ _ _ _ _ Hc lo hi eq_refl).
Qed.

Lemma binds_window base lo hi :
  binds base = true ->
  binds (base ++ [MmrBetween lo hi]) = sqlite_int lo && sqlite_int hi.
Proof.
  intros Hb. rewrite binds_app, Hb. unfold binds. simpl.
  now rewrite andb_true_r.
Qed.

(** C3, as the code has it.  With an mmr delta and a requester whose mmr
    is known, the query is the query without mmr filter extended by one
    conjunct, which a row passes exactly when its mmr lies in
    [max(0, requester_mmr - delta), requester_mmr + delta], both ends
    included.  When both bounds fit SQLite's 64-bit integers, every
    candidate returned is a row of the table that passes the other
    conditions and has its mmr in the window, and (with at most thirty
    such rows) every such row of the table is returned.  When a bound does
    not fit, the query cannot be executed: no candidate is returned and the
    reply is the search-error message.  For 3000 and 250 the window is
    [2750, 3250]; for 100 and 250 it is [0, 350]. *)
Theorem mmr_filter_is_inclusive_window :
  (forall d rid sm delta ex sp ofp m,
     field mmr (get_profile rid d) = Some m ->
     exists base sql,
       build_sql d rid sm None ex sp ofp = Some base
       /\ build_sql d rid sm (Some delta) ex sp ofp = Some sql
       /\ sql = base ++ [MmrBetween (Z.max 0 (m - delta)) (m + delta)]
       /\ mmr_window m delta = (Z.max 0 (m - delta), m + delta)
       /\ (forall r,
             where_holds sql r = true
             <-> where_holds base r = true
                 /\ exists x, mmr r = Some x
                              /\ Z.max 0 (m - delta) <= x <= m + delta)
       /\ (sqlite_int (Z.max 0 (m - delta)) = true ->
           sqlite_int (m + delta) = true ->
           (forall c,
              In c (fetchall sql d) ->
              exists r x,
                In r d /\ summary r = c /\ where_holds base r = true
                /\ mmr r = Some x /\ Z.max 0 (m - delta) <= x <= m + delta)
           /\ ((List.length (matching sql d) <= 30)%nat ->
               forall r x,
                 In r d -> where_holds base r = true ->
                 mmr r = Some x -> Z.max 0 (m - delta) <= x <= m + delta ->
                 In (summary r) (fetchall sql d)))
       /\ (sqlite_int (Z.max 0 (m - delta)) && sqlite_int (m + delta) = false ->
           fetchall sql d = []
           /\ forall via,
                perform_search_and_reply via d rid sm (Some delta) ex sp ofp
                = [respond via search_error_text get_main_keyboard]))
  /\ mmr_window 3000 250 = (2750, 3250)
  /\ mmr_window 100 250 = (0, 350).
Proof.
  split; [|split; reflexivity].
  intros d rid sm delta ex sp ofp m Hm.
  set (base := base_sql rid (field position (get_profile rid d)) sm ex sp ofp).
  set (lo := Z.max 0 (m - delta)). set (hi := m + delta).
  assert (Hrow : forall r,
            where_holds (base ++ [MmrBetween lo hi]) r = true
            <-> where_holds base r = true
                /\ exists x, mmr r = Some x /\ lo <= x <= hi).
  { intros r. rewrite where_holds_app, andb_true_iff, where_holds_single.
    rewrite mmr_between_holds. tauto. }
  exists base, (base ++ [MmrBetween lo hi]).
  split; [apply build_sql_no_filter|].
  split; [apply (build_sql_filter _ _ _ _ _ _ _ _ Hm)|].
  split; [reflexivity|]. split; [reflexivity|]. split; [exact Hrow|]. split.
  - intros Hlo Hhi.
    assert (Hb : binds (base ++ [MmrBetween lo hi]) = true).
    { rewrite binds_window by apply base_sql_binds. now rewrite Hlo, Hhi. }
    split.
    + intros c Hc. apply in_fetchall in Hc as (r & Hr & Hw & Hs).
      apply Hrow in Hw as (Hw & x & Hx & Hwin). exists r, x. auto.
    + intros Hlen r x Hr Hw Hx Hwin. rewrite (fetchall_binds _ _ Hb).
      apply List.in_map. rewrite List.firstn_all2 by exact Hlen.
      unfold matching. apply List.filter_In. split; [exact Hr|].
      apply Hrow. eauto.
  - intros Hover.
    assert (Hb : binds (base ++ [MmrBetween lo hi]) = false).
    { rewrite binds_window by apply base_sql_binds. exact Hover. }
    split; [apply (fetchall_overflow _ _ Hb)|].
    intros via. unfold perform_search_and_reply.
    rewrite (build_sql_filter _ _ _ _ _ _ _ _ Hm). fold base lo hi.
    now rewrite Hb.
Qed.

(** ** Mmr filter without an own mmr *)

Lemma int_lstrip_snoc (l : str) (c : char) :
  int_space c = false -> exists l', int_lstrip (l ++ [c]) = l' ++ [c].
Proof.
  intros Hc. induction l as [|x l [l' IH]]; simpl.
  - rewrite Hc. now exists [].
  - destruct (int_space x); [eauto|]. now exists (x :: l).
Qed.

Lemma int_strip_head (c : char) (s : str) :
  int_space c = false -> exists s', int_strip (c :: s) = c :: s'.
Proof.
  intros Hc. unfold int_strip. simpl int_lstrip at 2. rewrite Hc.
  simpl rev at 2.
  destruct (int_lstrip_snoc (rev s) c Hc) as [l' ->].
  rewrite List.rev_app_distr. simpl. eauto.
Qed.

(** A text whose first character is no blank, no sign and no digit is not
    an integer literal. *)
Lemma py_int_letter (c : char) (s : str) :
  int_space c = false -> decimal_value c = None ->
  c <> 45%N -> c <> 43%N ->
  py_int (c :: s) = None.
Proof.
  intros Hsp Hd Hm Hp. unfold py_int.
  destruct (int_strip_head c s Hsp) as [s' ->]. unfold split_sign.
  apply N.eqb_neq in Hm, Hp. rewrite Hm, Hp.
  destruct (Z.ltb _ _); [reflexivity|].
  simpl. rewrite Hd. now destruct (N.eqb c 95).
Qed.

Lemma lower_char_first (c v : char) :
  lower_char c = v -> (v = 99%N \/ v = 1086%N) ->
  int_space c = false /\ decimal_value c = None /\ c <> 45%N /\ c <> 43%N.
Proof.
  unfold lower_char. intros H Hv.
  assert (Hc : c = 67%N \/ c = 99%N \/ c = 1054%N \/ c = 1086%N).
  { destruct (N.leb_spec 65 c), (N.leb_spec c 90),
      (N.leb_spec 1040 c), (N.leb_spec c 1071),
      (N.leb_spec 1024 c), (N.leb_spec c 1039); simpl in H; lia. }
  destruct Hc as [-> | [-> | [-> | ->]]]; repeat split; discriminate.
Qed.

(** A text that [int] accepts is not one of the two cancel words. *)
Lemma py_int_not_cancel (txt : str) (n : Z) :
  py_int txt = Some n -> is_cancel txt = false.
Proof.
  intros Hn. unfold is_cancel.
  destruct (str_eqb (lower txt) (U "отмена")) eqn:E1;
    [|destruct (str_eqb (lower txt) (U "cancel")) eqn:E2; [|reflexivity]].
  - apply str_eqb_eq in E1. destruct txt as [|c s]; [discriminate|].
    injection E1 as Hc _.
    destruct (lower_char_first c _ Hc) as (H1 & H2 & H3 & H4); [now right|].
    rewrite (py_int_letter c s H1 H2 H3 H4) in Hn. discriminate.
  - apply str_eqb_eq in E2. destruct txt as [|c s]; [discriminate|].
    injection E2 as Hc _.
    destruct (lower_char_first c _ Hc) as (H1 & H2 & H3 & H4); [now left|].
    rewrite (py_int_letter c s H1 H2 H3 H4) in Hn. discriminate.
Qed.

(** C6.  When an mmr delta is asked for and the requester's stored mmr is
    unset, the delta buttons, the typed delta and the search function
    itself each end with their own message that asks for the mmr, and no
    candidate query is run; these messages differ from the one shown for
    an empty result. *)
Theorem mmr_filter_without_own_mmr_is_refused :
  forall uid w,
    field mmr (get_profile uid (db w)) = None ->
    (forall un rest delta,
       py_int rest = Some delta ->
       button_handler uid un (U "delta_" ++ rest) w
       = (w, [edit_message_text need_mmr_text (Some need_mmr_keyboard)],
          Return Idle))
    /\ (forall text delta,
          py_int (strip text) = Some delta -> 0 < delta ->
          get_search_mmr_custom uid text w
          = (w, [reply_text need_mmr_text (Some need_mmr_keyboard)],
             Return Idle))
    /\ (forall via sm delta ex sp ofp,
          build_sql (db w) uid sm (Some delta) ex sp ofp = None
          /\ perform_search_and_reply via (db w) uid sm (Some delta) ex sp ofp
             = [respond via mmr_missing_text get_main_keyboard]
          /\ runs_query
               (perform_search_and_reply via (db w) uid sm (Some delta) ex sp ofp)
             = false)
    /\ need_mmr_text <> no_results_text
    /\ mmr_missing_text <> no_results_text.
Proof.
  intros uid w Hm. split; [|split; [|split; [|split]]].
  - intros un rest delta Hd.
    rewrite button_handler_delta. unfold on_delta.
    rewrite split_delta. simpl option_bind. rewrite Hd, Hm. reflexivity.
  - intros text delta Hd Hpos. unfold get_search_mmr_custom.
    rewrite (py_int_not_cancel _ _ Hd), Hd.
    destruct (Z.leb_spec delta 0); [lia|]. now rewrite Hm.
  - intros via sm delta ex sp ofp.
    assert (Hb : build_sql (db w) uid sm (Some delta) ex sp ofp = None).
    { unfold build_sql. now rewrite Hm. }
    split; [exact Hb|]. unfold perform_search_and_reply. rewrite Hb.
    split; [reflexivity|]. now destruct via.
  - vm_compute. discriminate.
  - vm_compute. discriminate.
Qed.

(** ** Clearing of the session *)

Lemma run_search_clears via uid mf w :
  session_cleared (ud (world_of (run_search via uid mf w)))
  /\ outcome_of (run_search via uid mf w) = Return Idle.
Proof. unfold session_cleared. simpl. repeat split. Qed.

Lemma on_main_menu_clears w :
  session_cleared (ud (world_of (on_main_menu w)))
  /\ outcome_of (on_main_menu w) = Return Idle.
Proof. unfold session_cleared. simpl. repeat split. Qed.

Lemma respond_no_query via t kb : runs_query [respond via t kb] = false.
Proof. now destruct via. Qed.

Lemma render_prev_responds prev via uid w u a :
  render_prev prev via uid w = (u, Some a) ->
  exists t kb, a = respond via t kb.
Proof.
  unfold render_prev. destruct (nonempty prev) as [p|].
  - repeat match goal with
      | |- context [if ?c then _ else _] => destruct c
      | |- context [match nonempty ?o with _ => _ end] => destruct (nonempty o)
      end; intros H; inversion H; eauto.
  - intros H; inversion H; eauto.
Qed.

Lemma back_no_query via uid w : runs_query (acts_of (back via uid w)) = false.
Proof.
  unfold back. destruct (pop_back (ud w)) as [prev u1].
  destruct (render_prev prev via uid (mkWorld (db w) u1)) as [u2 [a|]] eqn:E;
    [|reflexivity].
  apply render_prev_responds in E as (t & kb & ->). apply respond_no_query.
Qed.

Lemma replies_no_query (l : list str) :
  runs_query (List.map (fun c => reply_text c None) l) = false.
Proof. induction l; simpl; auto. Qed.

Lemma dump_no_query caller d :
  runs_query (cmd_dump_profiles_protected caller d) = false.
Proof.
  unfold cmd_dump_profiles_protected.
  destruct (negb (Z.eqb caller ADMIN_DUMP_USER_ID)); [reflexivity|].
  destruct (firstn 500 d); [reflexivity|]. apply replies_no_query.
Qed.

(** A callback handler that runs a candidate query is the search trigger. *)
Lemma button_handler_query uid un data w :
  runs_query (acts_of (button_handler uid un data w)) = true ->
  exists mf, button_handler uid un data w = run_search ViaQuery uid mf w.
Proof.
  unfold button_handler.
  repeat match goal with
    | |- context [if ?c then _ else _] => destruct c
    end;
    try (rewrite back_no_query; discriminate);
    try (simpl; discriminate).
  - unfold on_search_party. destruct (nonempty _); simpl; discriminate.
  - unfold on_mode. destruct (nonempty _); simpl; discriminate.
  - unfold on_selectpos. destruct (split1_snd _ _); [|simpl; discriminate].
    destruct (dict_get _ _); simpl; discriminate.
  - intros _. now exists None.
  - unfold on_delta. destruct (option_bind _ _ _ _) as [delta|];
      [|simpl; discriminate].
    destruct (field mmr _); [|simpl; discriminate].
    intros _. now exists (Some delta).
Qed.

Lemma settle_back_no_query st via uid w :
  runs_query (snd (fst (settle st (back via uid w)))) = false.
Proof.
  pose proof (back_no_query via uid w) as Hb. unfold acts_of in Hb.
  destruct (back via uid w) as [[w' acts] [s|]]; simpl in *; exact Hb.
Qed.

Lemma text_handler_query st uid un text w :
  runs_query (snd (fst (dispatch st uid un (TextMessage text) w))) = true ->
  exists mf,
    dispatch st uid un (TextMessage text) w
    = settle st (run_search ViaMessage uid mf w).
Proof.
  unfold dispatch. destruct st; try (simpl; discriminate).
  - unfold get_position. destruct (is_cancel _).
    + rewrite settle_back_no_query. discriminate.
    + destruct (dict_get _ _); simpl; discriminate.
  - unfold get_mmr. destruct (is_cancel _).
    + rewrite settle_back_no_query. discriminate.
    + destruct (py_int _); [|simpl; discriminate].
      destruct (_ || _); simpl; discriminate.
  - unfold get_search_mmr_custom. destruct (is_cancel _).
    + rewrite settle_back_no_query. discriminate.
    + destruct (py_int _) as [delta|]; [|simpl; discriminate].
      destruct (Z.leb delta 0); [simpl; discriminate|].
      destruct (field mmr _); [|simpl; discriminate].
      intros _. now exists (Some delta).
Qed.

(** C4, as the code has it.  The main-menu button, pressed in any state,
    and every handler run that executes a candidate query leave all five
    search fields and the back stack unset and return to Idle.  The
    handler runs that call the search are the button for no mmr filter,
    a delta button and a typed positive delta, the latter two when the
    requester's mmr is known: each of them clears the session and returns
    to Idle, and executes the query whenever the bounds of the window fit
    SQLite's integers. *)
Theorem search_and_main_menu_clear_session :
  forall st uid un w,
    (exists w' acts,
       dispatch st uid un (CallbackQuery (U "main_menu")) w = (w', acts, Idle)
       /\ session_cleared (ud w'))
    /\ (forall upd w' acts st',
          dispatch st uid un upd w = (w', acts, st') ->
          runs_query acts = true ->
          session_cleared (ud w') /\ st' = Idle)
    /\ (exists w' acts,
          dispatch st uid un (CallbackQuery (U "mmr_none")) w = (w', acts, Idle)
          /\ runs_query acts = true /\ session_cleared (ud w'))
    /\ (forall rest delta m,
          py_int rest = Some delta ->
          field mmr (get_profile uid (db w)) = Some m ->
          exists w' acts,
            dispatch st uid un (CallbackQuery (U "delta_" ++ rest)) w
            = (w', acts, Idle)
            /\ session_cleared (ud w')
            /\ (sqlite_int (Z.max 0 (m - delta)) && sqlite_int (m + delta) = true ->
                runs_query acts = true))
    /\ (forall text delta m,
          py_int (strip text) = Some delta -> 0 < delta ->
          field mmr (get_profile uid (db w)) = Some m ->
          exists w' acts,
            dispatch SEARCH_MMR uid un (TextMessage text) w = (w', acts, Idle)
            /\ session_cleared (ud w')
            /\ (sqlite_int (Z.max 0 (m - delta)) && sqlite_int (m + delta) = true ->
                runs_query acts = true)).
Proof.
  intros st uid un w.
  assert (Hquery : forall via sm mf ex sp ofp sql,
            build_sql (db w) uid sm mf ex sp ofp = Some sql ->
            binds sql = true ->
            runs_query (perform_search_and_reply via (db w) uid sm mf ex sp ofp)
            = true).
  { intros via sm mf ex sp ofp sql Hb Hfit. unfold perform_search_and_reply.
    rewrite Hb, Hfit. now destruct (fetchall sql (db w)). }
  assert (Hnone : forall via,
            runs_query (acts_of (run_search via uid None w)) = true).
  { intros via. unfold run_search, acts_of. simpl.
    eapply Hquery; [apply build_sql_no_filter | apply base_sql_binds]. }
  assert (Hsome : forall via delta m,
            field mmr (get_profile uid (db w)) = Some m ->
            sqlite_int (Z.max 0 (m - delta)) && sqlite_int (m + delta) = true ->
            runs_query (acts_of (run_search via uid (Some delta) w)) = true).
  { intros via delta m Hm Hfit. unfold run_search, acts_of. simpl.
    eapply Hquery; [apply (build_sql_filter _ _ _ _ _ _ _ _ Hm)|].
    rewrite binds_window by apply base_sql_binds. exact Hfit. }
  split; [|split; [|split; [|split]]].
  - unfold dispatch. rewrite button_handler_main_menu.
    eexists _, _. split; [reflexivity|]. apply on_main_menu_clears.
  - intros upd w' acts st' Hd Hq. destruct upd as [data|text| |].
    + unfold dispatch in Hd.
      destruct (button_handler_query uid un data w) as [mf Hmf].
      { destruct (button_handler uid un data w) as [[w1 a1] o1].
        destruct o1; simpl in Hd; inversion Hd; subst; exact Hq. }
      rewrite Hmf in Hd. simpl in Hd. inversion Hd; subst.
      split; [apply (run_search_clears ViaQuery uid mf w)|reflexivity].
    + destruct (text_handler_query st uid un text w) as [mf Hmf].
      { rewrite Hd. exact Hq. }
      rewrite Hmf in Hd. simpl in Hd. inversion Hd; subst.
      split; [apply (run_search_clears ViaMessage uid mf w)|reflexivity].
    + simpl in Hd. inversion Hd; subst. discriminate.
    + simpl in Hd. inversion Hd; subst. rewrite dump_no_query in Hq.
      discriminate.
  - unfold dispatch. rewrite button_handler_mmr_none. unfold on_mmr_none.
    eexists _, _. split; [reflexivity|].
    split; [apply (Hnone ViaQuery)|].
    apply (run_search_clears ViaQuery uid None w).
  - intros rest delta m Hd Hm. unfold dispatch.
    rewrite button_handler_delta. unfold on_delta.
    rewrite split_delta. simpl option_bind. rewrite Hd, Hm.
    eexists _, _. split; [reflexivity|].
    split; [apply (run_search_clears ViaQuery uid (Some delta) w)|].
    apply (Hsome ViaQuery delta m Hm).
  - intros text delta m Hd Hpos Hm. unfold dispatch, get_search_mmr_custom.
    rewrite (py_int_not_cancel _ _ Hd), Hd.
    destruct (Z.leb_spec delta 0); [lia|]. rewrite Hm.
    eexists _, _. split; [reflexivity|].
    split; [apply (run_search_clears ViaMessage uid (Some delta) w)|].
    apply (Hsome ViaMessage delta m Hm).
Qed.

(** ** Persistence *)

Lemma update_row_id uid pos md m un onl fp r :
  user_id (update_row uid pos md m un onl fp r) = user_id r.
Proof. unfold update_row. now destruct (Z.eqb (user_id r) uid). Qed.

Lemma get_profile_update uid pos md m un onl fp d p :
  get_profile uid d = Some p ->
  get_profile uid (List.map (update_row uid pos md m un onl fp) d)
  = Some (update_row uid pos md m un onl fp p).
Proof.
  unfold get_profile. induction d as [|x d IH]; simpl; [discriminate|].
  rewrite update_row_id. destruct (Z.eqb (user_id x) uid) eqn:E.
  - intros H; inversion H; subst. reflexivity.
  - exact IH.
Qed.

Lemma get_profile_insert r d :
  get_profile (user_id r) d = None ->
  get_profile (user_id r) (insert_row r d) = Some r.
Proof.
  unfold get_profile. induction d as [|x d IH]; simpl.
  - now rewrite Z.eqb_refl.
  - destruct (Z.eqb (user_id x) (user_id r)) eqn:E; [discriminate|].
    intros H. destruct (Z.ltb (user_id r) (user_id x)); simpl.
    + now rewrite Z.eqb_refl.
    + rewrite E. now apply IH.
Qed.

(** After [upsert_profile] with a position, the profile of the user exists
    and carries that position. *)
Lemma upsert_position_persisted uid name md m un onl fp d :
  field position
    (get_profile uid (upsert_profile uid (Some name) md m un onl fp d))
  = Some name.
Proof.
  unfold upsert_profile. destruct (get_profile uid d) as [p|] eqn:E.
  - rewrite (get_profile_update _ _ _ _ _ _ _ _ _ E). simpl.
    unfold update_row. unfold get_profile in E.
    apply List.find_some in E as [_ ->]. reflexivity.
  - set (r := mkProfile uid (Some name) md m un _ _).
    change uid with (user_id r) at 1.
    rewrite get_profile_insert; [reflexivity | exact E].
Qed.

(** ** Position input *)

Lemma back_keeps_db via uid w : db (world_of (back via uid w)) = db w.
Proof.
  unfold back. destruct (pop_back (ud w)) as [prev u1].
  now destruct (render_prev prev via uid (mkWorld (db w) u1)) as [u2 [a|]].
Qed.

Lemma back_outcome via uid w :
  (acts_of (back via uid w) <> [] -> outcome_of (back via uid w) = Return Idle)
  /\ (acts_of (back via uid w) = [] -> outcome_of (back via uid w) = Raised).
Proof.
  unfold back. destruct (pop_back (ud w)) as [prev u1].
  destruct (render_prev prev via uid (mkWorld (db w) u1)) as [u2 [a|]];
    unfold acts_of, outcome_of; simpl; split; congruence.
Qed.

Lemma render_prev_session prev via uid w :
  fst (render_prev prev via uid w) = ud w
  \/ fst (render_prev prev via uid w) = clear_back (ud w).
Proof.
  unfold render_prev. destruct (nonempty prev); [|now left].
  repeat match goal with
    | |- context [if ?c then _ else _] => destruct c
    | |- context [match nonempty ?o with _ => _ end] => destruct (nonempty o)
    end; simpl; auto.
Qed.

(** Going back drops the last entry of the stack, or the whole stack when
    that entry is the main menu. *)
Lemma back_pops via uid w :
  get_stack (ud (world_of (back via uid w))) = removelast (get_stack (ud w))
  \/ get_stack (ud (world_of (back via uid w))) = [].
Proof.
  unfold back, pop_back.
  destruct (rev (get_stack (ud w))) as [|val rest] eqn:E.
  - assert (Hs : get_stack (ud w) = []).
    { rewrite <- (List.rev_involutive (get_stack (ud w))), E. reflexivity. }
    destruct (render_prev_session None via uid (mkWorld (db w) (ud w))) as [H|H];
      destruct (render_prev None via uid (mkWorld (db w) (ud w))) as [u2 [a|]];
      simpl in H; subst u2; unfold world_of; simpl; rewrite ?Hs; auto.
  - assert (Hs : get_stack (ud w) = rev rest ++ [val]).
    { rewrite <- (List.rev_involutive (get_stack (ud w))), E. reflexivity. }
    set (u1 := with_back_stack (Some (rev rest)) (ud w)).
    destruct (render_prev_session (Some val) via uid (mkWorld (db w) u1)) as [H|H];
      destruct (render_prev (Some val) via uid (mkWorld (db w) u1)) as [u2 [a|]];
      simpl in H; subst u2; unfold world_of; simpl; rewrite ?Hs;
      rewrite ?List.removelast_last; auto.
Qed.

(** What [render_prev] leaves of the session: it drops the back stack when
    the step to show is the main menu, and touches nothing otherwise. *)
Lemma render_prev_session_exact prev via uid w :
  fst (render_prev prev via uid w)
  = match nonempty prev with
    | Some p => if str_eqb p (U "MAIN_MENU") then clear_back (ud w) else ud w
    | None => ud w
    end.
Proof.
  unfold render_prev. destruct (nonempty prev); [|reflexivity].
  repeat match goal with
    | |- context [if ?c then _ else _] => destruct c
    | |- context [match nonempty ?o with _ => _ end] => destruct (nonempty o)
    end; reflexivity.
Qed.

(** Going back on an empty stack leaves it empty. *)
Lemma back_on_empty via uid w :
  get_stack (ud w) = [] -> get_stack (ud (world_of (back via uid w))) = [].
Proof.
  intros Hs. unfold back, pop_back. rewrite Hs. cbn [rev].
  pose proof (render_prev_session_exact None via uid (mkWorld (db w) (ud w))) as H.
  destruct (render_prev None via uid (mkWorld (db w) (ud w))) as [u2 [a|]];
    simpl in H; subst u2; exact Hs.
Qed.

(** Going back removes the last step of the stack, and the whole stack
    when that step is the main menu. *)
Lemma back_pops_top via uid w s x :
  get_stack (ud w) = s ++ [x] ->
  get_stack (ud (world_of (back via uid w)))
  = if str_eqb x (U "MAIN_MENU") then [] else s.
Proof.
  intros Hs. unfold back, pop_back. rewrite Hs, List.rev_app_distr.
  cbn [rev app]. rewrite List.rev_involutive.
  set (u1 := with_back_stack (Some s) (ud w)).
  pose proof (render_prev_session_exact (Some x) via uid (mkWorld (db w) u1)) as H.
  destruct (render_prev (Some x) via uid (mkWorld (db w) u1)) as [u2 [a|]];
    cbn [fst ud] in H; subst u2; unfold world_of; cbn [fst ud];
    (destruct x as [|c x']; [reflexivity|]);
    cbn [nonempty]; destruct (str_eqb (c :: x') (U "MAIN_MENU")); reflexivity.
Qed.

(** C7, as the code has it.  In the EditPosition state the text is first
    stripped of surrounding whitespace.  If it is then one of the two
    cancel words (in any letter case), the stored profiles are unchanged,
    the last entry of the back stack is removed (the whole stack when that
    entry is the main menu), and the state is Idle once that step is shown.
    Otherwise, if it is a key of [POSITIONS], the label is stored in the
    user's profile, echoed, and the flow returns to Idle; else the stored
    profiles and the session are unchanged, the prompt is repeated and the
    state remains EditPosition.  Each of the digits 1 to 5 itself, typed as
    it is, is such a key. *)
Theorem position_input_validated :
  forall uid un w,
    (forall text name,
       is_cancel (strip text) = false ->
       dict_get POSITIONS (strip text) = Some name ->
       exists d',
         dispatch POSITION uid un (TextMessage text) w
         = (mkWorld d' (ud w),
            [reply_text (position_saved_text name) (Some get_main_keyboard)],
            Idle)
         /\ d' = upsert_profile uid (Some name) None None un None None (db w)
         /\ field position (get_profile uid d') = Some name)
    /\ (forall text,
          is_cancel (strip text) = false ->
          dict_get POSITIONS (strip text) = None ->
          dispatch POSITION uid un (TextMessage text) w
          = (w, [reply_text bad_position_input_text (Some back_menu_keyboard)],
             POSITION))
    /\ (forall text w' acts st',
          is_cancel (strip text) = true ->
          dispatch POSITION uid un (TextMessage text) w = (w', acts, st') ->
          db w' = db w
          /\ (get_stack (ud w) = [] -> get_stack (ud w') = [])
          /\ (forall s x,
                get_stack (ud w) = s ++ [x] ->
                get_stack (ud w')
                = if str_eqb x (U "MAIN_MENU") then [] else s)
          /\ (acts <> [] -> st' = Idle))
    /\ (forall key name,
          In (key, name) POSITIONS ->
          exists d',
            dispatch POSITION uid un (TextMessage key) w
            = (mkWorld d' (ud w),
               [reply_text (position_saved_text name) (Some get_main_keyboard)],
               Idle)
            /\ field position (get_profile uid d') = Some name).
Proof.
  intros uid un w.
  assert (Hok : forall text name,
            is_cancel (strip text) = false ->
            dict_get POSITIONS (strip text) = Some name ->
            exists d',
              dispatch POSITION uid un (TextMessage text) w
              = (mkWorld d' (ud w),
                 [reply_text (position_saved_text name) (Some get_main_keyboard)],
                 Idle)
              /\ d' = upsert_profile uid (Some name) None None un None None (db w)
              /\ field position (get_profile uid d') = Some name).
  { intros text name Hc Hk. unfold dispatch, get_position. rewrite Hc, Hk.
    eexists. split; [reflexivity|]. split; [reflexivity|].
    apply upsert_position_persisted. }
  split; [exact Hok|]. split; [|split].
  - intros text Hc Hk. unfold dispatch, get_position. now rewrite Hc, Hk.
  - intros text w' acts st' Hc Hd. unfold dispatch, get_position in Hd.
    rewrite Hc in Hd.
    pose proof (back_keeps_db ViaMessage uid w) as Hdb.
    pose proof (back_on_empty ViaMessage uid w) as Hemp.
    pose proof (back_pops_top ViaMessage uid w) as Hpop.
    pose proof (back_outcome ViaMessage uid w) as [Hout _].
    destruct (back ViaMessage uid w) as [[w1 a1] o1].
    unfold world_of, acts_of, outcome_of in Hdb, Hemp, Hpop, Hout.
    simpl in Hd, Hdb, Hemp, Hpop, Hout.
    destruct o1; inversion Hd; subst; (split; [exact Hdb|]);
      (split; [exact Hemp|]); (split; [exact Hpop|]);
      intros Hne; specialize (Hout Hne); now inversion Hout.
  - intros key name Hin.
    assert (Hkey : is_cancel (strip key) = false
                   /\ dict_get POSITIONS (strip key) = Some name).
    { unfold POSITIONS in Hin. simpl in Hin.
      destruct Hin as [H|[H|[H|[H|[H|[]]]]]]; inversion H; subst;
        split; vm_compute; reflexivity. }
    destruct Hkey as [Hc Hk].
    destruct (Hok key name Hc Hk) as (d' & Hd & _ & Hp). eauto.
Qed.

(** ** The exclude toggle *)

(** Every update is routed in the ended conversation as it is in the
    position-option state: the message handlers belong to other states. *)
Lemma idle_routes_as_pos_option uid un upd w :
  fst (dispatch Idle uid un upd w) = fst (dispatch SEARCH_POS_OPTION uid un upd w).
Proof.
  destruct upd as [data|text| |]; simpl; try reflexivity.
  destruct (button_handler uid un data w) as [[w' acts] [s|]]; reflexivity.
Qed.

(** C8, as the code has it.  Pressing the exclude toggle twice gives the
    flag the value it had (an unset flag counts as ON, which is how it is
    read everywhere); each press shows the position-option keyboard again
    with the new value and leaves the back stack as it was.  The handler
    returns [ConversationHandler.END]: pressed in the position-option
    state, the toggle ends the conversation instead of keeping that state.
    The callback handler being the entry point, every update is routed in
    the ended conversation exactly as in the position-option state. *)
Theorem exclude_toggle_is_involutive_self_loop :
  forall uid un w,
    let r1 := button_handler uid un (U "toggle_exclude_position") w in
    let r2 := button_handler uid un (U "toggle_exclude_position") (world_of r1) in
    exclude_position (ud (world_of r1)) = Some (negb (exclude_effective (ud w)))
    /\ exclude_position (ud (world_of r2)) = Some (exclude_effective (ud w))
    /\ exclude_effective (ud (world_of r2)) = exclude_effective (ud w)
    /\ (forall b, exclude_position (ud w) = Some b ->
                  exclude_position (ud (world_of r2)) = Some b)
    /\ back_stack (ud (world_of r1)) = back_stack (ud w)
    /\ back_stack (ud (world_of r2)) = back_stack (ud w)
    /\ acts_of r1
       = [edit_message_text toggle_exclude_text
            (Some (search_pos_option_keyboard_dynamic
                     (Some (negb (exclude_effective (ud w))))))]
    /\ acts_of r2
       = [edit_message_text toggle_exclude_text
            (Some (search_pos_option_keyboard_dynamic
                     (Some (exclude_effective (ud w)))))]
    /\ outcome_of r1 = Return Idle
    /\ outcome_of r2 = Return Idle
    /\ dispatch SEARCH_POS_OPTION uid un
         (CallbackQuery (U "toggle_exclude_position")) w
       = (world_of r1, acts_of r1, Idle)
    /\ (forall upd w0,
          fst (dispatch Idle uid un upd w0)
          = fst (dispatch SEARCH_POS_OPTION uid un upd w0)).
Proof.
  intros uid un w r1 r2. subst r1 r2. unfold dispatch.
  rewrite !button_handler_toggle_exclude.
  unfold on_toggle_exclude_position, exclude_effective, world_of, acts_of,
    outcome_of. simpl.
  rewrite negb_involutive.
  repeat split; try reflexivity.
  - intros b Hb. now rewrite Hb.
  - intros upd w0. apply idle_routes_as_pos_option.
Qed.

(** ** The text cache *)

Lemma cache_agrees_same w (r : Result) :
  last_text (ud (world_of r)) = last_text (ud w) -> cache_agrees w r.
Proof. intros H step. left. unfold get_last_text. now rewrite H. Qed.


Lemma get_last_text_store s t u :
  get_last_text s (store_last_text s t u) = Some t.
Proof.
  unfold get_last_text, store_last_text. cbn [last_text].
  apply lookup_insert_eq.
Qed.

Lemma last_text_setdefault u :
  last_text (setdefault_exclude_position u) = last_text u.
Proof. unfold setdefault_exclude_position. now destruct (exclude_position u). Qed.

Lemma last_text_pop_back u : last_text (snd (pop_back u)) = last_text u.
Proof. unfold pop_back. now destruct (rev (get_stack u)). Qed.

Lemma last_text_render_prev prev via uid w :
  last_text (fst (render_prev prev via uid w)) = last_text (ud w).
Proof.
  unfold render_prev. destruct (nonempty prev); [|reflexivity].
  repeat match goal with
    | |- context [if ?c then _ else _] => destruct c
    | |- context [match nonempty ?o with _ => _ end] => destruct (nonempty o)
    end; reflexivity.
Qed.


Lemma run_search_keeps_cache via uid mf w : cache_agrees w (run_search via uid mf w).
Proof. now apply cache_agrees_same. Qed.












(** ** Chunking of the dump *)

Section Chunking.

Variable size : nat.
Hypothesis size_pos : (0 < size)%nat.

Lemma slices_concat (k : nat) (text : str) :
  (List.length text <= k * size)%nat ->
  List.concat (List.map (fun i => slice text (i * size) size) (seq 0 k)) = text.
Proof.
  revert text. induction k as [|k IH]; intros text Hlen.
  - simpl in *. destruct text; [reflexivity | simpl in Hlen; lia].
  - simpl seq. rewrite <- List.seq_shift. cbn [List.map List.concat].
    rewrite List.map_map. unfold slice at 1. cbn [Nat.mul].
    change (skipn 0 text) with text.
    transitivity (firstn size text ++ skipn size text);
      [|apply List.firstn_skipn].
    f_equal.
    transitivity
      (List.concat
         (List.map (fun i => slice (skipn size text) (i * size) size) (seq 0 k))).
    + f_equal. apply List.map_ext. intros i. unfold slice.
      rewrite List.skipn_skipn. f_equal. f_equal. lia.
    + apply IH. rewrite List.length_skipn. simpl in Hlen. lia.
Qed.

Lemma slices_bounded (text : str) (idx : list nat) :
  Forall (fun c : str => (List.length c <= size)%nat)
    (List.map (fun i => slice text i size) idx).
Proof.
  apply List.Forall_forall. intros c Hc.
  apply List.in_map_iff in Hc as (i & <- & _). unfold slice.
  apply List.firstn_le_length.
Qed.

Lemma range_step_covers (n : nat) : (n <= (n + size - 1) / size * size)%nat.
Proof.
  pose proof (Nat.div_mod_eq (n + size - 1) size) as Hd.
  pose proof (Nat.mod_upper_bound (n + size - 1) size) as Hm.
  nia.
Qed.

Lemma range_slices_concat (text : str) :
  List.concat
    (List.map (fun i => slice text i size) (range_step (List.length text) size))
  = text.
Proof.
  unfold range_step. rewrite List.map_map.
  apply slices_concat, range_step_covers.
Qed.

End Chunking.

Lemma chunks_concat (text : str) : List.concat (chunks text) = text.
Proof. unfold chunks. apply range_slices_concat. unfold chunk_size. lia. Qed.

Lemma chunks_bounded (text : str) :
  Forall (fun c : str => (List.length c <= chunk_size)%nat) (chunks text).
Proof. unfold chunks. apply slices_bounded. Qed.

(** C5, as the code has it.  A caller other than the configured one gets
    the refusal and nothing else, whatever the table holds.  The configured
    caller gets a notice when the table is empty, and otherwise the lines of
    the first 500 rows (all rows when there are at most 500), joined by
    newlines and cut into consecutive messages of at most 4000
    characters. *)
Theorem dump_is_restricted_and_chunked :
  forall caller d,
    (caller <> ADMIN_DUMP_USER_ID ->
     cmd_dump_profiles_protected caller d = [reply_text no_access_text None])
    /\ (caller = ADMIN_DUMP_USER_ID -> d = [] ->
        cmd_dump_profiles_protected caller d = [reply_text empty_base_text None])
    /\ (caller = ADMIN_DUMP_USER_ID -> d <> [] ->
        exists cs,
          cmd_dump_profiles_protected caller d
          = List.map (fun c => reply_text c None) cs
          /\ List.concat cs = join nl (List.map dump_line (firstn 500 d))
          /\ Forall (fun c : str => (List.length c <= 4000)%nat) cs)
    /\ ((List.length d <= 500)%nat -> firstn 500 d = d).
Proof.
  intros caller d. split; [|split; [|split]].
  - intros Hne. unfold cmd_dump_profiles_protected.
    apply Z.eqb_neq in Hne. now rewrite Hne.
  - intros -> ->. unfold cmd_dump_profiles_protected.
    now rewrite Z.eqb_refl.
  - intros -> Hd. unfold cmd_dump_profiles_protected. rewrite Z.eqb_refl.
    cbn [negb]. cbv iota.
    destruct (firstn 500 d) as [|r rows] eqn:E.
    { destruct d; [contradiction | discriminate]. }
    exists (chunks (join nl (List.map dump_line (r :: rows)))).
    split; [reflexivity|]. split; [apply chunks_concat | apply chunks_bounded].
  - apply List.firstn_all2.
Qed.

(* ================================================================== *)
(** * The properties on the example pool *)

Lemma pool_ids_unique : List.NoDup (List.map user_id pool).
Proof.
  vm_compute. repeat constructor; simpl; intuition discriminate.
Defined.

Lemma ranked_query_built :
  build_sql pool 10 (Some (U "Ranked")) None (Some true) None (Some false)
  = Some ranked_query.
Proof. vm_compute. reflexivity. Defined.

Lemma ranked_query_250_built :
  build_sql pool 10 (Some (U "Ranked")) (Some 250) (Some true) None (Some false)
  = Some ranked_query_250.
Proof. vm_compute. reflexivity. Defined.

Lemma mid_query_built :
  build_sql pool 10 (Some (U "Ranked")) None (Some true) (Some (U "Mid"))
    (Some false)
  = Some mid_query.
Proof. vm_compute. reflexivity. Defined.

(** The two searches of the example: with the default options the ranked
    search returns the carry player only; with Mid selected it returns the
    mid player only. *)
Example ranked_search_returns_carry_only :
  List.map c_user_id (fetchall ranked_query pool) = [11].
Proof. vm_compute. reflexivity. Qed.

Example mid_search_returns_mid_only :
  List.map c_user_id (fetchall mid_query pool) = [12].
Proof. vm_compute. reflexivity. Qed.

Lemma mid_label_nonempty : U "Mid" <> [].
Proof. intros H. vm_compute in H. discriminate. Defined.

(** The ranked search of the example returns the carry player only; the
    offline player is stored but is not in the result. *)
Lemma search_excludes_requester_and_offline_witness :
  build_sql pool 10 (Some (U "Ranked")) None (Some true) None (Some false)
  = Some ranked_query
  /\ In offline_player pool
  /\ online offline_player = false
  /\ ~ In (user_id offline_player)
         (List.map c_user_id (fetchall ranked_query pool)).
Proof.
  split; [exact ranked_query_built|].
  assert (Hin : In offline_player pool) by (simpl; auto).
  split; [exact Hin|]. split; [reflexivity|].
  exact (proj2
           (search_excludes_requester_and_offline pool 10 (Some (U "Ranked"))
              None (Some true) None (Some false) ranked_query
              ranked_query_built)
           pool_ids_unique offline_player Hin eq_refl).
Defined.

(** With the position Mid selected, the stored exclude flag makes no
    difference, every candidate is a mid player, and the button for
    position 2 stores Mid and drops the flag. *)
Lemma specific_position_overrides_exclusion_witness :
  U "Mid" <> []
  /\ build_sql pool 10 (Some (U "Ranked")) None (Some true) (Some (U "Mid"))
       (Some false)
     = build_sql pool 10 (Some (U "Ranked")) None (Some false) (Some (U "Mid"))
         (Some false)
  /\ In (PositionEq (U "Mid")) mid_query
  /\ dict_get POSITIONS (U "2") = Some (U "Mid")
  /\ exists w' acts,
       button_handler 10 None (U "selectpos_" ++ U "2") world_at_mmr_step
       = (w', acts, Return SEARCH_FULL_OPTION)
       /\ specific_position (ud w') = Some (U "Mid")
       /\ exclude_position (ud w') = None.
Proof.
  destruct specific_position_overrides_exclusion as [Hq Hsel].
  destruct (Hq pool 10 (Some (U "Ranked")) None (Some false) (U "Mid")
              mid_label_nonempty) as [Hsame Hpos].
  assert (Hk : dict_get POSITIONS (U "2") = Some (U "Mid"))
    by (vm_compute; reflexivity).
  split; [exact mid_label_nonempty|].
  split; [exact (proj1 (Hsame (Some true) (Some false)))|].
  split; [exact (proj1 (Hpos (Some true) mid_query mid_query_built))|].
  split; [exact Hk|].
  exact (Hsel 10 None (U "2") (U "Mid") world_at_mmr_step Hk).
Defined.

Lemma requester_mmr_3000 : field mmr (get_profile 10 pool) = Some 3000.
Proof. vm_compute. reflexivity. Defined.

Lemma window_250_low_binds : sqlite_int (Z.max 0 (3000 - 250)) = true.
Proof. vm_compute. reflexivity. Defined.

Lemma window_250_high_binds : sqlite_int (3000 + 250) = true.
Proof. vm_compute. reflexivity. Defined.

Lemma few_rows_within_250 :
  (List.length (matching ranked_query_250 pool) <= 30)%nat.
Proof. vm_compute. lia. Defined.

Lemma carry_is_stored : In carry_player pool.
Proof. right. left. reflexivity. Defined.

Lemma carry_passes_ranked_query : where_holds ranked_query carry_player = true.
Proof. vm_compute. reflexivity. Defined.

Lemma carry_within_250 : Z.max 0 (3000 - 250) <= 3100 <= 3000 + 250.
Proof. lia. Defined.

(** The requester has mmr 3000; with delta 250 the window [2750, 3250] can
    be bound, and the carry player, whose mmr is 3100, is returned. *)
Lemma mmr_filter_is_inclusive_window_witness :
  field mmr (get_profile 10 pool) = Some 3000
  /\ sqlite_int (Z.max 0 (3000 - 250)) = true
  /\ sqlite_int (3000 + 250) = true
  /\ (List.length (matching ranked_query_250 pool) <= 30)%nat
  /\ In carry_player pool
  /\ where_holds ranked_query carry_player = true
  /\ mmr carry_player = Some 3100
  /\ Z.max 0 (3000 - 250) <= 3100 <= 3000 + 250
  /\ In (summary carry_player) (fetchall ranked_query_250 pool).
Proof.
  split; [exact requester_mmr_3000|].
  split; [exact window_250_low_binds|]. split; [exact window_250_high_binds|].
  split; [exact few_rows_within_250|]. split; [exact carry_is_stored|].
  split; [exact carry_passes_ranked_query|]. split; [reflexivity|].
  split; [exact carry_within_250|].
  destruct (proj1 mmr_filter_is_inclusive_window pool 10 (Some (U "Ranked"))
              250 (Some true) None (Some false) 3000 requester_mmr_3000)
    as (base & sql & Hb & Hs & _ & _ & _ & Hfit & _).
  rewrite ranked_query_built in Hb. injection Hb as <-.
  rewrite ranked_query_250_built in Hs. injection Hs as <-.
  exact (proj2 (Hfit window_250_low_binds window_250_high_binds)
           few_rows_within_250 carry_player 3100 carry_is_stored
           carry_passes_ranked_query eq_refl carry_within_250).
Defined.

(** The claim fails for a window that SQLite cannot hold.  At the mmr step
    the requester, whose mmr is 3000, types a delta of 2^63.  The carry
    player is stored, passes the other conditions of the search, and its
    mmr, 3100, lies in the window [0, 3000 + 2^63]; yet the query cannot be
    executed, no candidate is returned, and the reply is the search-error
    message. *)
Lemma window_past_sqlite_range_admits_nobody :
  let delta := 2 ^ 63 in
  let r :=
    dispatch SEARCH_MMR 10 None (TextMessage (U "9223372036854775808"))
      world_at_mmr_step in
  py_int (strip (U "9223372036854775808")) = Some delta
  /\ field mmr (get_profile 10 pool) = Some 3000
  /\ build_sql pool 10 (Some (U "Ranked")) (Some delta) (Some false) None
       (Some false)
     = Some (open_query ++ [MmrBetween 0 (3000 + delta)])
  /\ In carry_player pool
  /\ where_holds open_query carry_player = true
  /\ mmr carry_player = Some 3100
  /\ Z.max 0 (3000 - delta) <= 3100 <= 3000 + delta
  /\ ~ In (summary carry_player)
         (fetchall (open_query ++ [MmrBetween 0 (3000 + delta)]) pool)
  /\ snd (fst r) = [reply_text search_error_text (Some get_main_keyboard)]
  /\ runs_query (snd (fst r)) = false.
Proof.
  cbv zeta.
  split; [vm_compute; reflexivity|]. split; [exact requester_mmr_3000|].
  split; [vm_compute; reflexivity|]. split; [exact carry_is_stored|].
  split; [vm_compute; reflexivity|]. split; [reflexivity|].
  split; [lia|]. split; [intros H; vm_compute in H; exact H|].
  split; vm_compute; reflexivity.
Defined.

(** Under the delta of 250 the newcomer, whose mmr is unset, is rejected by
    the WHERE clause; the offline player, whose mmr is unset too, passes the
    clause of the unfiltered query exactly as it would with an mmr. *)
Lemma unset_mmr_excluded_only_under_filter_witness :
  build_sql pool 10 (Some (U "Ranked")) (Some 250) (Some true) None (Some false)
  = Some ranked_query_250
  /\ mmr newcomer = None
  /\ where_holds ranked_query_250 newcomer = false
  /\ ~ In newcomer (matching ranked_query_250 pool)
  /\ where_holds ranked_query (with_mmr (Some 3000) offline_player)
     = where_holds ranked_query offline_player.
Proof.
  destruct (unset_mmr_excluded_only_under_filter pool 10 (Some (U "Ranked"))
              (Some true) None (Some false)) as (Hf & _ & Hn).
  destruct (Hf 250 ranked_query_250 ranked_query_250_built) as (Hrej & Hnot & _).
  split; [exact ranked_query_250_built|]. split; [reflexivity|].
  split; [exact (Hrej newcomer eq_refl)|].
  split; [exact (Hnot newcomer eq_refl)|].
  exact (Hn ranked_query ranked_query_built offline_player (Some 3000)).
Defined.

Lemma newcomer_has_no_mmr : field mmr (get_profile 20 (db world_at_mmr_step)) = None.
Proof. vm_compute. reflexivity. Defined.

Lemma requester_has_mmr : field mmr (get_profile 10 (db world_at_mmr_step)) = Some 3000.
Proof. vm_compute. reflexivity. Defined.

Lemma int_250 : py_int (U "250") = Some 250.
Proof. vm_compute. reflexivity. Defined.

Lemma int_typed_300 : py_int (strip (U " 300 ")) = Some 300.
Proof. vm_compute. reflexivity. Defined.

(** The newcomer presses the button for a delta of 250, or types 300: the
    request for the mmr is shown and the world is as before. *)
Lemma mmr_filter_without_own_mmr_is_refused_witness :
  field mmr (get_profile 20 (db world_at_mmr_step)) = None
  /\ py_int (U "250") = Some 250
  /\ button_handler 20 None (U "delta_" ++ U "250") world_at_mmr_step
     = (world_at_mmr_step,
        [edit_message_text need_mmr_text (Some need_mmr_keyboard)], Return Idle)
  /\ py_int (strip (U " 300 ")) = Some 300
  /\ get_search_mmr_custom 20 (U " 300 ") world_at_mmr_step
     = (world_at_mmr_step,
        [reply_text need_mmr_text (Some need_mmr_keyboard)], Return Idle).
Proof.
  destruct (mmr_filter_without_own_mmr_is_refused 20 world_at_mmr_step
              newcomer_has_no_mmr) as (Hbtn & Htxt & _).
  split; [exact newcomer_has_no_mmr|]. split; [exact int_250|].
  split; [exact (Hbtn None (U "250") 250 int_250)|].
  split; [exact int_typed_300|].
  apply (Htxt (U " 300 ") 300 int_typed_300). lia.
Defined.

Lemma window_250_binds :
  sqlite_int (Z.max 0 (3000 - 250)) && sqlite_int (3000 + 250) = true.
Proof. vm_compute. reflexivity. Defined.

(** The requester presses the button for a delta of 250: the query runs
    and the session is cleared. *)
Lemma search_and_main_menu_clear_session_witness :
  py_int (U "250") = Some 250
  /\ field mmr (get_profile 10 (db world_at_mmr_step)) = Some 3000
  /\ sqlite_int (Z.max 0 (3000 - 250)) && sqlite_int (3000 + 250) = true
  /\ exists w' acts,
       dispatch SEARCH_MMR 10 None (CallbackQuery (U "delta_" ++ U "250"))
         world_at_mmr_step
       = (w', acts, Idle)
       /\ runs_query acts = true /\ session_cleared (ud w').
Proof.
  destruct (search_and_main_menu_clear_session SEARCH_MMR 10 None
              world_at_mmr_step) as (_ & _ & _ & Hdelta & _).
  split; [exact int_250|]. split; [exact requester_has_mmr|].
  split; [exact window_250_binds|].
  destruct (Hdelta (U "250") 250 3000 int_250 requester_has_mmr)
    as (w' & acts & E & Hclear & Hrun).
  exists w', acts. split; [exact E|].
  split; [exact (Hrun window_250_binds) | exact Hclear].
Defined.

(** The claim of clearing on the path with an unset mmr fails: the
    newcomer presses the button for a delta of 250 at the mmr-option step;
    the state becomes Idle, no query runs, and the search mode, the exclude
    flag, the own position and the back stack are still in the session. *)
Lemma stale_session_after_mmr_refusal :
  let r :=
    dispatch SEARCH_MMR 20 None (CallbackQuery (U "delta_250")) world_at_mmr_step in
  snd r = Idle
  /\ runs_query (snd (fst r)) = false
  /\ search_mode (ud (fst (fst r))) = Some (U "Ranked")
  /\ exclude_position (ud (fst (fst r))) = Some false
  /\ back_stack (ud (fst (fst r))) = back_stack session_at_mmr_step
  /\ ~ session_cleared (ud (fst (fst r))).
Proof.
  cbv zeta. repeat split; try (vm_compute; reflexivity).
  intros [H _]. vm_compute in H. discriminate.
Defined.

(** The requester types " 3 " at the position prompt: Offlane is stored;
    "seven" is rejected and the state stays; "Cancel" leaves the table as
    it is. *)
Lemma position_input_validated_witness :
  is_cancel (strip (U " 3 ")) = false
  /\ dict_get POSITIONS (strip (U " 3 ")) = Some (U "Offlane")
  /\ (exists d',
        dispatch POSITION 10 None (TextMessage (U " 3 ")) fresh_world
        = (mkWorld d' (ud fresh_world),
           [reply_text (position_saved_text (U "Offlane")) (Some get_main_keyboard)],
           Idle)
        /\ d' = upsert_profile 10 (Some (U "Offlane")) None None None None None
                  (db fresh_world)
        /\ field position (get_profile 10 d') = Some (U "Offlane"))
  /\ is_cancel (strip (U "seven")) = false
  /\ dict_get POSITIONS (strip (U "seven")) = None
  /\ dispatch POSITION 10 None (TextMessage (U "seven")) fresh_world
     = (fresh_world,
        [reply_text bad_position_input_text (Some back_menu_keyboard)], POSITION)
  /\ is_cancel (strip (U "Cancel")) = true
  /\ db (fst (fst (dispatch POSITION 10 None (TextMessage (U "Cancel")) fresh_world)))
     = db fresh_world
  /\ get_stack (ud world_at_pos_option) = [U "MAIN_MENU"] ++ [U "SEARCH_MODE"]
  /\ get_stack
       (ud (fst (fst (dispatch POSITION 10 None (TextMessage (U "Cancel"))
                        world_at_pos_option))))
     = [U "MAIN_MENU"].
Proof.
  destruct (position_input_validated 10 None fresh_world)
    as (Hok & Hbad & Hcancel & _).
  assert (H1 : is_cancel (strip (U " 3 ")) = false) by (vm_compute; reflexivity).
  assert (H2 : dict_get POSITIONS (strip (U " 3 ")) = Some (U "Offlane"))
    by (vm_compute; reflexivity).
  assert (H3 : is_cancel (strip (U "seven")) = false) by (vm_compute; reflexivity).
  assert (H4 : dict_get POSITIONS (strip (U "seven")) = None)
    by (vm_compute; reflexivity).
  assert (H5 : is_cancel (strip (U "Cancel")) = true) by (vm_compute; reflexivity).
  split; [exact H1|]. split; [exact H2|].
  split; [exact (Hok (U " 3 ") (U "Offlane") H1 H2)|].
  split; [exact H3|]. split; [exact H4|].
  split; [exact (Hbad (U "seven") H3 H4)|].
  split; [exact H5|]. split.
  - destruct (dispatch POSITION 10 None (TextMessage (U "Cancel")) fresh_world)
      as [[w' acts] st'] eqn:E.
    exact (proj1 (Hcancel (U "Cancel") w' acts st' H5 E)).
  - split; [reflexivity|].
    destruct (position_input_validated 10 None world_at_pos_option)
      as (_ & _ & Hstack & _).
    destruct (dispatch POSITION 10 None (TextMessage (U "Cancel"))
                world_at_pos_option) as [[w' acts] st'] eqn:E.
    destruct (Hstack (U "Cancel") w' acts st' H5 E) as (_ & _ & Hpop & _).
    exact (Hpop [U "MAIN_MENU"] (U "SEARCH_MODE") eq_refl).
Defined.

(** The claim about every other text fails: "cancel" is not a key of
    [POSITIONS], yet the state does not remain EditPosition; " 3" is not
    one of the digits, yet the stored position changes from Mid to
    Offlane. *)
Lemma cancel_and_padded_digit_break_the_rule :
  dict_get POSITIONS (U "cancel") = None
  /\ snd (dispatch POSITION 10 None (TextMessage (U "cancel")) fresh_world) = Idle
  /\ dict_get POSITIONS (U " 3") = None
  /\ field position (get_profile 10 (db fresh_world)) = Some (U "Mid")
  /\ field position
       (get_profile 10
          (db (fst (fst (dispatch POSITION 10 None (TextMessage (U " 3"))
                           fresh_world)))))
     = Some (U "Offlane").
Proof. repeat split; vm_compute; reflexivity. Defined.

(** With the flag stored as OFF, two presses of the toggle store OFF
    again. *)
Lemma exclude_toggle_is_involutive_self_loop_witness :
  exclude_position (ud world_at_mmr_step) = Some false
  /\ exclude_position
       (ud (world_of
              (button_handler 10 None (U "toggle_exclude_position")
                 (world_of
                    (button_handler 10 None (U "toggle_exclude_position")
                       world_at_mmr_step)))))
     = Some false.
Proof.
  split; [reflexivity|].
  destruct (exclude_toggle_is_involutive_self_loop 10 None world_at_mmr_step)
    as (_ & _ & _ & H & _).
  exact (H false eq_refl).
Defined.

(** The claim fails on the state: pressed in the position-option state,
    the toggle inverts the flag and leaves that state for the ended
    conversation. *)
Lemma toggle_ends_the_conversation :
  let r :=
    dispatch SEARCH_POS_OPTION 10 None
      (CallbackQuery (U "toggle_exclude_position")) world_at_pos_option in
  exclude_position (ud world_at_pos_option) = Some true
  /\ exclude_position (ud (fst (fst r))) = Some false
  /\ snd r = Idle
  /\ snd r <> SEARCH_POS_OPTION.
Proof.
  cbv zeta. split; [reflexivity|]. split; [vm_compute; reflexivity|].
  split; [vm_compute; reflexivity|].
  intros H. vm_compute in H. discriminate.
Defined.






Lemma stranger_is_not_admin : 42 <> ADMIN_DUMP_USER_ID.
Proof. unfold ADMIN_DUMP_USER_ID. lia. Defined.

Lemma pool_not_empty : pool <> [].
Proof. discriminate. Defined.

(** A stranger is refused; the configured caller receives the lines of the
    pool in messages of at most 4000 characters. *)
Lemma dump_is_restricted_and_chunked_witness :
  42 <> ADMIN_DUMP_USER_ID
  /\ cmd_dump_profiles_protected 42 pool = [reply_text no_access_text None]
  /\ pool <> []
  /\ exists cs,
       cmd_dump_profiles_protected ADMIN_DUMP_USER_ID pool
       = List.map (fun c => reply_text c None) cs
       /\ List.concat cs = join nl (List.map dump_line (firstn 500 pool))
       /\ Forall (fun c : str => (List.length c <= 4000)%nat) cs.
Proof.
  split; [exact stranger_is_not_admin|].
  split; [exact (proj1 (dump_is_restricted_and_chunked 42 pool)
                   stranger_is_not_admin)|].
  split; [exact pool_not_empty|].
  destruct (dump_is_restricted_and_chunked ADMIN_DUMP_USER_ID pool)
    as (_ & _ & H & _).
  exact (H eq_refl pool_not_empty).
Defined.

(** The claim that every stored profile is returned fails on a table of 501
    rows: what the configured caller receives is not the text of all the
    lines, and the line of the last row is not in it. *)
Lemma dump_omits_rows_past_500 :
  List.length large_pool = 501%nat
  /\ List.concat
       (displayed (cmd_dump_profiles_protected ADMIN_DUMP_USER_ID large_pool))
     <> join nl (List.map dump_line large_pool)
  /\ List.concat
       (displayed (cmd_dump_profiles_protected ADMIN_DUMP_USER_ID large_pool))
     = join nl (List.map dump_line (firstn 500 large_pool)).
Proof.
  split; [vm_compute; reflexivity|]. split.
  - apply str_eqb_neq. vm_compute. reflexivity.
  - apply str_eqb_eq. vm_compute. reflexivity.
Defined.

(* ================================================================== *)
(** * Further properties *)

(** ** The table under [upsert_profile] *)

Lemma get_profile_id uid d p : get_profile uid d = Some p -> user_id p = uid.
Proof.
  unfold get_profile. intros H. apply List.find_some in H as [_ H].
  now apply Z.eqb_eq.
Qed.

Lemma get_profile_in uid d p : get_profile uid d = Some p -> In p d.
Proof. unfold get_profile. intros H. now apply List.find_some in H. Qed.

Lemma get_profile_none uid d :
  get_profile uid d = None <-> ~ In uid (List.map user_id d).
Proof.
  unfold get_profile. induction d as [|x d IH]; simpl.
  - tauto.
  - destruct (Z.eqb_spec (user_id x) uid) as [E|E].
    + split; [discriminate | intros H; elim H; auto].
    + rewrite IH. tauto.
Qed.

Lemma update_row_other uid pos md m un onl fp r :
  user_id r <> uid -> update_row uid pos md m un onl fp r = r.
Proof. intros H. unfold update_row. apply Z.eqb_neq in H. now rewrite H. Qed.

Lemma ids_after_update uid pos md m un onl fp d :
  List.map user_id (List.map (update_row uid pos md m un onl fp) d)
  = List.map user_id d.
Proof.
  rewrite List.map_map. apply List.map_ext. intros r. apply update_row_id.
Qed.

Lemma get_profile_update_other uid uid' pos md m un onl fp d :
  uid' <> uid ->
  get_profile uid' (List.map (update_row uid pos md m un onl fp) d)
  = get_profile uid' d.
Proof.
  intros Hne. unfold get_profile. induction d as [|x d IH]; simpl; [reflexivity|].
  rewrite update_row_id. destruct (Z.eqb_spec (user_id x) uid') as [E|E].
  - rewrite update_row_other by congruence. reflexivity.
  - exact IH.
Qed.

Lemma get_profile_insert_other r uid' d :
  uid' <> user_id r ->
  get_profile uid' (insert_row r d) = get_profile uid' d.
Proof.
  intros Hne. unfold get_profile. induction d as [|x d IH]; simpl.
  - destruct (Z.eqb_spec (user_id r) uid'); [congruence | reflexivity].
  - destruct (Z.ltb (user_id r) (user_id x)); simpl.
    + destruct (Z.eqb_spec (user_id r) uid'); [congruence | reflexivity].
    + destruct (Z.eqb (user_id x) uid'); [reflexivity | exact IH].
Qed.

Lemma in_insert_row r x d : In x (insert_row r d) <-> x = r \/ In x d.
Proof.
  induction d as [|y d IH]; simpl.
  - intuition.
  - destruct (Z.ltb (user_id r) (user_id y)); simpl; [intuition|].
    rewrite IH. intuition.
Qed.

Lemma length_insert_row r d :
  List.length (insert_row r d) = S (List.length d).
Proof.
  induction d as [|y d IH]; simpl; [reflexivity|].
  destruct (Z.ltb (user_id r) (user_id y)); simpl; congruence.
Qed.

Lemma ids_unique_insert r d :
  ~ In (user_id r) (List.map user_id d) ->
  List.NoDup (List.map user_id d) ->
  List.NoDup (List.map user_id (insert_row r d)).
Proof.
  induction d as [|y d IH]; simpl; intros Hnew Hnd.
  - constructor; [simpl; tauto | constructor].
  - destruct (Z.ltb (user_id r) (user_id y)); simpl.
    + constructor; [simpl; tauto | exact Hnd].
    + inversion Hnd as [|? ? Hy Hd]; subst. constructor.
      * intros Hin. apply List.in_map_iff in Hin as (z & Hz & Hin).
        apply in_insert_row in Hin as [->|Hin].
        -- apply Hnew. left. congruence.
        -- apply Hy. rewrite <- Hz. now apply List.in_map.
      * apply IH; [tauto | exact Hd].
Qed.

Lemma get_profile_upsert_present uid pos md m un onl fp d p :
  get_profile uid d = Some p ->
  get_profile uid (upsert_profile uid pos md m un onl fp d)
  = Some (mkProfile uid (keep pos (position p)) (keep md (mode p))
            (keep m (mmr p)) (keep un (username p))
            (keep_flag onl (online p)) (keep_flag fp (full_party p))).
Proof.
  intros Hp. unfold upsert_profile. rewrite Hp.
  rewrite (get_profile_update _ _ _ _ _ _ _ _ _ Hp).
  pose proof (get_profile_id _ _ _ Hp) as Hid.
  unfold update_row. rewrite Hid, Z.eqb_refl. reflexivity.
Qed.

Lemma get_profile_upsert_absent uid pos md m un onl fp d :
  get_profile uid d = None ->
  get_profile uid (upsert_profile uid pos md m un onl fp d)
  = Some (mkProfile uid pos md m un
            (match onl with Some true => true | _ => false end)
            (match fp with Some true => true | _ => false end)).
Proof.
  intros Hn. unfold upsert_profile. rewrite Hn.
  set (r := mkProfile uid pos md m un _ _).
  change uid with (user_id r) at 1. now apply get_profile_insert.
Qed.

Lemma get_profile_upsert_other uid uid' pos md m un onl fp d :
  uid' <> uid ->
  get_profile uid' (upsert_profile uid pos md m un onl fp d)
  = get_profile uid' d.
Proof.
  intros Hne. unfold upsert_profile. destruct (get_profile uid d).
  - now apply get_profile_update_other.
  - now apply get_profile_insert_other.
Qed.

Lemma upsert_ids_unique uid pos md m un onl fp d :
  List.NoDup (List.map user_id d) ->
  List.NoDup (List.map user_id (upsert_profile uid pos md m un onl fp d)).
Proof.
  intros Hnd. unfold upsert_profile.
  destruct (get_profile uid d) as [p|] eqn:E.
  - now rewrite ids_after_update.
  - apply ids_unique_insert; [|exact Hnd]. simpl. now apply get_profile_none.
Qed.

(** X1.  Reading a profile back after [upsert_profile]: an existing row
    keeps every field for which nothing was supplied and takes the
    supplied ones; an absent row is created with the supplied fields, the
    others unset, and with the two flags off unless a truthy value was
    supplied. *)
Theorem upsert_then_get :
  forall uid pos md m un onl fp d,
    (forall p,
       get_profile uid d = Some p ->
       get_profile uid (upsert_profile uid pos md m un onl fp d)
       = Some (mkProfile uid (keep pos (position p)) (keep md (mode p))
                 (keep m (mmr p)) (keep un (username p))
                 (keep_flag onl (online p)) (keep_flag fp (full_party p))))
    /\ (get_profile uid d = None ->
        get_profile uid (upsert_profile uid pos md m un onl fp d)
        = Some (mkProfile uid pos md m un
                  (match onl with Some true => true | _ => false end)
                  (match fp with Some true => true | _ => false end))).
Proof.
  intros uid pos md m un onl fp d. split.
  - intros p. apply get_profile_upsert_present.
  - apply get_profile_upsert_absent.
Qed.

(** X2.  [upsert_profile] for one user leaves the profile of every other
    user as it is, whether it updates or inserts. *)
Theorem upsert_leaves_other_users :
  forall uid uid' pos md m un onl fp d,
    uid' <> uid ->
    get_profile uid' (upsert_profile uid pos md m un onl fp d)
    = get_profile uid' d.
Proof.
  intros uid uid' pos md m un onl fp d. apply get_profile_upsert_other.
Qed.

(** X3.  [upsert_profile] keeps one row per user id: with distinct ids
    before, the ids are distinct after; the number of rows grows by one
    when the user had no row and is unchanged otherwise. *)
Theorem upsert_keeps_primary_key :
  forall uid pos md m un onl fp d,
    List.NoDup (List.map user_id d) ->
    List.NoDup (List.map user_id (upsert_profile uid pos md m un onl fp d))
    /\ (get_profile uid d = None ->
        List.length (upsert_profile uid pos md m un onl fp d)
        = S (List.length d))
    /\ (get_profile uid d <> None ->
        List.length (upsert_profile uid pos md m un onl fp d)
        = List.length d).
Proof.
  intros uid pos md m un onl fp d Hnd. unfold upsert_profile.
  destruct (get_profile uid d) as [p|] eqn:E.
  - rewrite ids_after_update. split; [exact Hnd|].
    split; [discriminate|]. intros _. apply List.length_map.
  - split.
    + apply ids_unique_insert; [|exact Hnd]. simpl. now apply get_profile_none.
    + split; [intros _; apply length_insert_row | congruence].
Qed.

(** ** The back stack *)

Lemma get_stack_with s u : get_stack (with_back_stack (Some s) u) = s.
Proof. reflexivity. Qed.

(** X4.  The back stack is last-in first-out: [pop_back] after [push_back]
    returns the step pushed and the stack as it was before; on a stack
    that ends with a step it returns that step and the rest; on an empty
    or absent stack it returns nothing and changes nothing. *)
Theorem push_pop_round_trip :
  forall u,
    (forall prev,
       pop_back (push_back prev u)
       = (Some prev, with_back_stack (Some (get_stack u)) u))
    /\ (forall s x,
          get_stack u = s ++ [x] ->
          pop_back u = (Some x, with_back_stack (Some s) u))
    /\ (get_stack u = [] -> pop_back u = (None, u)).
Proof.
  intros u. split; [|split].
  - intros prev. unfold pop_back, push_back. rewrite get_stack_with.
    rewrite List.rev_app_distr. simpl. now rewrite List.rev_involutive.
  - intros s x Hs. unfold pop_back. rewrite Hs, List.rev_app_distr. simpl.
    now rewrite List.rev_involutive.
  - intros Hs. unfold pop_back. now rewrite Hs.
Qed.

Lemma world_eta w : mkWorld (db w) (ud w) = w.
Proof. now destruct w. Qed.

Lemma same_but_stack_refl u : same_but_stack u u.
Proof. unfold same_but_stack. tauto. Qed.

Lemma same_but_stack_trans u1 u2 u3 :
  same_but_stack u1 u2 -> same_but_stack u2 u3 -> same_but_stack u1 u3.
Proof. unfold same_but_stack. intuition congruence. Qed.

Lemma pop_back_same u : same_but_stack u (snd (pop_back u)).
Proof.
  unfold pop_back. destruct (rev (get_stack u)); simpl;
    unfold same_but_stack; simpl; tauto.
Qed.

Lemma render_prev_same prev via uid w :
  same_but_stack (ud w) (fst (render_prev prev via uid w)).
Proof.
  destruct (render_prev_session prev via uid w) as [-> | ->];
    unfold same_but_stack; simpl; tauto.
Qed.

(** X5.  Going back touches the back stack only: the table, the cached
    texts and the five search fields are what they were, so a choice made
    on a later step is not undone by Back.  On an empty stack the main
    menu is shown, the state is Idle and the whole world is unchanged. *)
Theorem back_touches_stack_only :
  forall via uid w,
    db (world_of (back via uid w)) = db w
    /\ same_but_stack (ud w) (ud (world_of (back via uid w)))
    /\ (get_stack (ud w) = [] ->
        back via uid w
        = (w, [respond via main_menu_text get_main_keyboard], Return Idle)).
Proof.
  intros via uid w. split; [apply back_keeps_db|]. split.
  - unfold back.
    pose proof (pop_back_same (ud w)) as Hp.
    destruct (pop_back (ud w)) as [prev u1]. simpl in Hp.
    pose proof (render_prev_same prev via uid (mkWorld (db w) u1)) as Hr.
    destruct (render_prev prev via uid (mkWorld (db w) u1)) as [u2 [a|]];
      simpl in Hr; unfold world_of; simpl;
      exact (same_but_stack_trans _ _ _ Hp Hr).
  - intros Hs. unfold back, pop_back. rewrite Hs. simpl.
    now rewrite world_eta.
Qed.

Lemma button_handler_go_back uid un w :
  button_handler uid un (U "go_back") w = back ViaQuery uid w.
Proof. unfold button_handler. decide_tests. reflexivity. Qed.

Lemma button_handler_start_search uid un w :
  button_handler uid un (U "start_search") w = on_start_search w.
Proof. unfold button_handler. decide_tests. reflexivity. Qed.

Lemma button_handler_spec_position uid un w :
  button_handler uid un (U "spec_position") w = on_spec_position w.
Proof. unfold button_handler. decide_tests. reflexivity. Qed.

Lemma get_last_text_store_ne s s' t u :
  s <> s' -> get_last_text s' (store_last_text s t u) = get_last_text s' u.
Proof.
  intros Hne. unfold get_last_text, store_last_text. cbn [last_text].
  now apply lookup_insert_ne.
Qed.

(** Back from a world whose stack ends with one of the search steps. *)
Lemma back_to_search_step uid d u s step prompt :
  In (step, prompt)
    [ (U "SEARCH_POS_OPTION", search_pos_option_prompt);
      (U "SEARCH_FULL_OPTION", search_full_option_prompt) ] ->
  get_stack u = s ++ [step] ->
  exists kb,
    back ViaQuery uid (mkWorld d u)
    = (mkWorld d (with_back_stack (Some s) u),
       [edit_message_text (or_else (get_last_text step u) prompt) (Some kb)],
       Return Idle).
Proof.
  intros Hin Hs. unfold back. cbn [ud db].
  rewrite (proj1 (proj2 (push_pop_round_trip u)) s step Hs).
  unfold render_prev. cbn [ud db].
  destruct Hin as [H|[H|[]]]; inversion H; subst;
    match goal with
    | |- context [nonempty (Some ?x)] =>
        let v := eval vm_compute in (nonempty (Some x)) in
        change (nonempty (Some x)) with v
    end; cbv iota; decide_tests; eexists; reflexivity.
Qed.

(** X6.  Forward and back: after one of the forward buttons with a fixed
    token, Back restores the stack, returns to Idle, and shows the step
    that was left with the text cached for it before the button was
    pressed, or with the fallback prompt of that step when nothing was
    cached. *)
Theorem forward_then_back :
  forall uid un w token step prompt,
    In (token, (step, prompt)) forward_buttons ->
    let w1 := world_of (button_handler uid un token w) in
    exists w2 kb,
      button_handler uid un (U "go_back") w1
      = (w2,
         [edit_message_text (or_else (get_last_text step (ud w)) prompt) (Some kb)],
         Return Idle)
      /\ get_stack (ud w2) = get_stack (ud w)
      /\ db w2 = db w.
Proof.
  intros uid un w token step prompt Hin w1. subst w1.
  rewrite button_handler_go_back.
  unfold forward_buttons in Hin. simpl in Hin.
  destruct Hin as [H|[H|[H|[H|[]]]]]; inversion H; subst; clear H.
  - rewrite button_handler_start_search. unfold on_start_search, world_of.
    cbn [fst].
    edestruct (back_to_search_step uid (db w)) as [kb Hb];
      [left; reflexivity | | rewrite Hb].
    { reflexivity. }
    rewrite get_last_text_store_ne
      by (intros E; vm_compute in E; discriminate).
    eexists _, kb. split; [reflexivity|]. split; reflexivity.
  - rewrite button_handler_spec_position. unfold on_spec_position, world_of.
    cbn [fst].
    edestruct (back_to_search_step uid (db w)) as [kb Hb];
      [left; reflexivity | | rewrite Hb].
    { reflexivity. }
    rewrite get_last_text_store_ne
      by (intros E; vm_compute in E; discriminate).
    eexists _, kb. split; [reflexivity|]. split; reflexivity.
  - rewrite button_handler_only_full_yes. unfold on_only_full_yes, world_of.
    cbn [fst].
    edestruct (back_to_search_step uid (db w)) as [kb Hb];
      [right; left; reflexivity | | rewrite Hb].
    { reflexivity. }
    rewrite get_last_text_store_ne
      by (intros E; vm_compute in E; discriminate).
    eexists _, kb. split; [reflexivity|]. split; reflexivity.
  - rewrite button_handler_only_full_no. unfold on_only_full_no, world_of.
    cbn [fst].
    edestruct (back_to_search_step uid (db w)) as [kb Hb];
      [right; left; reflexivity | | rewrite Hb].
    { reflexivity. }
    rewrite get_last_text_store_ne
      by (intros E; vm_compute in E; discriminate).
    eexists _, kb. split; [reflexivity|]. split; reflexivity.
Qed.

(** ** Back to the profile view *)

Lemma button_handler_edit_mmr uid un w :
  button_handler uid un (U "edit_mmr") w = on_edit_mmr w.
Proof. unfold button_handler. decide_tests. reflexivity. Qed.

Lemma render_prev_profile via uid w :
  render_prev (Some (U "PROFILE")) via uid w
  = match nonempty (get_last_text (U "PROFILE") (ud w)) with
    | Some text =>
        (ud w,
         Some (respond via text
                 (profile_edit_keyboard_dynamic
                    (flag online (get_profile uid (db w)))
                    (flag full_party (get_profile uid (db w))))))
    | None => (ud w, None)
    end.
Proof.
  unfold render_prev.
  match goal with
  | |- context [nonempty (Some ?x)] =>
      let v := eval vm_compute in (nonempty (Some x)) in
      change (nonempty (Some x)) with v
  end.
  cbv iota. decide_tests. reflexivity.
Qed.

(** X7.  Back to the profile view needs a cached text.  With the profile
    step on top of the stack, Back shows the text cached for it with the
    profile keyboard; with no text cached (or an empty one) the fallback
    text cannot be built, the handler raises after the stack was popped,
    nothing is shown and the conversation state stays what it was.  This
    is what happens when one of the edit buttons is pressed before the
    profile was ever shown and Back is pressed next. *)
Theorem back_to_profile_needs_cached_text :
  forall uid w,
    (forall via s,
       get_stack (ud w) = s ++ [U "PROFILE"] ->
       (forall t,
          get_last_text (U "PROFILE") (ud w) = Some t -> t <> [] ->
          back via uid w
          = (mkWorld (db w) (with_back_stack (Some s) (ud w)),
             [respond via t
                (profile_edit_keyboard_dynamic
                   (flag online (get_profile uid (db w)))
                   (flag full_party (get_profile uid (db w))))],
             Return Idle))
       /\ (nonempty (get_last_text (U "PROFILE") (ud w)) = None ->
           back via uid w
           = (mkWorld (db w) (with_back_stack (Some s) (ud w)), [], Raised)))
    /\ (forall un,
          get_last_text (U "PROFILE") (ud w) = None ->
          let w1 := world_of (button_handler uid un (U "edit_position") w) in
          exists w2,
            dispatch POSITION uid un (CallbackQuery (U "go_back")) w1
            = (w2, [], POSITION)
            /\ get_stack (ud w2) = get_stack (ud w)).
Proof.
  intros uid w. split.
  - intros via s Hs. split.
    + intros t Ht Hne. unfold back.
      rewrite (proj1 (proj2 (push_pop_round_trip (ud w))) s _ Hs).
      rewrite render_prev_profile. cbn [ud db].
      change (get_last_text (U "PROFILE") (with_back_stack (Some s) (ud w)))
        with (get_last_text (U "PROFILE") (ud w)).
      rewrite Ht, (nonempty_of t Hne). reflexivity.
    + intros Hn. unfold back.
      rewrite (proj1 (proj2 (push_pop_round_trip (ud w))) s _ Hs).
      rewrite render_prev_profile. cbn [ud db].
      change (get_last_text (U "PROFILE") (with_back_stack (Some s) (ud w)))
        with (get_last_text (U "PROFILE") (ud w)).
      rewrite Hn. reflexivity.
  - intros un Hc w1. subst w1. unfold dispatch.
    rewrite button_handler_go_back, button_handler_edit_position.
    unfold on_edit_position, world_of. cbn [fst]. unfold back. cbn [ud db].
    rewrite (proj1 (proj2 (push_pop_round_trip _)) (get_stack (ud w))
               (U "PROFILE")) by reflexivity.
    rewrite render_prev_profile. cbn [ud db].
    match goal with
    | |- context [nonempty ?o] =>
        replace (nonempty o) with (@None str)
    end.
    + eexists. split; reflexivity.
    + symmetry.
      change (nonempty
                (get_last_text (U "PROFILE")
                   (store_last_text (U "POSITION") edit_position_text (ud w)))
              = None).
      rewrite get_last_text_store_ne
        by (intros E; vm_compute in E; discriminate).
      now rewrite Hc.
Qed.

(** ** Tokens and typed numbers *)

(** X8.  A token that starts with [delta_] and does not continue with an
    integer makes the handler raise before it reads or changes anything:
    nothing is shown and the state stays.  The token [delta_custom] of the
    button for a hand-typed delta is such a token, so the branch written
    for it is never taken. *)
Theorem delta_token_without_number_raises :
  forall uid un w,
    (forall rest st,
       py_int rest = None ->
       button_handler uid un (U "delta_" ++ rest) w = (w, [], Raised)
       /\ dispatch st uid un (CallbackQuery (U "delta_" ++ rest)) w = (w, [], st))
    /\ In (Btn (U "Указать вручную") (callback_data (U "delta_custom")))
         (List.concat search_mmr_keyboard)
    /\ (forall st,
          dispatch st uid un (CallbackQuery (U "delta_custom")) w = (w, [], st)).
Proof.
  intros uid un w.
  assert (H : forall rest,
            py_int rest = None ->
            button_handler uid un (U "delta_" ++ rest) w = (w, [], Raised)).
  { intros rest Hr. rewrite button_handler_delta. unfold on_delta.
    rewrite split_delta. simpl option_bind. now rewrite Hr. }
  split; [|split].
  - intros rest st Hr. split; [now apply H|].
    unfold dispatch. now rewrite (H rest Hr).
  - simpl. right. right. right. right. left. reflexivity.
  - intros st. unfold dispatch. now rewrite button_handler_delta_custom.
Qed.

Lemma upsert_mmr_persisted uid x pos md un onl fp d :
  field mmr (get_profile uid (upsert_profile uid pos md (Some x) un onl fp d))
  = Some x.
Proof.
  destruct (get_profile uid d) as [p|] eqn:E.
  - now rewrite (get_profile_upsert_present _ _ _ _ _ _ _ _ _ E).
  - now rewrite (get_profile_upsert_absent _ _ _ _ _ _ _ _ E).
Qed.

(** X9.  The mmr prompt accepts exactly the integers from 0 to 15000: such
    a text (after stripping, and unless it is a cancel word) stores the
    number in the user's profile, confirms and ends the conversation; a
    text that is no integer, or an integer below 0 or above 15000, changes
    nothing, repeats the prompt and keeps the state. *)
Theorem mmr_input_validated :
  forall uid un text w,
    is_cancel (strip text) = false ->
    (forall m,
       py_int (strip text) = Some m -> 0 <= m <= 15000 ->
       exists d',
         get_mmr uid un text w
         = (mkWorld d' (ud w), [reply_text mmr_saved_text (Some get_main_keyboard)],
            Return Idle)
         /\ d' = upsert_profile uid None None (Some m) un None None (db w)
         /\ field mmr (get_profile uid d') = Some m)
    /\ (py_int (strip text) = None
        \/ (exists m, py_int (strip text) = Some m /\ (m < 0 \/ 15000 < m)) ->
        get_mmr uid un text w
        = (w, [reply_text bad_mmr_input_text (Some back_menu_cancel_keyboard)],
           Return MMR)).
Proof.
  intros uid un text w Hc. unfold get_mmr. rewrite Hc. split.
  - intros m Hm Hr. rewrite Hm.
    destruct (Z.ltb_spec m 0); [lia|]. destruct (Z.ltb_spec 15000 m); [lia|].
    simpl. eexists. split; [reflexivity|]. split; [reflexivity|].
    apply upsert_mmr_persisted.
  - intros [Hn|(m & Hm & Hr)]; [now rewrite Hn|]. rewrite Hm.
    destruct (Z.ltb_spec m 0), (Z.ltb_spec 15000 m); simpl; try reflexivity; lia.
Qed.

(** X10.  The typed delta: a text that is no integer, or an integer that is
    not positive, changes nothing, runs no query, repeats the prompt and
    keeps the state; a positive integer, when the user's mmr is stored,
    calls the search with that delta and the options of the session, then
    clears the session and ends the conversation.  When the window of that
    delta does not fit SQLite's integers, what the search replies is its
    error message. *)
Theorem typed_delta_validated :
  forall uid text w,
    is_cancel (strip text) = false ->
    (py_int (strip text) = None
     \/ (exists delta, py_int (strip text) = Some delta /\ delta <= 0) ->
     get_search_mmr_custom uid text w
     = (w, [reply_text bad_delta_input_text (Some back_menu_keyboard)],
        Return SEARCH_MMR))
    /\ (forall delta m,
          py_int (strip text) = Some delta -> 0 < delta ->
          field mmr (get_profile uid (db w)) = Some m ->
          get_search_mmr_custom uid text w
          = (mkWorld (db w) (clear_back (pop_search_fields (ud w))),
             perform_search_and_reply ViaMessage (db w) uid (search_mode (ud w))
               (Some delta) (Some (exclude_effective (ud w)))
               (specific_position (ud w))
               (Some (match only_full_party (ud w) with
                      | Some b => b
                      | None => false
                      end)),
             Return Idle))
    /\ (forall delta m,
          py_int (strip text) = Some delta -> 0 < delta ->
          field mmr (get_profile uid (db w)) = Some m ->
          sqlite_int (Z.max 0 (m - delta)) && sqlite_int (m + delta) = false ->
          acts_of (get_search_mmr_custom uid text w)
          = [reply_text search_error_text (Some get_main_keyboard)]).
Proof.
  intros uid text w Hc. unfold get_search_mmr_custom. rewrite Hc.
  split; [|split].
  - intros [Hn|(delta & Hd & Hr)]; [now rewrite Hn|]. rewrite Hd.
    destruct (Z.leb_spec delta 0); [reflexivity | lia].
  - intros delta m Hd Hpos Hm. rewrite Hd.
    destruct (Z.leb_spec delta 0); [lia|]. rewrite Hm. reflexivity.
  - intros delta m Hd Hpos Hm Hover. rewrite Hd.
    destruct (Z.leb_spec delta 0); [lia|]. rewrite Hm.
    unfold run_search, acts_of. cbn [fst snd].
    unfold perform_search_and_reply.
    rewrite (build_sql_filter _ _ _ _ _ _ _ _ Hm).
    rewrite binds_window by apply base_sql_binds. now rewrite Hover.
Qed.

(** ** The profile toggles *)

Lemma flag_upsert_online uid un b d :
  flag online
    (get_profile uid (upsert_profile uid None None None un (Some b) None d))
  = b.
Proof.
  destruct (get_profile uid d) as [p|] eqn:E.
  - now rewrite (get_profile_upsert_present _ _ _ _ _ _ _ _ _ E).
  - rewrite (get_profile_upsert_absent _ _ _ _ _ _ _ _ E). now destruct b.
Qed.

Lemma flag_upsert_full uid un b d :
  flag full_party
    (get_profile uid (upsert_profile uid None None None un None (Some b) d))
  = b.
Proof.
  destruct (get_profile uid d) as [p|] eqn:E.
  - now rewrite (get_profile_upsert_present _ _ _ _ _ _ _ _ _ E).
  - rewrite (get_profile_upsert_absent _ _ _ _ _ _ _ _ E). now destruct b.
Qed.

(** X11.  The Online button inverts the stored flag of the user (a user
    without a row counts as offline and gets a row that is online); the
    position, mode, mmr and full-party flag of an existing row stay, the
    rows of other users stay, and two presses restore the flag.  The state
    is Idle and the keyboard shown carries the new flag. *)
Theorem toggle_online_flips_own_flag :
  forall uid un w,
    let r1 := button_handler uid un (U "toggle_online") w in
    let r2 := button_handler uid un (U "toggle_online") (world_of r1) in
    flag online (get_profile uid (db (world_of r1)))
    = negb (flag online (get_profile uid (db w)))
    /\ flag online (get_profile uid (db (world_of r2)))
       = flag online (get_profile uid (db w))
    /\ (forall p,
          get_profile uid (db w) = Some p ->
          get_profile uid (db (world_of r1))
          = Some (mkProfile uid (position p) (mode p) (mmr p)
                    (keep un (username p)) (negb (online p)) (full_party p)))
    /\ (forall uid',
          uid' <> uid ->
          get_profile uid' (db (world_of r1)) = get_profile uid' (db w))
    /\ outcome_of r1 = Return Idle
    /\ exists text,
         acts_of r1
         = [edit_message_text text
              (Some (profile_edit_keyboard_dynamic
                       (negb (flag online (get_profile uid (db w))))
                       (flag full_party (get_profile uid (db (world_of r1))))))].
Proof.
  intros uid un w r1 r2. subst r1 r2.
  rewrite !button_handler_toggle_online.
  unfold on_toggle_online, world_of, acts_of, outcome_of. cbn [fst snd db].
  rewrite !flag_upsert_online, negb_involutive.
  split; [reflexivity|]. split; [reflexivity|]. split; [|split; [|split]].
  - intros p Hp. rewrite (get_profile_upsert_present _ _ _ _ _ _ _ _ _ Hp).
    rewrite Hp. reflexivity.
  - intros uid' Hne. now apply get_profile_upsert_other.
  - reflexivity.
  - eexists. reflexivity.
Qed.

(** X12.  The Full button does the same for the full-party flag: it
    inverts the flag of the user, leaves the other fields of the row and
    the rows of other users as they are, and two presses restore it. *)
Theorem toggle_fullparty_flips_own_flag :
  forall uid un w,
    let r1 := button_handler uid un (U "toggle_fullparty") w in
    let r2 := button_handler uid un (U "toggle_fullparty") (world_of r1) in
    flag full_party (get_profile uid (db (world_of r1)))
    = negb (flag full_party (get_profile uid (db w)))
    /\ flag full_party (get_profile uid (db (world_of r2)))
       = flag full_party (get_profile uid (db w))
    /\ (forall p,
          get_profile uid (db w) = Some p ->
          get_profile uid (db (world_of r1))
          = Some (mkProfile uid (position p) (mode p) (mmr p)
                    (keep un (username p)) (online p) (negb (full_party p))))
    /\ (forall uid',
          uid' <> uid ->
          get_profile uid' (db (world_of r1)) = get_profile uid' (db w))
    /\ outcome_of r1 = Return Idle.
Proof.
  intros uid un w r1 r2. subst r1 r2.
  rewrite !button_handler_toggle_fullparty.
  unfold on_toggle_fullparty, world_of, acts_of, outcome_of. cbn [fst snd db].
  rewrite !flag_upsert_full, negb_involutive.
  split; [reflexivity|]. split; [reflexivity|]. split; [|split].
  - intros p Hp. rewrite (get_profile_upsert_present _ _ _ _ _ _ _ _ _ Hp).
    rewrite Hp. reflexivity.
  - intros uid' Hne. now apply get_profile_upsert_other.
  - reflexivity.
Qed.

(** ** Entering the search *)

Lemma button_handler_search_party uid un w :
  button_handler uid un (U "search_party") w = on_search_party uid w.
Proof. unfold button_handler. decide_tests. reflexivity. Qed.

Lemma button_handler_mode uid un m w :
  button_handler uid un (U "mode_" ++ m) w = on_mode (U "mode_" ++ m) w.
Proof. unfold button_handler. decide_tests. reflexivity. Qed.

Lemma drop_prefix_mode m : drop_prefix (U "mode_") (U "mode_" ++ m) = m.
Proof. reflexivity. Qed.

Lemma drop_prefix_setmode m : drop_prefix (U "setmode_") (U "setmode_" ++ m) = m.
Proof. reflexivity. Qed.

Lemma setdefault_exclude_value u :
  exclude_position (setdefault_exclude_position u) = Some (exclude_effective u).
Proof.
  unfold setdefault_exclude_position, exclude_effective.
  destruct (exclude_position u) eqn:E; [exact E | reflexivity].
Qed.

Lemma setdefault_exclude_others u :
  back_stack (setdefault_exclude_position u) = back_stack u
  /\ search_mode (setdefault_exclude_position u) = search_mode u
  /\ specific_position (setdefault_exclude_position u) = specific_position u
  /\ only_full_party (setdefault_exclude_position u) = only_full_party u
  /\ own_position (setdefault_exclude_position u) = own_position u.
Proof.
  unfold setdefault_exclude_position.
  destruct (exclude_position u); repeat split; reflexivity.
Qed.

(** Projections of a session built by the helpers. *)
Ltac session_simpl :=
  unfold get_stack;
  repeat
    (try progress unfold exclude_effective;
     cbn [ud db fst snd store_last_text push_back with_back_stack clear_back
          set_search_mode set_exclude_position set_specific_position
          set_only_full_party set_own_position pop_search_fields get_stack
          back_stack last_text search_mode exclude_position specific_position
          only_full_party own_position];
     try rewrite setdefault_exclude_value;
     try rewrite (proj1 (setdefault_exclude_others _));
     try rewrite (proj1 (proj2 (setdefault_exclude_others _)));
     try rewrite (proj1 (proj2 (proj2 (setdefault_exclude_others _))));
     try rewrite (proj1 (proj2 (proj2 (proj2 (setdefault_exclude_others _)))));
     try rewrite (proj2 (proj2 (proj2 (proj2 (setdefault_exclude_others _))))));
  cbn [exclude_effective exclude_position set_own_position set_search_mode
       push_back with_back_stack].

(** X13.  The search button: without a stored profile, or with a profile
    whose position is unset or empty, it only shows the request to set a
    position; otherwise it records the own position, drops a specific
    position and a full-party choice left in the session, resets the back
    stack to the main menu alone and opens the mode step.  It does not
    touch the table, and it keeps an exclude flag and a search mode that
    are still in the session (the flag becomes ON only when it is
    unset). *)
Theorem search_button_requires_position :
  forall uid un w,
    (nonempty (field position (get_profile uid (db w))) = None ->
     button_handler uid un (U "search_party") w
     = (w, [edit_message_text need_position_text (Some need_position_keyboard)],
        Return Idle))
    /\ (forall pos,
          nonempty (field position (get_profile uid (db w))) = Some pos ->
          exists w',
            button_handler uid un (U "search_party") w
            = (w',
               [edit_message_text search_mode_prompt
                  (Some (mode_selection_keyboard (U "mode_") true))],
               Return SEARCH_MODE)
            /\ db w' = db w
            /\ own_position (ud w') = Some pos
            /\ specific_position (ud w') = None
            /\ only_full_party (ud w') = None
            /\ back_stack (ud w') = Some [U "MAIN_MENU"]
            /\ exclude_position (ud w') = Some (exclude_effective (ud w))
            /\ search_mode (ud w') = search_mode (ud w)).
Proof.
  intros uid un w. rewrite button_handler_search_party. unfold on_search_party.
  split.
  - intros Hn. now rewrite Hn.
  - intros pos Hp. rewrite Hp. eexists. split; [reflexivity|].
    repeat split; session_simpl; reflexivity.
Qed.

(** X14.  A mode button of the search carries the mode in its token: with
    an own position in the session, the text after [mode_] becomes the
    search mode, the mode step is pushed on the back stack and the
    position-option step opens; without one, nothing changes and a notice
    is shown.  Each game mode has such a button on the keyboard of the mode
    step. *)
Theorem search_mode_token_round_trip :
  forall uid un m w,
    (forall pos,
       nonempty (own_position (ud w)) = Some pos ->
       exists w' kb,
         button_handler uid un (U "mode_" ++ m) w
         = (w', [edit_message_text search_pos_option_prompt (Some kb)],
            Return SEARCH_POS_OPTION)
         /\ search_mode (ud w') = Some m
         /\ get_stack (ud w') = get_stack (ud w) ++ [U "SEARCH_MODE"]
         /\ exclude_position (ud w') = Some (exclude_effective (ud w))
         /\ db w' = db w)
    /\ (nonempty (own_position (ud w)) = None ->
        button_handler uid un (U "mode_" ++ m) w
        = (w, [edit_message_text choose_position_first_text (Some get_main_keyboard)],
           Return Idle))
    /\ (In m GAME_MODES ->
        In (Btn m (callback_data (U "mode_" ++ m)))
          (List.concat (mode_selection_keyboard (U "mode_") true))).
Proof.
  intros uid un m w. rewrite button_handler_mode. unfold on_mode.
  rewrite drop_prefix_mode. split; [|split].
  - intros pos Hp. rewrite Hp. eexists _, _. split; [reflexivity|].
    repeat split; session_simpl; reflexivity.
  - intros Hn. now rewrite Hn.
  - intros Hin. unfold mode_selection_keyboard.
    rewrite List.concat_app. apply List.in_or_app. left.
    apply List.in_concat. exists [Btn m (callback_data (U "mode_" ++ m))].
    split; [|simpl; auto].
    apply List.in_map_iff. exists m. auto.
Qed.

Lemma upsert_mode_persisted uid x pos m un onl fp d :
  field mode (get_profile uid (upsert_profile uid pos (Some x) m un onl fp d))
  = Some x.
Proof.
  destruct (get_profile uid d) as [p|] eqn:E.
  - now rewrite (get_profile_upsert_present _ _ _ _ _ _ _ _ _ E).
  - now rewrite (get_profile_upsert_absent _ _ _ _ _ _ _ _ E).
Qed.

(** X15.  A mode button of the profile stores the text after [setmode_] as
    the preferred mode of the user, whatever that text is: it is not
    compared with the list of game modes.  The other users' rows stay, the
    confirmation names the mode and is cached for the profile step, and
    each game mode has such a button on the keyboard of the edit step. *)
Theorem profile_mode_token_round_trip :
  forall uid un m w,
    let r := button_handler uid un (U "setmode_" ++ m) w in
    field mode (get_profile uid (db (world_of r))) = Some m
    /\ (forall uid',
          uid' <> uid ->
          get_profile uid' (db (world_of r)) = get_profile uid' (db w))
    /\ displayed (acts_of r) = [U "✅ Предпочитаемый режим сохранён: " ++ m]
    /\ get_last_text (U "PROFILE") (ud (world_of r))
       = Some (U "✅ Предпочитаемый режим сохранён: " ++ m)
    /\ outcome_of r = Return Idle
    /\ (In m GAME_MODES ->
        In (Btn m (callback_data (U "setmode_" ++ m)))
          (List.concat (mode_selection_keyboard (U "setmode_") true))).
Proof.
  intros uid un m w r. subst r. rewrite button_handler_setmode.
  unfold on_setmode. rewrite drop_prefix_setmode.
  unfold world_of, acts_of, outcome_of. cbn [fst snd db ud].
  split; [apply upsert_mode_persisted|].
  split; [intros uid' Hne; now apply get_profile_upsert_other|].
  split; [reflexivity|]. split; [apply get_last_text_store|].
  split; [reflexivity|].
  intros Hin. unfold mode_selection_keyboard.
  rewrite List.concat_app. apply List.in_or_app. left.
  apply List.in_concat. exists [Btn m (callback_data (U "setmode_" ++ m))].
  split; [|simpl; auto].
  apply List.in_map_iff. exists m. auto.
Qed.

(** ** The other filters of the search *)

Lemma built_contains_base d rid sm mf ex sp ofp sql c :
  build_sql d rid sm mf ex sp ofp = Some sql ->
  In c (base_sql rid (field position (get_profile rid d)) sm ex sp ofp) ->
  In c sql.
Proof.
  intros Hb Hc. apply build_sql_shape in Hb. cbv zeta in Hb.
  destruct mf; [destruct Hb as (m & _ & ->)|subst sql]; [|exact Hc].
  apply List.in_or_app. now left.
Qed.

Lemma fetched_satisfies d sql c cond :
  In c (fetchall sql d) -> In cond sql ->
  exists r, In r d /\ summary r = c /\ cond_holds cond r = true.
Proof.
  intros Hc Hin. apply in_fetchall in Hc as (r & Hr & Hw & Hs).
  exists r. repeat split; auto. now apply (where_holds_in sql).
Qed.

Lemma build_sql_base_eq d rid sm sm' mf ex ex' sp sp' ofp ofp' :
  base_sql rid (field position (get_profile rid d)) sm ex sp ofp
  = base_sql rid (field position (get_profile rid d)) sm' ex' sp' ofp' ->
  build_sql d rid sm mf ex sp ofp = build_sql d rid sm' mf ex' sp' ofp'.
Proof. intros H. unfold build_sql. now rewrite H. Qed.

(** X16.  The full-party option: when it is on, every candidate returned
    has the full-party flag; when it is off, the query and the reply are
    those of a search without the option, and the query has no condition
    on the flag, so candidates with and without the flag are returned
    alike. *)
Theorem full_party_option_filters_only_when_on :
  forall d rid sm mf ex sp,
    (forall sql,
       build_sql d rid sm mf ex sp (Some true) = Some sql ->
       forall c, In c (fetchall sql d) -> c_full_party c = true)
    /\ build_sql d rid sm mf ex sp (Some false)
       = build_sql d rid sm mf ex sp None
    /\ (forall via,
          perform_search_and_reply via d rid sm mf ex sp (Some false)
          = perform_search_and_reply via d rid sm mf ex sp None)
    /\ (forall sql r,
          build_sql d rid sm mf ex sp (Some false) = Some sql ->
          where_holds sql
            (mkProfile (user_id r) (position r) (mode r) (mmr r) (username r)
               (online r) (negb (full_party r)))
          = where_holds sql r).
Proof.
  intros d rid sm mf ex sp.
  assert (Hsame : build_sql d rid sm mf ex sp (Some false)
                  = build_sql d rid sm mf ex sp None) by reflexivity.
  split; [|split; [exact Hsame|split]].
  - intros sql Hb c Hc.
    destruct (fetched_satisfies d sql c FullPartyIs1 Hc) as (r & _ & <- & Hh).
    + apply (built_contains_base _ _ _ _ _ _ _ _ _ Hb). unfold base_sql.
      apply List.in_or_app. right. apply List.in_or_app. right.
      apply List.in_or_app. right. simpl. auto.
    + exact Hh.
  - intros via. unfold perform_search_and_reply. now rewrite Hsame.
  - intros sql r Hb. apply build_sql_shape in Hb. cbv zeta in Hb.
    assert (Hbase : forall c,
              In c (base_sql rid (field position (get_profile rid d)) sm ex sp
                      (Some false)) ->
              c <> FullPartyIs1).
    { unfold base_sql, position_filter. intros c Hc ->. simpl in Hc.
      destruct Hc as [H|[H|H]]; try discriminate.
      apply List.in_app_or in H as [H|H].
      - destruct (nonempty sp); [destruct H as [H|[]]; discriminate|].
        destruct ex as [[|]|], (nonempty (field position (get_profile rid d)));
          simpl in H; try destruct H as [H|[]]; easy.
      - apply List.in_app_or in H as [H|H]; [|easy].
        destruct (nonempty sm); [destruct H as [H|[]]; discriminate|easy]. }
    assert (Hall : forall c, In c sql -> c <> FullPartyIs1).
    { destruct mf; [destruct Hb as (m & _ & ->)|subst sql]; [|exact Hbase].
      intros c Hc. apply List.in_app_or in Hc as [Hc|[<-|[]]];
        [now apply Hbase | discriminate]. }
    unfold where_holds. apply forallb_ext_in. intros c Hc.
    specialize (Hall c Hc). destruct c; simpl; try reflexivity. congruence.
Qed.

Lemma base_sql_mode_conjunct rid rp sm ex sp ofp m :
  nonempty sm = Some m -> In (LowerModeEq m) (base_sql rid rp sm ex sp ofp).
Proof.
  intros Hm. unfold base_sql. rewrite Hm.
  apply List.in_or_app. right. apply List.in_or_app. right.
  apply List.in_or_app. left. simpl. auto.
Qed.

(** X17.  The mode of the search is compared without regard to the case of
    ASCII letters: with a non-empty search mode every candidate has a mode
    that equals it after lowering, so a row without mode is never
    returned; two search modes that are equal after lowering accept the
    same rows; with no search mode, or an empty one, the query is that of a
    search without mode. *)
Theorem search_mode_is_case_insensitive :
  forall d rid mf ex sp ofp,
    (forall sm m sql,
       nonempty sm = Some m ->
       build_sql d rid sm mf ex sp ofp = Some sql ->
       forall c, In c (fetchall sql d) ->
         exists q, c_mode c = Some q /\ sql_lower q = sql_lower m)
    /\ (forall (m m' : str) sql sql' r,
          m <> [] -> m' <> [] -> sql_lower m = sql_lower m' ->
          build_sql d rid (Some m) mf ex sp ofp = Some sql ->
          build_sql d rid (Some m') mf ex sp ofp = Some sql' ->
          where_holds sql r = where_holds sql' r)
    /\ (forall sm,
          nonempty sm = None ->
          build_sql d rid sm mf ex sp ofp = build_sql d rid None mf ex sp ofp).
Proof.
  intros d rid mf ex sp ofp. split; [|split].
  - intros sm m sql Hm Hb c Hc.
    destruct (fetched_satisfies d sql c (LowerModeEq m) Hc) as (r & _ & <- & Hh).
    + apply (built_contains_base _ _ _ _ _ _ _ _ _ Hb).
      now apply base_sql_mode_conjunct.
    + simpl in Hh. simpl. destruct (mode r) as [q|]; [|discriminate].
      exists q. split; [reflexivity|]. now apply str_eqb_eq.
  - intros m m' sql sql' r Hm Hm' Hl Hb Hb'.
    apply build_sql_shape in Hb, Hb'. cbv zeta in Hb, Hb'.
    assert (Hbase :
              where_holds
                (base_sql rid (field position (get_profile rid d)) (Some m) ex sp ofp) r
              = where_holds
                  (base_sql rid (field position (get_profile rid d)) (Some m') ex sp ofp) r).
    { unfold base_sql. rewrite (nonempty_of m Hm), (nonempty_of m' Hm').
      rewrite !where_holds_app. f_equal. f_equal. f_equal.
      rewrite !where_holds_single. simpl. now rewrite Hl. }
    destruct mf as [delta|].
    + destruct Hb as (x & Hx & ->), Hb' as (x' & Hx' & ->).
      rewrite Hx in Hx'. inversion Hx'; subst.
      rewrite !where_holds_app. now rewrite Hbase.
    + subst. exact Hbase.
  - intros sm Hn. apply build_sql_base_eq. unfold base_sql. now rewrite Hn.
Qed.

(** X18.  The exclusion of the own position: with no specific position,
    the exclude flag on and a requester whose position is set, no candidate
    returned has the requester's position, while a row whose position is
    unset passes this condition; with the flag off or unset, or a requester
    without position, the query is that of a search with no word on
    positions. *)
Theorem own_position_excluded_when_flag_on :
  forall d rid sm mf ofp sp,
    nonempty sp = None ->
    (forall rp sql,
       nonempty (field position (get_profile rid d)) = Some rp ->
       build_sql d rid sm mf (Some true) sp ofp = Some sql ->
       In (PositionNullOrNe rp) sql
       /\ (forall c, In c (fetchall sql d) -> c_position c <> Some rp)
       /\ (forall r, position r = None ->
                     cond_holds (PositionNullOrNe rp) r = true))
    /\ (forall ex,
          ex <> Some true ->
          build_sql d rid sm mf ex sp ofp = build_sql d rid sm mf None sp ofp
          /\ position_filter (field position (get_profile rid d)) ex sp = [])
    /\ (nonempty (field position (get_profile rid d)) = None ->
        forall ex,
          build_sql d rid sm mf ex sp ofp = build_sql d rid sm mf None sp ofp).
Proof.
  intros d rid sm mf ofp sp Hsp. split; [|split].
  - intros rp sql Hrp Hb.
    assert (Hin : In (PositionNullOrNe rp) sql).
    { apply (built_contains_base _ _ _ _ _ _ _ _ _ Hb). unfold base_sql.
      apply List.in_or_app. right. apply List.in_or_app. left.
      unfold position_filter. rewrite Hsp, Hrp. simpl. auto. }
    split; [exact Hin|]. split.
    + intros c Hc Hpos.
      destruct (fetched_satisfies d sql c _ Hc Hin) as (r & _ & <- & Hh).
      simpl in Hh, Hpos. rewrite Hpos in Hh.
      now rewrite str_eqb_refl in Hh.
    + intros r Hr. simpl. now rewrite Hr.
  - intros ex Hex.
    assert (Hf : position_filter (field position (get_profile rid d)) ex sp = []).
    { unfold position_filter. rewrite Hsp.
      destruct ex as [[|]|]; [congruence | reflexivity | reflexivity]. }
    split; [|exact Hf].
    apply build_sql_base_eq. unfold base_sql. rewrite Hf.
    unfold position_filter. now rewrite Hsp.
  - intros Hn ex. apply build_sql_base_eq. unfold base_sql, position_filter.
    rewrite Hsp, Hn. now destruct ex as [[|]|].
Qed.

Lemma ids_unique_filter (f : Profile -> bool) d :
  List.NoDup (List.map user_id d) ->
  List.NoDup (List.map user_id (List.filter f d)).
Proof.
  induction d as [|x d IH]; simpl; intros Hnd; [constructor|].
  inversion Hnd as [|? ? Hx Hd]; subst.
  destruct (f x); simpl; [|now apply IH].
  constructor; [|now apply IH].
  intros Hin. apply Hx. apply List.in_map_iff in Hin as (y & Hy & Hin).
  apply List.filter_In in Hin as [Hin _]. rewrite <- Hy. now apply List.in_map.
Qed.

Lemma ids_unique_firstn n d :
  List.NoDup (List.map user_id d) ->
  List.NoDup (List.map user_id (firstn n d)).
Proof.
  revert d. induction n as [|n IH]; intros [|x d] Hnd; simpl; try constructor.
  - inversion Hnd as [|? ? Hx Hd]; subst. intros Hin. apply Hx.
    apply List.in_map_iff in Hin as (y & Hy & Hin).
    apply in_firstn in Hin. rewrite <- Hy. now apply List.in_map.
  - inversion Hnd; subst. now apply IH.
Qed.

(** X19.  The result cap: a search returns at most 30 candidates, each user
    at most once when the table has one row per user.  When the query can
    be executed and finds no candidate, the reply is the no-match message
    with the main keyboard; when it finds some, the reply lists them with
    one contact button each, followed by the menu button when there are
    fewer than 30 -- with exactly 30 candidates the keyboard is cut after
    the thirtieth button and has no menu button.  The query can be
    executed when there is no mmr filter, and under a filter when both
    bounds of the window fit SQLite's integers; when it cannot, the reply
    is the search-error message and nothing else. *)
Theorem search_reply_is_capped :
  forall via d rid sm mf ex sp ofp sql,
    build_sql d rid sm mf ex sp ofp = Some sql ->
    let rows := fetchall sql d in
    (List.length rows <= 30)%nat
    /\ (List.NoDup (List.map user_id d) ->
        List.NoDup (List.map c_user_id rows))
    /\ (binds sql = true -> rows = [] ->
        perform_search_and_reply via d rid sm mf ex sp ofp
        = [execute sql; respond via no_results_text get_main_keyboard])
    /\ (rows <> [] ->
        exists kb,
          perform_search_and_reply via d rid sm mf ex sp ofp
          = [execute sql; respond via (results_text rows) kb]
          /\ ((List.length rows < 30)%nat ->
              kb = List.map result_button rows ++ [menu_only_row])
          /\ (List.length rows = 30%nat -> kb = List.map result_button rows))
    /\ (binds sql = false ->
        rows = []
        /\ perform_search_and_reply via d rid sm mf ex sp ofp
           = [respond via search_error_text get_main_keyboard])
    /\ (mf = None -> binds sql = true)
    /\ (forall delta m,
          mf = Some delta -> field mmr (get_profile rid d) = Some m ->
          binds sql = sqlite_int (Z.max 0 (m - delta)) && sqlite_int (m + delta)).
Proof.
  intros via d rid sm mf ex sp ofp sql Hb rows.
  assert (Hlen : (List.length rows <= 30)%nat).
  { subst rows. unfold fetchall. destruct (binds sql); [|simpl; lia].
    rewrite List.length_map. apply List.firstn_le_length. }
  split; [exact Hlen|]. split; [|split; [|split; [|split; [|split]]]].
  - intros Hnd. subst rows. unfold fetchall, matching.
    destruct (binds sql); [|constructor].
    rewrite List.map_map. simpl.
    change (List.map (fun x => user_id x)) with (List.map user_id).
    now apply ids_unique_firstn, ids_unique_filter.
  - intros Hfit Hr. unfold perform_search_and_reply. rewrite Hb, Hfit.
    fold rows. now rewrite Hr.
  - intros Hr.
    assert (Hfit : binds sql = true).
    { destruct (binds sql) eqn:E; [reflexivity|].
      elim Hr. subst rows. now apply fetchall_overflow. }
    unfold perform_search_and_reply. rewrite Hb, Hfit. fold rows.
    destruct rows as [|c rows'] eqn:E; [contradiction|]. rewrite <- E in *.
    eexists. split; [reflexivity|]. split.
    + intros Hlt. apply List.firstn_all2.
      rewrite List.length_app, List.length_map. simpl. lia.
    + intros Heq. rewrite List.firstn_app, List.length_map, Heq.
      rewrite Nat.sub_diag. simpl firstn at 2. rewrite List.app_nil_r.
      apply List.firstn_all2. rewrite List.length_map. lia.
  - intros Hover. split; [subst rows; now apply fetchall_overflow|].
    unfold perform_search_and_reply. now rewrite Hb, Hover.
  - intros ->. rewrite build_sql_no_filter in Hb.
    assert (Hs : sql = base_sql rid (field position (get_profile rid d)) sm ex
                         sp ofp) by congruence.
    rewrite Hs. apply base_sql_binds.
  - intros delta m -> Hm. rewrite (build_sql_filter _ _ _ _ _ _ _ _ Hm) in Hb.
    assert (Hs : sql = base_sql rid (field position (get_profile rid d)) sm ex
                         sp ofp
                       ++ [MmrBetween (Z.max 0 (m - delta)) (m + delta)])
      by congruence.
    rewrite Hs. rewrite binds_window by apply base_sql_binds. reflexivity.
Qed.

(** X20.  Under an mmr filter every candidate returned has an mmr that is
    set, not negative, and at most the delta away from the requester's. *)
Theorem candidates_are_within_delta :
  forall d rid sm delta ex sp ofp m sql,
    field mmr (get_profile rid d) = Some m ->
    build_sql d rid sm (Some delta) ex sp ofp = Some sql ->
    forall c, In c (fetchall sql d) ->
      exists x, c_mmr c = Some x /\ 0 <= x /\ m - delta <= x <= m + delta.
Proof.
  intros d rid sm delta ex sp ofp m sql Hm Hb c Hc.
  assert (Hin : In (MmrBetween (Z.max 0 (m - delta)) (m + delta)) sql).
  { rewrite (build_sql_filter _ _ _ _ _ _ _ _ Hm) in Hb.
    apply (f_equal (fun o => match o with Some l => l | None => [] end)) in Hb.
    rewrite <- Hb. apply List.in_or_app. right. simpl. auto. }
  destruct (fetched_satisfies d sql c _ Hc Hin) as (r & _ & <- & Hh).
  apply mmr_between_holds in Hh as (x & Hx & Hlo & Hhi).
  exists x. split; [exact Hx|]. simpl. lia.
Qed.

(** ** What an update can write *)

Lemma settle_world st (r : Result) : fst (fst (settle st r)) = world_of r.
Proof. now destruct r as [[w a] [s|]]. Qed.

(** A callback writes the table through [upsert_profile] for the caller
    only, and never writes a position or an mmr. *)
Lemma button_handler_db_step uid un data w :
  db (world_of (button_handler uid un data w)) = db w
  \/ exists md onl fp,
       db (world_of (button_handler uid un data w))
       = upsert_profile uid None md None un onl fp (db w).
Proof.
  unfold button_handler.
  repeat match goal with
    | |- context [if ?c then _ else _] => destruct c
    end;
    try (left; reflexivity);
    try (right; do 3 eexists; reflexivity).
  - left. apply back_keeps_db.
  - left. unfold on_search_party. now destruct (nonempty _).
  - left. unfold on_mode. now destruct (nonempty _).
  - left. unfold on_selectpos. destruct (split1_snd _ _); [|reflexivity].
    now destruct (dict_get _ _).
  - left. unfold on_delta. destruct (option_bind _ _ _ _); [|reflexivity].
    now destruct (field mmr _).
Qed.

(** Every update writes the table through [upsert_profile] for the caller
    only, with a position that is a label and an mmr within the bounds. *)
Lemma dispatch_db_step st uid un upd w :
  db (fst (fst (dispatch st uid un upd w))) = db w
  \/ exists pos md m onl fp,
       db (fst (fst (dispatch st uid un upd w)))
       = upsert_profile uid pos md m un onl fp (db w)
       /\ labelled pos /\ in_mmr_range m.
Proof.
  destruct upd as [data|text| |]; simpl; [| |now left|now left].
  - rewrite settle_world.
    destruct (button_handler_db_step uid un data w) as [H|(md & onl & fp & H)];
      [now left|].
    right. exists None, md, None, onl, fp. rewrite H.
    split; [reflexivity|]. split; intros x Hx; discriminate.
  - destruct st; try (now left); rewrite settle_world.
    + unfold get_position. destruct (is_cancel _).
      * left. apply back_keeps_db.
      * destruct (dict_get POSITIONS (strip text)) as [name|] eqn:E;
          [|now left].
        right. exists (Some name), None, None, None, None.
        split; [reflexivity|]. split; intros x Hx; [|discriminate].
        inversion Hx; subst. eauto.
    + unfold get_mmr. destruct (is_cancel _).
      * left. apply back_keeps_db.
      * destruct (py_int _) as [m|]; [|now left].
        destruct (Z.ltb_spec m 0); [now left|].
        destruct (Z.ltb_spec 15000 m); [now left|].
        right. exists None, None, (Some m), None, None.
        split; [reflexivity|]. split; intros x Hx; [discriminate|].
        inversion Hx; subst. lia.
    + unfold get_search_mmr_custom. destruct (is_cancel _).
      * left. apply back_keeps_db.
      * left. destruct (py_int _) as [delta|]; [|reflexivity].
        destruct (Z.leb delta 0); [reflexivity|].
        now destruct (field mmr _).
Qed.

(** X21.  No update of one user changes the profile of another user:
    whatever the state, the update and the world, the profile read for any
    other user id is the same before and after. *)
Theorem updates_write_own_row_only :
  forall st uid un upd w uid',
    uid' <> uid ->
    get_profile uid' (db (fst (fst (dispatch st uid un upd w))))
    = get_profile uid' (db w).
Proof.
  intros st uid un upd w uid' Hne.
  destruct (dispatch_db_step st uid un upd w)
    as [->|(pos & md & m & onl & fp & -> & _)]; [reflexivity|].
  now apply get_profile_upsert_other.
Qed.

Lemma forall_insert_row (P : Profile -> Prop) r d :
  P r -> Forall P d -> Forall P (insert_row r d).
Proof.
  intros Hr Hd. apply List.Forall_forall. intros x Hx.
  apply in_insert_row in Hx as [->|Hx]; [exact Hr|].
  now apply (proj1 (List.Forall_forall P d) Hd).
Qed.

Lemma upsert_forall (P : Profile -> Prop) uid pos md m un onl fp d :
  Forall P d ->
  (forall r, P r -> P (update_row uid pos md m un onl fp r)) ->
  P (mkProfile uid pos md m un
       (match onl with Some true => true | _ => false end)
       (match fp with Some true => true | _ => false end)) ->
  Forall P (upsert_profile uid pos md m un onl fp d).
Proof.
  intros Hd Hupd Hnew. unfold upsert_profile. destruct (get_profile uid d).
  - apply List.Forall_forall. intros x Hx.
    apply List.in_map_iff in Hx as (r & <- & Hr).
    apply Hupd. now apply (proj1 (List.Forall_forall P d) Hd).
  - now apply forall_insert_row.
Qed.

(** X22.  The table stays well formed under every update: if it has one
    row per user id, only labels of [POSITIONS] as positions and only mmr
    values from 0 to 15000, then so it has after any update of any user in
    any state. *)
Theorem updates_keep_table_ok :
  forall st uid un upd w,
    table_ok (db w) ->
    table_ok (db (fst (fst (dispatch st uid un upd w)))).
Proof.
  intros st uid un upd w (Hid & Hpos & Hmmr).
  destruct (dispatch_db_step st uid un upd w)
    as [->|(pos & md & m & onl & fp & -> & Hl & Hr)]; [now repeat split|].
  split; [now apply upsert_ids_unique|]. split.
  - apply upsert_forall; [exact Hpos| |exact Hl].
    intros r Hrow. unfold update_row.
    destruct (Z.eqb (user_id r) uid); [|exact Hrow].
    simpl. destruct pos as [p|]; [exact Hl | exact Hrow].
  - apply upsert_forall; [exact Hmmr| |exact Hr].
    intros r Hrow. unfold update_row.
    destruct (Z.eqb (user_id r) uid); [|exact Hrow].
    simpl. destruct m as [x|]; [exact Hr | exact Hrow].
Qed.

(** ** The cache under updates *)

Lemma button_handler_cache_step uid un data w :
  last_text (ud (world_of (button_handler uid un data w))) = last_text (ud w)
  \/ exists s t,
       last_text (ud (world_of (button_handler uid un data w)))
       = <[s:=t]> (last_text (ud w)).
Proof.
  assert (Hsd : forall u, last_text (setdefault_exclude_position u) = last_text u)
    by apply last_text_setdefault.
  unfold button_handler.
  repeat match goal with
    | |- context [if ?c then _ else _] => destruct c
    end;
    try (left; reflexivity);
    try (right; do 2 eexists; reflexivity).
  - left. unfold back.
    pose proof (last_text_pop_back (ud w)) as Hp.
    destruct (pop_back (ud w)) as [prev u1]. simpl in Hp.
    pose proof (last_text_render_prev prev ViaQuery uid (mkWorld (db w) u1)) as Hr.
    destruct (render_prev prev ViaQuery uid (mkWorld (db w) u1)) as [u2 [a|]];
      simpl in *; congruence.
  - unfold on_search_party. destruct (nonempty _); [|now left].
    right. do 2 eexists. unfold world_of. cbn [fst ud store_last_text last_text].
    cbn [push_back with_back_stack clear_back set_only_full_party
         set_specific_position last_text].
    now rewrite Hsd.
  - unfold on_mode. destruct (nonempty _); [|now left].
    right. do 2 eexists. unfold world_of. cbn [fst ud store_last_text last_text].
    now rewrite Hsd.
  - unfold on_selectpos. destruct (split1_snd _ _); [|now left].
    destruct (dict_get _ _); [|now left]. right. do 2 eexists. reflexivity.
  - left. unfold on_delta. destruct (option_bind _ _ _ _); [|reflexivity].
    now destruct (field mmr _).
Qed.

Lemma back_keeps_last_text via uid w :
  last_text (ud (world_of (back via uid w))) = last_text (ud w).
Proof.
  unfold back.
  pose proof (last_text_pop_back (ud w)) as Hp.
  destruct (pop_back (ud w)) as [prev u1]. simpl in Hp.
  pose proof (last_text_render_prev prev via uid (mkWorld (db w) u1)) as Hr.
  destruct (render_prev prev via uid (mkWorld (db w) u1)) as [u2 [a|]];
    simpl in *; congruence.
Qed.

(** X23.  Cached texts are never dropped: a step that has a cached text
    before an update has one after it, whatever the update -- the main
    menu, a finished search and [/start] clear the back stack and leave
    the cache; and no text message ever changes the cache. *)
Theorem cache_is_never_dropped :
  forall st uid un upd w,
    (forall step,
       get_last_text step (ud w) <> None ->
       get_last_text step (ud (fst (fst (dispatch st uid un upd w)))) <> None)
    /\ (forall text,
          upd = TextMessage text ->
          last_text (ud (fst (fst (dispatch st uid un upd w))))
          = last_text (ud w)).
Proof.
  intros st uid un upd w.
  assert (Htext : forall text,
            last_text (ud (fst (fst (dispatch st uid un (TextMessage text) w))))
            = last_text (ud w)).
  { intros text. simpl. destruct st; try reflexivity; rewrite settle_world.
    - unfold get_position. destruct (is_cancel _);
        [apply back_keeps_last_text|].
      now destruct (dict_get _ _).
    - unfold get_mmr. destruct (is_cancel _); [apply back_keeps_last_text|].
      destruct (py_int _); [|reflexivity]. now destruct (_ || _).
    - unfold get_search_mmr_custom. destruct (is_cancel _);
        [apply back_keeps_last_text|].
      destruct (py_int _) as [delta|]; [|reflexivity].
      destruct (Z.leb delta 0); [reflexivity|]. now destruct (field mmr _). }
  split; [|intros text ->; apply Htext].
  intros step Hs. unfold get_last_text in *.
  destruct upd as [data|text| |].
  - simpl. rewrite settle_world.
    destruct (button_handler_cache_step uid un data w) as [->|(s & t & ->)];
      [exact Hs|].
    destruct (decide (s = step)) as [->|Hne].
    + rewrite lookup_insert_eq. discriminate.
    + now rewrite lookup_insert_ne.
  - now rewrite Htext.
  - exact Hs.
  - exact Hs.
Qed.

(** ** Size of the dump messages *)

Section ChunkSizes.

Variable size : nat.
Hypothesis size_pos : (0 < size)%nat.

Lemma chunk_count_bound (n : nat) : ((n + size - 1) / size * size <= n + size - 1)%nat.
Proof.
  pose proof (Nat.div_mod_eq (n + size - 1) size) as Hd. nia.
Qed.

Lemma slice_length (text : str) (i : nat) :
  List.length (slice text i size) = Nat.min size (List.length text - i).
Proof. unfold slice. now rewrite List.length_firstn, List.length_skipn. Qed.

Lemma slice_in_range (text : str) (i : nat) :
  (i < (List.length text + size - 1) / size)%nat ->
  (i * size < List.length text)%nat.
Proof.
  intros Hi. pose proof (chunk_count_bound (List.length text)) as Hb. nia.
Qed.

Lemma slice_full (text : str) (i : nat) :
  (i + 1 < (List.length text + size - 1) / size)%nat ->
  List.length (slice text (i * size) size) = size.
Proof.
  intros Hi. rewrite slice_length.
  pose proof (chunk_count_bound (List.length text)) as Hb. nia.
Qed.

Lemma range_slices_nth (text : str) (i : nat) :
  (i < (List.length text + size - 1) / size)%nat ->
  nth i
    (List.map (fun j => slice text j size) (range_step (List.length text) size))
    []
  = slice text (i * size) size.
Proof.
  intros Hi. unfold range_step. rewrite List.map_map.
  rewrite (List.nth_indep _ [] (slice text (0 * size) size))
    by (now rewrite List.length_map, List.length_seq).
  rewrite (List.map_nth (fun k => slice text (k * size) size) _ 0%nat).
  now rewrite List.seq_nth.
Qed.

End ChunkSizes.

(** X24.  The messages of the dump: a text of n characters is sent in
    ceil(n / 4000) messages, none of them empty, all but the last of
    exactly 4000 characters; a non-empty text of at most 4000 characters is
    sent as it is, in one message. *)
Theorem dump_chunks_are_full_and_nonempty :
  forall text : str,
    List.length (chunks text) = ((List.length text + 3999) / 4000)%nat
    /\ Forall (fun c : str => c <> []) (chunks text)
    /\ (forall i,
          (i + 1 < List.length (chunks text))%nat ->
          List.length (@nth str i (chunks text) []) = 4000%nat)
    /\ (text <> [] -> (List.length text <= 4000)%nat -> chunks text = [text]).
Proof.
  intros text.
  assert (Hpos : (0 < chunk_size)%nat) by (unfold chunk_size; lia).
  assert (Hcount : List.length (chunks text)
                   = ((List.length text + chunk_size - 1) / chunk_size)%nat).
  { unfold chunks, range_step. now rewrite !List.length_map, List.length_seq. }
  split; [|split; [|split]].
  - rewrite Hcount. unfold chunk_size. f_equal. lia.
  - apply List.Forall_forall. intros c Hc.
    apply (@List.In_nth str _ _ []) in Hc as (i & Hi0 & <-).
    assert (Hi : (i < (List.length text + chunk_size - 1) / chunk_size)%nat)
      by (rewrite <- Hcount; exact Hi0).
    unfold chunks.
    rewrite (range_slices_nth chunk_size text i Hi).
    pose proof (slice_in_range chunk_size Hpos text i Hi) as Hr.
    pose proof (slice_length chunk_size text (i * chunk_size)) as Hl.
    intros E. rewrite E in Hl. cbn [List.length] in Hl. lia.
  - intros i Hi0.
    assert (Hi : (i + 1 < (List.length text + chunk_size - 1) / chunk_size)%nat)
      by (rewrite <- Hcount; exact Hi0).
    unfold chunks.
    rewrite (range_slices_nth chunk_size text i) by lia.
    now apply (slice_full chunk_size Hpos).
  - intros Hne Hlen.
    assert (Hone : ((List.length text + chunk_size - 1) / chunk_size = 1)%nat).
    { destruct text as [|c t]; [contradiction|]. simpl List.length in *.
      unfold chunk_size in *.
      symmetry. apply (Nat.div_unique _ _ _ (List.length t)); lia. }
    unfold chunks, range_step. rewrite Hone. simpl.
    unfold slice. simpl skipn. f_equal. now apply List.firstn_all2.
Qed.

(** ** The search dialogue as a whole *)

Lemma nonempty_idem (o : option str) (s : str) :
  nonempty o = Some s -> nonempty (Some s) = Some s.
Proof. intros H. apply nonempty_some in H as [_ H]. now apply nonempty_of. Qed.

(** The five search fields of a session. *)
Lemma run_cons st uid un upd upd' rest w :
  run st uid un (upd :: upd' :: rest) w
  = run (snd (dispatch st uid un upd w)) uid un (upd' :: rest)
      (fst (fst (dispatch st uid un upd w))).
Proof.
  cbn [run]. now destruct (dispatch st uid un upd w) as [[w' acts] st'].
Qed.

Lemma run_last st uid un upd w :
  run st uid un [upd] w = dispatch st uid un upd w.
Proof.
  cbn [run]. now destruct (dispatch st uid un upd w) as [[w' acts] st'].
Qed.

Lemma step_search_party st uid un w pos :
  nonempty (field position (get_profile uid (db w))) = Some pos ->
  exists w1 acts,
    dispatch st uid un (CallbackQuery (U "search_party")) w
    = (w1, acts, SEARCH_MODE)
    /\ db w1 = db w
    /\ own_position (ud w1) = Some pos
    /\ exclude_position (ud w1) = Some (exclude_effective (ud w))
    /\ specific_position (ud w1) = None
    /\ only_full_party (ud w1) = None.
Proof.
  intros Hp. unfold dispatch. rewrite button_handler_search_party.
  unfold on_search_party. rewrite Hp. eexists _, _.
  split; [reflexivity|]. repeat split; session_simpl; reflexivity.
Qed.

Lemma step_mode st uid un w pos m :
  nonempty (own_position (ud w)) = Some pos ->
  exists w1 acts,
    dispatch st uid un (CallbackQuery (U "mode_" ++ m)) w
    = (w1, acts, SEARCH_POS_OPTION)
    /\ db w1 = db w
    /\ search_mode (ud w1) = Some m
    /\ exclude_position (ud w1) = Some (exclude_effective (ud w))
    /\ specific_position (ud w1) = specific_position (ud w)
    /\ only_full_party (ud w1) = only_full_party (ud w)
    /\ own_position (ud w1) = own_position (ud w).
Proof.
  intros Hp. unfold dispatch. rewrite button_handler_mode.
  unfold on_mode. rewrite drop_prefix_mode, Hp. eexists _, _.
  split; [reflexivity|]. repeat split; session_simpl; reflexivity.
Qed.

Lemma step_start_search st uid un w :
  exists w1 acts,
    dispatch st uid un (CallbackQuery (U "start_search")) w
    = (w1, acts, SEARCH_FULL_OPTION)
    /\ db w1 = db w
    /\ search_mode (ud w1) = search_mode (ud w)
    /\ exclude_position (ud w1) = exclude_position (ud w)
    /\ specific_position (ud w1) = specific_position (ud w)
    /\ only_full_party (ud w1) = only_full_party (ud w)
    /\ own_position (ud w1) = own_position (ud w).
Proof.
  unfold dispatch. rewrite button_handler_start_search. eexists _, _.
  split; [reflexivity|]. repeat split.
Qed.

Lemma step_spec_position st uid un w :
  exists w1 acts,
    dispatch st uid un (CallbackQuery (U "spec_position")) w
    = (w1, acts, SELECT_POSITION)
    /\ db w1 = db w
    /\ search_mode (ud w1) = search_mode (ud w)
    /\ exclude_position (ud w1) = exclude_position (ud w)
    /\ specific_position (ud w1) = specific_position (ud w)
    /\ only_full_party (ud w1) = only_full_party (ud w)
    /\ own_position (ud w1) = own_position (ud w).
Proof.
  unfold dispatch. rewrite button_handler_spec_position. eexists _, _.
  split; [reflexivity|]. repeat split.
Qed.

Lemma step_selectpos st uid un w key name :
  dict_get POSITIONS key = Some name ->
  exists w1 acts,
    dispatch st uid un (CallbackQuery (U "selectpos_" ++ key)) w
    = (w1, acts, SEARCH_FULL_OPTION)
    /\ db w1 = db w
    /\ search_mode (ud w1) = search_mode (ud w)
    /\ exclude_position (ud w1) = None
    /\ specific_position (ud w1) = Some name
    /\ only_full_party (ud w1) = only_full_party (ud w)
    /\ own_position (ud w1) = own_position (ud w).
Proof.
  intros Hk. unfold dispatch. rewrite button_handler_selectpos.
  unfold on_selectpos. rewrite split_selectpos, Hk. eexists _, _.
  split; [reflexivity|]. repeat split.
Qed.

Lemma step_only_full st uid un w (b : bool) :
  exists w1 acts,
    dispatch st uid un
      (CallbackQuery (if b then U "only_full_yes" else U "only_full_no")) w
    = (w1, acts, SEARCH_MMR)
    /\ db w1 = db w
    /\ search_mode (ud w1) = search_mode (ud w)
    /\ exclude_position (ud w1) = exclude_position (ud w)
    /\ specific_position (ud w1) = specific_position (ud w)
    /\ only_full_party (ud w1) = Some b
    /\ own_position (ud w1) = own_position (ud w).
Proof.
  unfold dispatch. destruct b.
  - rewrite button_handler_only_full_yes. eexists _, _.
    split; [reflexivity|]. repeat split.
  - rewrite button_handler_only_full_no. eexists _, _.
    split; [reflexivity|]. repeat split.
Qed.

(** The search as a trigger runs it, in terms of the session it finds. *)
Lemma step_run_search via uid mf w :
  run_search via uid mf w
  = (mkWorld (db w) (clear_back (pop_search_fields (ud w))),
     perform_search_and_reply via (db w) uid (search_mode (ud w)) mf
       (Some (exclude_effective (ud w))) (specific_position (ud w))
       (Some (match only_full_party (ud w) with Some b => b | None => false end)),
     Return Idle).
Proof. reflexivity. Qed.

Lemma step_mmr_none st uid un w :
  dispatch st uid un (CallbackQuery (U "mmr_none")) w
  = (mkWorld (db w) (clear_back (pop_search_fields (ud w))),
     perform_search_and_reply ViaQuery (db w) uid (search_mode (ud w)) None
       (Some (exclude_effective (ud w))) (specific_position (ud w))
       (Some (match only_full_party (ud w) with Some b => b | None => false end)),
     Idle).
Proof.
  unfold dispatch. rewrite button_handler_mmr_none. unfold on_mmr_none.
  now rewrite step_run_search.
Qed.

Lemma step_delta st uid un w rest delta x :
  py_int rest = Some delta ->
  field mmr (get_profile uid (db w)) = Some x ->
  dispatch st uid un (CallbackQuery (U "delta_" ++ rest)) w
  = (mkWorld (db w) (clear_back (pop_search_fields (ud w))),
     perform_search_and_reply ViaQuery (db w) uid (search_mode (ud w))
       (Some delta) (Some (exclude_effective (ud w))) (specific_position (ud w))
       (Some (match only_full_party (ud w) with Some b => b | None => false end)),
     Idle).
Proof.
  intros Hd Hx. unfold dispatch. rewrite button_handler_delta. unfold on_delta.
  rewrite split_delta. simpl option_bind. rewrite Hd, Hx.
  now rewrite step_run_search.
Qed.

Lemma cleared_after_search u : session_cleared (clear_back (pop_search_fields u)).
Proof. unfold session_cleared. repeat split. Qed.

(** X25.  The dialogue with the default choices.  For a user whose profile
    has a position, the buttons search, a mode, start search, full party
    no and no mmr filter, pressed in this order from any state, run the
    search of that user for that mode with no specific position, no
    full-party and no mmr filter, and with the exclude flag the session
    held before (ON when it held none); the table is as before, the
    session is cleared and the state is Idle. *)
Theorem default_dialogue_runs_the_chosen_search :
  forall st uid un w pos (m : str),
    nonempty (field position (get_profile uid (db w))) = Some pos ->
    exists w',
      run st uid un
        [ CallbackQuery (U "search_party");
          CallbackQuery (U "mode_" ++ m);
          CallbackQuery (U "start_search");
          CallbackQuery (U "only_full_no");
          CallbackQuery (U "mmr_none") ]
        w
      = (w',
         perform_search_and_reply ViaQuery (db w) uid (Some m) None
           (Some (exclude_effective (ud w))) None (Some false),
         Idle)
      /\ db w' = db w
      /\ session_cleared (ud w').
Proof.
  intros st uid un w pos m Hp.
  destruct (step_search_party st uid un w pos Hp)
    as (w1 & a1 & E1 & D1 & O1 & X1 & S1 & F1).
  assert (Hown : nonempty (own_position (ud w1)) = Some pos).
  { rewrite O1. apply (nonempty_idem _ _ Hp). }
  destruct (step_mode SEARCH_MODE uid un w1 pos m Hown)
    as (w2 & a2 & E2 & D2 & M2 & X2 & S2 & F2 & O2).
  destruct (step_start_search SEARCH_POS_OPTION uid un w2)
    as (w3 & a3 & E3 & D3 & M3 & X3 & S3 & F3 & O3).
  destruct (step_only_full SEARCH_FULL_OPTION uid un w3 false)
    as (w4 & a4 & E4 & D4 & M4 & X4 & S4 & F4 & O4).
  rewrite run_cons, E1. cbn [fst snd].
  rewrite run_cons, E2. cbn [fst snd].
  rewrite run_cons, E3. cbn [fst snd].
  rewrite run_cons, E4. cbn [fst snd].
  rewrite run_last, step_mmr_none.
  eexists. split.
  - assert (Hex : exclude_effective (ud w4) = exclude_effective (ud w)).
    { unfold exclude_effective at 1. rewrite X4, X3, X2.
      unfold exclude_effective at 1. now rewrite X1. }
    rewrite Hex, M4, M3, M2, S4, S3, S2, S1, F4.
    rewrite D4, D3, D2, D1. reflexivity.
  - split; [|apply cleared_after_search].
    reflexivity.
Qed.

(** X26.  The dialogue with a specific position.  For a user whose profile
    has a position and an mmr, the buttons search, a mode, specify
    position, one of the five positions, full party yes and a delta run the
    search for that mode, that position, full-party candidates only and
    the mmr window of that delta; the exclude flag handed to the search is
    ON and has no effect; the session is cleared afterwards. *)
Theorem specific_dialogue_runs_the_chosen_search :
  forall st uid un w pos (m key name rest : str) delta x,
    nonempty (field position (get_profile uid (db w))) = Some pos ->
    field mmr (get_profile uid (db w)) = Some x ->
    dict_get POSITIONS key = Some name ->
    py_int rest = Some delta ->
    exists w',
      run st uid un
        [ CallbackQuery (U "search_party");
          CallbackQuery (U "mode_" ++ m);
          CallbackQuery (U "spec_position");
          CallbackQuery (U "selectpos_" ++ key);
          CallbackQuery (U "only_full_yes");
          CallbackQuery (U "delta_" ++ rest) ]
        w
      = (w',
         perform_search_and_reply ViaQuery (db w) uid (Some m) (Some delta)
           (Some true) (Some name) (Some true),
         Idle)
      /\ db w' = db w
      /\ session_cleared (ud w').
Proof.
  intros st uid un w pos m key name rest delta x Hp Hx Hk Hd.
  destruct (step_search_party st uid un w pos Hp)
    as (w1 & a1 & E1 & D1 & O1 & X1 & S1 & F1).
  assert (Hown : nonempty (own_position (ud w1)) = Some pos).
  { rewrite O1. apply (nonempty_idem _ _ Hp). }
  destruct (step_mode SEARCH_MODE uid un w1 pos m Hown)
    as (w2 & a2 & E2 & D2 & M2 & X2 & S2 & F2 & O2).
  destruct (step_spec_position SEARCH_POS_OPTION uid un w2)
    as (w3 & a3 & E3 & D3 & M3 & X3 & S3 & F3 & O3).
  destruct (step_selectpos SELECT_POSITION uid un w3 key name Hk)
    as (w4 & a4 & E4 & D4 & M4 & X4 & S4 & F4 & O4).
  destruct (step_only_full SEARCH_FULL_OPTION uid un w4 true)
    as (w5 & a5 & E5 & D5 & M5 & X5 & S5 & F5 & O5).
  assert (Hx5 : field mmr (get_profile uid (db w5)) = Some x)
    by now rewrite D5, D4, D3, D2, D1.
  rewrite run_cons, E1. cbn [fst snd].
  rewrite run_cons, E2. cbn [fst snd].
  rewrite run_cons, E3. cbn [fst snd].
  rewrite run_cons, E4. cbn [fst snd].
  rewrite run_cons, E5. cbn [fst snd].
  rewrite run_last, (step_delta SEARCH_MMR uid un w5 rest delta x Hd Hx5).
  eexists. split.
  - assert (Hex : exclude_effective (ud w5) = true).
    { unfold exclude_effective. now rewrite X5, X4. }
    rewrite Hex, M5, M4, M3, M2, S5, S4, F5.
    rewrite D5, D4, D3, D2, D1. reflexivity.
  - split; [|apply cleared_after_search].
    reflexivity.
Qed.

(** ** Who is found *)

Lemma get_profile_of_row d r :
  List.NoDup (List.map user_id d) -> In r d ->
  get_profile (user_id r) d = Some r.
Proof.
  unfold get_profile. induction d as [|x d IH]; simpl; [easy|].
  intros Hnd [->|Hin].
  - now rewrite Z.eqb_refl.
  - inversion Hnd as [|? ? Hx Hd]; subst.
    destruct (Z.eqb_spec (user_id x) (user_id r)) as [E|E].
    + exfalso. apply Hx. rewrite E. now apply List.in_map.
    + now apply IH.
Qed.

(** A user who reads as offline, or has no row, is in no result. *)
Lemma offline_is_not_found d uid :
  List.NoDup (List.map user_id d) ->
  flag online (get_profile uid d) = false ->
  forall rid sm mf ex sp ofp sql,
    build_sql d rid sm mf ex sp ofp = Some sql ->
    ~ In uid (List.map c_user_id (fetchall sql d)).
Proof.
  intros Hnd Hoff rid sm mf ex sp ofp sql Hb Hin.
  apply List.in_map_iff in Hin as (c & Hid & Hc).
  destruct (build_sql_head _ _ _ _ _ _ _ _ Hb) as [rest ->].
  destruct (fetched_satisfies d _ c OnlineIs1 Hc) as (r & Hr & Hs & Ho);
    [simpl; auto|].
  subst c. simpl in Hid, Ho. subst uid.
  rewrite (get_profile_of_row d r Hnd Hr) in Hoff. simpl in Hoff. congruence.
Qed.

(** X27.  A new user is hidden until they go online.  When a user without
    a row sets a position through the position prompt, the row created is
    offline, so no search of anyone returns that user; after that user
    presses the Online button the row reads online. *)
Theorem new_profile_is_hidden_until_online :
  forall uid un text w name,
    List.NoDup (List.map user_id (db w)) ->
    get_profile uid (db w) = None ->
    is_cancel (strip text) = false ->
    dict_get POSITIONS (strip text) = Some name ->
    let w1 := world_of (get_position uid un text w) in
    get_profile uid (db w1)
    = Some (mkProfile uid (Some name) None None un false false)
    /\ (forall rid sm mf ex sp ofp sql,
          build_sql (db w1) rid sm mf ex sp ofp = Some sql ->
          ~ In uid (List.map c_user_id (fetchall sql (db w1))))
    /\ flag online
         (get_profile uid
            (db (world_of (button_handler uid un (U "toggle_online") w1))))
       = true.
Proof.
  intros uid un text w name Hnd Hnone Hc Hk w1.
  assert (Hw1 : db w1
                = upsert_profile uid (Some name) None None un None None (db w)).
  { subst w1. unfold get_position. now rewrite Hc, Hk. }
  assert (Hrow : get_profile uid (db w1)
                 = Some (mkProfile uid (Some name) None None un false false)).
  { rewrite Hw1. now apply get_profile_upsert_absent. }
  split; [exact Hrow|]. split.
  - apply offline_is_not_found.
    + rewrite Hw1. now apply upsert_ids_unique.
    + now rewrite Hrow.
  - rewrite button_handler_toggle_online. unfold on_toggle_online, world_of.
    cbn [fst db]. rewrite flag_upsert_online. now rewrite Hrow.
Qed.

Lemma where_holds_nil r : where_holds [] r = true.
Proof. reflexivity. Qed.

Lemma position_filter_holds rp ex sp r :
  where_holds (position_filter rp ex sp) r = true <-> position_ok rp ex sp r.
Proof.
  unfold position_filter, position_ok. destruct (nonempty sp) as [p|].
  - rewrite where_holds_single. simpl. destruct (position r) as [q|].
    + rewrite str_eqb_eq. split; congruence.
    + split; discriminate.
  - destruct ex as [[|]|], (nonempty rp) as [p|];
      rewrite ?where_holds_nil; try tauto.
    rewrite where_holds_single. simpl. destruct (position r) as [q|].
    + rewrite negb_true_iff, str_eqb_neq. split; congruence.
    + split; [discriminate | reflexivity].
Qed.

Lemma mode_filter_holds sm r :
  where_holds (match nonempty sm with Some m => [LowerModeEq m] | None => [] end) r
  = true
  <-> mode_ok sm r.
Proof.
  unfold mode_ok. destruct (nonempty sm) as [m|]; [|rewrite where_holds_nil; tauto].
  rewrite where_holds_single. simpl. destruct (mode r) as [q|].
  - rewrite str_eqb_eq. split.
    + intros H. exists q. auto.
    + intros (q' & Hq & H). inversion Hq; subst. exact H.
  - split; [discriminate | intros (q & Hq & _); discriminate].
Qed.

Lemma full_filter_holds ofp r :
  where_holds (match ofp with Some true => [FullPartyIs1] | _ => [] end) r = true
  <-> full_party_ok ofp r.
Proof.
  unfold full_party_ok. destruct ofp as [[|]|]; rewrite ?where_holds_nil.
  - rewrite where_holds_single. simpl. tauto.
  - split; [discriminate | reflexivity].
  - split; [discriminate | reflexivity].
Qed.

(** X28.  Which rows a search accepts, and that it misses none.  A row
    satisfies the query exactly when its id is not the requester's, it is
    online, and it meets the condition on the position, on the mode, on the
    full-party flag and on the mmr; and when the query can be executed (its
    numbers fit SQLite's integers, which is always so without mmr filter)
    and at most 30 rows of the table satisfy it, every one of them is
    returned. *)
Theorem search_accepts_exactly_the_eligible :
  forall d rid sm mf ex sp ofp sql,
    build_sql d rid sm mf ex sp ofp = Some sql ->
    (forall r,
       where_holds sql r = true
       <-> user_id r <> rid /\ online r = true
           /\ position_ok (field position (get_profile rid d)) ex sp r
           /\ mode_ok sm r /\ full_party_ok ofp r
           /\ mmr_ok (field mmr (get_profile rid d)) mf r)
    /\ (binds sql = true ->
        (List.length (matching sql d) <= 30)%nat ->
        forall r, In r d -> where_holds sql r = true ->
          In (summary r) (fetchall sql d))
    /\ (mf = None -> binds sql = true).
Proof.
  intros d rid sm mf ex sp ofp sql Hb. split; [|split].
  - intros r. apply build_sql_shape in Hb. cbv zeta in Hb.
    assert (Hbase :
              where_holds
                (base_sql rid (field position (get_profile rid d)) sm ex sp ofp) r
              = true
              <-> user_id r <> rid /\ online r = true
                  /\ position_ok (field position (get_profile rid d)) ex sp r
                  /\ mode_ok sm r /\ full_party_ok ofp r).
    { unfold base_sql. rewrite !where_holds_app, !andb_true_iff.
      rewrite position_filter_holds, mode_filter_holds, full_filter_holds.
      unfold where_holds. simpl. rewrite !andb_true_iff, negb_true_iff, Z.eqb_neq.
      tauto. }
    unfold mmr_ok. destruct mf as [delta|].
    + destruct Hb as (m & Hm & ->). rewrite Hm.
      rewrite where_holds_app, andb_true_iff, Hbase, where_holds_single.
      rewrite mmr_between_holds. tauto.
    + subst sql. rewrite Hbase. tauto.
  - intros Hfit Hlen r Hr Hw. rewrite (fetchall_binds _ _ Hfit).
    apply List.in_map. rewrite List.firstn_all2 by exact Hlen.
    unfold matching. apply List.filter_In. auto.
  - intros ->. rewrite build_sql_no_filter in Hb.
    assert (Hs : sql = base_sql rid (field position (get_profile rid d)) sm ex
                         sp ofp) by congruence.
    rewrite Hs. apply base_sql_binds.
Qed.

(** ** The position buttons *)

(** X29.  The position buttons of the search carry the key of the position
    in their token: each of the five positions has a button labelled with
    its key and name whose token stores the name as the specific position,
    pushes the selection step on the back stack and opens the full-party
    step without touching the table; a token with a key that is not in
    [POSITIONS] changes nothing, shows a notice and ends in Idle. *)
Theorem select_position_token_round_trip :
  forall uid un w,
    (forall key,
       dict_get POSITIONS key = None ->
       button_handler uid un (U "selectpos_" ++ key) w
       = (w, [edit_message_text bad_position_text (Some get_main_keyboard)],
          Return Idle))
    /\ (forall key name,
          In (key, name) POSITIONS ->
          In (Btn (key ++ U " — " ++ name) (callback_data (U "selectpos_" ++ key)))
            (List.concat select_position_keyboard)
          /\ exists w' acts,
               button_handler uid un (U "selectpos_" ++ key) w
               = (w', acts, Return SEARCH_FULL_OPTION)
               /\ specific_position (ud w') = Some name
               /\ get_stack (ud w') = get_stack (ud w) ++ [U "SELECT_POSITION"]
               /\ db w' = db w).
Proof.
  intros uid un w. split.
  - intros key Hk. rewrite button_handler_selectpos. unfold on_selectpos.
    now rewrite split_selectpos, Hk.
  - intros key name Hin.
    assert (Hk : dict_get POSITIONS key = Some name
                 /\ In (Btn (key ++ U " — " ++ name)
                          (callback_data (U "selectpos_" ++ key)))
                      (List.concat select_position_keyboard)).
    { unfold POSITIONS in Hin. simpl in Hin.
      destruct Hin as [H|[H|[H|[H|[H|[]]]]]]; inversion H; subst;
        (split; [vm_compute; reflexivity | vm_compute; auto 12]). }
    destruct Hk as [Hk Hbtn]. split; [exact Hbtn|].
    rewrite button_handler_selectpos. unfold on_selectpos.
    rewrite split_selectpos, Hk. eexists _, _. split; [reflexivity|].
    repeat split.
Qed.

(* ================================================================== *)
(** * The further properties on the example pool *)

Lemma requester_row : get_profile 10 pool = Some requester.
Proof. vm_compute. reflexivity. Defined.

Lemma stranger_has_no_row : get_profile 77 pool = None.
Proof. vm_compute. reflexivity. Defined.

Lemma offline_row : get_profile 13 pool = Some offline_player.
Proof. vm_compute. reflexivity. Defined.

Lemma carry_is_not_requester : 11 <> 10.
Proof. lia. Defined.

Lemma requester_position :
  nonempty (field position (get_profile 10 (db fresh_world))) = Some (U "Mid").
Proof. vm_compute. reflexivity. Defined.

(** The requester's mmr is set to 3200: the other fields stay. *)
Lemma upsert_then_get_witness :
  get_profile 10 pool = Some requester
  /\ get_profile 10 (upsert_profile 10 None None (Some 3200) None None None pool)
     = Some (mkProfile 10 (keep None (position requester))
               (keep None (mode requester)) (keep (Some 3200) (mmr requester))
               (keep None (username requester))
               (keep_flag None (online requester))
               (keep_flag None (full_party requester))).
Proof.
  split; [exact requester_row|].
  exact (proj1 (upsert_then_get 10 None None (Some 3200) None None None pool)
           requester requester_row).
Defined.

Lemma upsert_leaves_other_users_witness :
  11 <> 10
  /\ get_profile 11 (upsert_profile 10 None None (Some 3200) None None None pool)
     = get_profile 11 pool.
Proof.
  split; [exact carry_is_not_requester|].
  exact (upsert_leaves_other_users 10 11 None None (Some 3200) None None None
           pool carry_is_not_requester).
Defined.

(** A user without a row sets a mode: one more row, ids still distinct. *)
Lemma upsert_keeps_primary_key_witness :
  List.NoDup (List.map user_id pool)
  /\ get_profile 77 pool = None
  /\ List.NoDup
       (List.map user_id
          (upsert_profile 77 None (Some (U "Turbo")) None None None None pool))
  /\ List.length
       (upsert_profile 77 None (Some (U "Turbo")) None None None None pool)
     = S (List.length pool).
Proof.
  destruct (upsert_keeps_primary_key 77 None (Some (U "Turbo")) None None None
              None pool pool_ids_unique) as (Hnd & Hnew & _).
  split; [exact pool_ids_unique|]. split; [exact stranger_has_no_row|].
  split; [exact Hnd|]. exact (Hnew stranger_has_no_row).
Defined.

Lemma stack_at_mmr_step :
  get_stack session_at_mmr_step
  = [U "MAIN_MENU"; U "SEARCH_MODE"; U "SEARCH_POS_OPTION"]
    ++ [U "SEARCH_FULL_OPTION"].
Proof. reflexivity. Defined.

Lemma push_pop_round_trip_witness :
  get_stack session_at_mmr_step
  = [U "MAIN_MENU"; U "SEARCH_MODE"; U "SEARCH_POS_OPTION"]
    ++ [U "SEARCH_FULL_OPTION"]
  /\ pop_back session_at_mmr_step
     = (Some (U "SEARCH_FULL_OPTION"),
        with_back_stack
          (Some [U "MAIN_MENU"; U "SEARCH_MODE"; U "SEARCH_POS_OPTION"])
          session_at_mmr_step).
Proof.
  split; [exact stack_at_mmr_step|].
  exact (proj1 (proj2 (push_pop_round_trip session_at_mmr_step)) _ _
           stack_at_mmr_step).
Defined.

Lemma fresh_stack_empty : get_stack (ud fresh_world) = [].
Proof. reflexivity. Defined.

Lemma back_touches_stack_only_witness :
  get_stack (ud fresh_world) = []
  /\ back ViaQuery 10 fresh_world
     = (fresh_world, [respond ViaQuery main_menu_text get_main_keyboard],
        Return Idle).
Proof.
  split; [exact fresh_stack_empty|].
  exact (proj2 (proj2 (back_touches_stack_only ViaQuery 10 fresh_world))
           fresh_stack_empty).
Defined.

Lemma start_search_is_forward :
  In (U "start_search", (U "SEARCH_POS_OPTION", search_pos_option_prompt))
    forward_buttons.
Proof. left. reflexivity. Defined.

Lemma forward_then_back_witness :
  In (U "start_search", (U "SEARCH_POS_OPTION", search_pos_option_prompt))
    forward_buttons
  /\ exists w2 kb,
       button_handler 10 None (U "go_back")
         (world_of (button_handler 10 None (U "start_search") world_at_mmr_step))
       = (w2,
          [edit_message_text
             (or_else (get_last_text (U "SEARCH_POS_OPTION") (ud world_at_mmr_step))
                search_pos_option_prompt)
             (Some kb)],
          Return Idle)
       /\ get_stack (ud w2) = get_stack (ud world_at_mmr_step)
       /\ db w2 = db world_at_mmr_step.
Proof.
  split; [exact start_search_is_forward|].
  exact (forward_then_back 10 None world_at_mmr_step _ _ _ start_search_is_forward).
Defined.

Lemma fresh_profile_text_missing :
  get_last_text (U "PROFILE") (ud fresh_world) = None.
Proof. vm_compute. reflexivity. Defined.

(** Edit position pressed before the profile was ever shown, then Back:
    nothing is shown and the state stays. *)
Lemma back_to_profile_needs_cached_text_witness :
  get_last_text (U "PROFILE") (ud fresh_world) = None
  /\ exists w2,
       dispatch POSITION 10 None (CallbackQuery (U "go_back"))
         (world_of (button_handler 10 None (U "edit_position") fresh_world))
       = (w2, [], POSITION)
       /\ get_stack (ud w2) = get_stack (ud fresh_world).
Proof.
  split; [exact fresh_profile_text_missing|].
  exact (proj2 (back_to_profile_needs_cached_text 10 fresh_world) None
           fresh_profile_text_missing).
Defined.

Lemma custom_is_no_number : py_int (U "custom") = None.
Proof. vm_compute. reflexivity. Defined.

(** A number behind the separator U+001C is no integer literal for [int],
    although [str.strip] would remove the separator. *)
Lemma separator_then_250_is_no_number : py_int (28%N :: U "250") = None.
Proof. vm_compute. reflexivity. Defined.

(** The token of the button for a hand-typed delta, and a token with a
    separator before the number, make the handler raise. *)
Lemma delta_token_without_number_raises_witness :
  py_int (U "custom") = None
  /\ button_handler 10 None (U "delta_" ++ U "custom") world_at_mmr_step
     = (world_at_mmr_step, [], Raised)
  /\ py_int (28%N :: U "250") = None
  /\ button_handler 10 None (U "delta_" ++ 28%N :: U "250") world_at_mmr_step
     = (world_at_mmr_step, [], Raised).
Proof.
  split; [exact custom_is_no_number|]. split.
  - exact (proj1 (proj1 (delta_token_without_number_raises 10 None
                           world_at_mmr_step)
                    (U "custom") SEARCH_MMR custom_is_no_number)).
  - split; [exact separator_then_250_is_no_number|].
    exact (proj1 (proj1 (delta_token_without_number_raises 10 None
                           world_at_mmr_step)
                    (28%N :: U "250") SEARCH_MMR
                    separator_then_250_is_no_number)).
Defined.

Lemma typed_3500_not_cancel : is_cancel (strip (U "٣٥٠٠")) = false.
Proof. vm_compute. reflexivity. Defined.

(** [int] reads the decimal digits of every script. *)
Lemma typed_3500 : py_int (strip (U "٣٥٠٠")) = Some 3500.
Proof. vm_compute. reflexivity. Defined.

Lemma typed_20000 : py_int (strip (U "20000")) = Some 20000.
Proof. vm_compute. reflexivity. Defined.

Lemma typed_20000_not_cancel : is_cancel (strip (U "20000")) = false.
Proof. vm_compute. reflexivity. Defined.

(** The newcomer types 3500 in Arabic-Indic digits: stored; 20000:
    refused. *)
Lemma mmr_input_validated_witness :
  is_cancel (strip (U "٣٥٠٠")) = false
  /\ py_int (strip (U "٣٥٠٠")) = Some 3500
  /\ (exists d',
        get_mmr 20 None (U "٣٥٠٠") fresh_world
        = (mkWorld d' (ud fresh_world),
           [reply_text mmr_saved_text (Some get_main_keyboard)], Return Idle)
        /\ d' = upsert_profile 20 None None (Some 3500) None None None
                  (db fresh_world)
        /\ field mmr (get_profile 20 d') = Some 3500)
  /\ is_cancel (strip (U "20000")) = false
  /\ py_int (strip (U "20000")) = Some 20000
  /\ get_mmr 20 None (U "20000") fresh_world
     = (fresh_world,
        [reply_text bad_mmr_input_text (Some back_menu_cancel_keyboard)],
        Return MMR).
Proof.
  split; [exact typed_3500_not_cancel|]. split; [exact typed_3500|].
  split.
  - apply (proj1 (mmr_input_validated 20 None (U "٣٥٠٠") fresh_world
                    typed_3500_not_cancel) 3500 typed_3500).
    lia.
  - split; [exact typed_20000_not_cancel|]. split; [exact typed_20000|].
    apply (proj2 (mmr_input_validated 20 None (U "20000") fresh_world
                    typed_20000_not_cancel)).
    right. exists 20000. split; [exact typed_20000|]. lia.
Defined.

Lemma typed_zero_not_cancel : is_cancel (strip (U "0")) = false.
Proof. vm_compute. reflexivity. Defined.

Lemma typed_zero : py_int (strip (U "0")) = Some 0.
Proof. vm_compute. reflexivity. Defined.

Lemma typed_huge_not_cancel :
  is_cancel (strip (U "9223372036854775808")) = false.
Proof. vm_compute. reflexivity. Defined.

Lemma typed_huge : py_int (strip (U "9223372036854775808")) = Some (2 ^ 63).
Proof. vm_compute. reflexivity. Defined.

Lemma huge_is_positive : 0 < 2 ^ 63.
Proof. vm_compute. reflexivity. Defined.

Lemma huge_window_does_not_bind :
  sqlite_int (Z.max 0 (3000 - 2 ^ 63)) && sqlite_int (3000 + 2 ^ 63) = false.
Proof. vm_compute. reflexivity. Defined.

(** A typed delta of 0 is refused; a typed delta of 2^63 is taken, and the
    search replies with its error message. *)
Lemma typed_delta_validated_witness :
  is_cancel (strip (U "0")) = false
  /\ py_int (strip (U "0")) = Some 0
  /\ get_search_mmr_custom 10 (U "0") world_at_mmr_step
     = (world_at_mmr_step,
        [reply_text bad_delta_input_text (Some back_menu_keyboard)],
        Return SEARCH_MMR)
  /\ is_cancel (strip (U "9223372036854775808")) = false
  /\ py_int (strip (U "9223372036854775808")) = Some (2 ^ 63)
  /\ 0 < 2 ^ 63
  /\ field mmr (get_profile 10 (db world_at_mmr_step)) = Some 3000
  /\ sqlite_int (Z.max 0 (3000 - 2 ^ 63)) && sqlite_int (3000 + 2 ^ 63) = false
  /\ acts_of (get_search_mmr_custom 10 (U "9223372036854775808")
                world_at_mmr_step)
     = [reply_text search_error_text (Some get_main_keyboard)].
Proof.
  split; [exact typed_zero_not_cancel|]. split; [exact typed_zero|]. split.
  - apply (proj1 (typed_delta_validated 10 (U "0") world_at_mmr_step
                    typed_zero_not_cancel)).
    right. exists 0. split; [exact typed_zero|]. lia.
  - split; [exact typed_huge_not_cancel|]. split; [exact typed_huge|].
    split; [exact huge_is_positive|]. split; [exact requester_has_mmr|].
    split; [exact huge_window_does_not_bind|].
    exact (proj2 (proj2 (typed_delta_validated 10 (U "9223372036854775808")
                           world_at_mmr_step typed_huge_not_cancel))
             (2 ^ 63) 3000 typed_huge huge_is_positive requester_has_mmr
             huge_window_does_not_bind).
Defined.

(** The offline player presses Online: the row reads online, the rest of
    it is as before. *)
Lemma toggle_online_flips_own_flag_witness :
  get_profile 13 (db fresh_world) = Some offline_player
  /\ get_profile 13
       (db (world_of (button_handler 13 None (U "toggle_online") fresh_world)))
     = Some (mkProfile 13 (position offline_player) (mode offline_player)
               (mmr offline_player) (keep None (username offline_player))
               (negb (online offline_player)) (full_party offline_player)).
Proof.
  split; [exact offline_row|].
  exact (proj1 (proj2 (proj2 (toggle_online_flips_own_flag 13 None fresh_world)))
           offline_player offline_row).
Defined.

Lemma toggle_fullparty_flips_own_flag_witness :
  get_profile 13 (db fresh_world) = Some offline_player
  /\ get_profile 13
       (db (world_of (button_handler 13 None (U "toggle_fullparty") fresh_world)))
     = Some (mkProfile 13 (position offline_player) (mode offline_player)
               (mmr offline_player) (keep None (username offline_player))
               (online offline_player) (negb (full_party offline_player))).
Proof.
  split; [exact offline_row|].
  exact (proj1 (proj2 (proj2 (toggle_fullparty_flips_own_flag 13 None fresh_world)))
           offline_player offline_row).
Defined.

(** The requester presses the search button. *)
Lemma search_button_requires_position_witness :
  nonempty (field position (get_profile 10 (db fresh_world))) = Some (U "Mid")
  /\ exists w',
       button_handler 10 None (U "search_party") fresh_world
       = (w',
          [edit_message_text search_mode_prompt
             (Some (mode_selection_keyboard (U "mode_") true))],
          Return SEARCH_MODE)
       /\ own_position (ud w') = Some (U "Mid")
       /\ back_stack (ud w') = Some [U "MAIN_MENU"].
Proof.
  split; [exact requester_position|].
  destruct (proj2 (search_button_requires_position 10 None fresh_world)
              (U "Mid") requester_position)
    as (w' & E & _ & O & _ & _ & B & _).
  exists w'. split; [exact E|]. split; [exact O | exact B].
Defined.

Lemma own_position_at_mmr_step :
  nonempty (own_position (ud world_at_mmr_step)) = Some (U "Mid").
Proof. vm_compute. reflexivity. Defined.

Lemma turbo_is_a_mode : In (U "Turbo") GAME_MODES.
Proof. left. reflexivity. Defined.

Lemma search_mode_token_round_trip_witness :
  nonempty (own_position (ud world_at_mmr_step)) = Some (U "Mid")
  /\ (exists w' kb,
        button_handler 10 None (U "mode_" ++ U "Turbo") world_at_mmr_step
        = (w', [edit_message_text search_pos_option_prompt (Some kb)],
           Return SEARCH_POS_OPTION)
        /\ search_mode (ud w') = Some (U "Turbo"))
  /\ In (U "Turbo") GAME_MODES
  /\ In (Btn (U "Turbo") (callback_data (U "mode_" ++ U "Turbo")))
       (List.concat (mode_selection_keyboard (U "mode_") true)).
Proof.
  destruct (search_mode_token_round_trip 10 None (U "Turbo") world_at_mmr_step)
    as (Hok & _ & Hkb).
  split; [exact own_position_at_mmr_step|]. split.
  - destruct (Hok (U "Mid") own_position_at_mmr_step)
      as (w' & kb & E & M & _).
    exists w', kb. split; [exact E | exact M].
  - split; [exact turbo_is_a_mode | exact (Hkb turbo_is_a_mode)].
Defined.

Lemma profile_mode_token_round_trip_witness :
  In (U "Turbo") GAME_MODES
  /\ In (Btn (U "Turbo") (callback_data (U "setmode_" ++ U "Turbo")))
       (List.concat (mode_selection_keyboard (U "setmode_") true))
  /\ 11 <> 10
  /\ get_profile 11
       (db (world_of (button_handler 10 None (U "setmode_" ++ U "Turbo")
                        fresh_world)))
     = get_profile 11 (db fresh_world).
Proof.
  destruct (profile_mode_token_round_trip 10 None (U "Turbo") fresh_world)
    as (_ & Hother & _ & _ & _ & Hkb).
  split; [exact turbo_is_a_mode|]. split; [exact (Hkb turbo_is_a_mode)|].
  split; [exact carry_is_not_requester|].
  exact (Hother 11 carry_is_not_requester).
Defined.

Lemma full_query_built :
  build_sql party_pool 10 (Some (U "Ranked")) None (Some true) None (Some true)
  = Some full_query.
Proof. vm_compute. reflexivity. Defined.

Lemma full_player_found :
  In (summary full_player) (fetchall full_query party_pool).
Proof. vm_compute. auto. Defined.

(** The full-party search of the example finds the full-party player. *)
Lemma full_party_option_filters_only_when_on_witness :
  build_sql party_pool 10 (Some (U "Ranked")) None (Some true) None (Some true)
  = Some full_query
  /\ In (summary full_player) (fetchall full_query party_pool)
  /\ c_full_party (summary full_player) = true.
Proof.
  split; [exact full_query_built|]. split; [exact full_player_found|].
  exact (proj1 (full_party_option_filters_only_when_on party_pool 10
                  (Some (U "Ranked")) None (Some true) None)
           full_query full_query_built (summary full_player) full_player_found).
Defined.

Lemma ranked_mode_nonempty : nonempty (Some (U "Ranked")) = Some (U "Ranked").
Proof. vm_compute. reflexivity. Defined.

(** The player whose mode is stored in capitals is found under the mode
    written with one capital. *)
Lemma search_mode_is_case_insensitive_witness :
  nonempty (Some (U "Ranked")) = Some (U "Ranked")
  /\ build_sql party_pool 10 (Some (U "Ranked")) None (Some true) None (Some true)
     = Some full_query
  /\ In (summary full_player) (fetchall full_query party_pool)
  /\ exists q,
       c_mode (summary full_player) = Some q
       /\ sql_lower q = sql_lower (U "Ranked").
Proof.
  split; [exact ranked_mode_nonempty|]. split; [exact full_query_built|].
  split; [exact full_player_found|].
  exact (proj1 (search_mode_is_case_insensitive party_pool 10 None (Some true)
                  None (Some true))
           (Some (U "Ranked")) (U "Ranked") full_query ranked_mode_nonempty
           full_query_built (summary full_player) full_player_found).
Defined.

Lemma no_specific_position : nonempty None = None.
Proof. reflexivity. Defined.

Lemma requester_position_in_pool :
  nonempty (field position (get_profile 10 pool)) = Some (U "Mid").
Proof. vm_compute. reflexivity. Defined.

Lemma own_position_excluded_when_flag_on_witness :
  nonempty None = None
  /\ nonempty (field position (get_profile 10 pool)) = Some (U "Mid")
  /\ build_sql pool 10 (Some (U "Ranked")) None (Some true) None (Some false)
     = Some ranked_query
  /\ In (PositionNullOrNe (U "Mid")) ranked_query.
Proof.
  split; [exact no_specific_position|].
  split; [exact requester_position_in_pool|].
  split; [exact ranked_query_built|].
  exact (proj1 (proj1 (own_position_excluded_when_flag_on pool 10
                         (Some (U "Ranked")) None (Some false) None
                         no_specific_position)
                  (U "Mid") ranked_query requester_position_in_pool
                  ranked_query_built)).
Defined.

Lemma ranked_rows_not_empty : fetchall ranked_query pool <> [].
Proof. intros H. vm_compute in H. discriminate. Defined.

(** The ranked search of the example: one candidate, one contact button
    and the menu button. *)
Lemma search_reply_is_capped_witness :
  build_sql pool 10 (Some (U "Ranked")) None (Some true) None (Some false)
  = Some ranked_query
  /\ List.NoDup (List.map user_id pool)
  /\ List.NoDup (List.map c_user_id (fetchall ranked_query pool))
  /\ fetchall ranked_query pool <> []
  /\ exists kb,
       perform_search_and_reply ViaQuery pool 10 (Some (U "Ranked")) None
         (Some true) None (Some false)
       = [execute ranked_query;
          respond ViaQuery (results_text (fetchall ranked_query pool)) kb].
Proof.
  destruct (search_reply_is_capped ViaQuery pool 10 (Some (U "Ranked")) None
              (Some true) None (Some false) ranked_query ranked_query_built)
    as (_ & Hnd & _ & Hrows & _).
  split; [exact ranked_query_built|]. split; [exact pool_ids_unique|].
  split; [exact (Hnd pool_ids_unique)|].
  split; [exact ranked_rows_not_empty|].
  destruct (Hrows ranked_rows_not_empty) as (kb & E & _).
  exists kb. exact E.
Defined.

Lemma requester_mmr_in_pool : field mmr (get_profile 10 pool) = Some 3000.
Proof. vm_compute. reflexivity. Defined.

Lemma carry_found_under_250 :
  In (summary carry_player) (fetchall ranked_query_250 pool).
Proof. vm_compute. auto. Defined.

Lemma candidates_are_within_delta_witness :
  field mmr (get_profile 10 pool) = Some 3000
  /\ build_sql pool 10 (Some (U "Ranked")) (Some 250) (Some true) None (Some false)
     = Some ranked_query_250
  /\ In (summary carry_player) (fetchall ranked_query_250 pool)
  /\ exists x,
       c_mmr (summary carry_player) = Some x
       /\ 0 <= x /\ 3000 - 250 <= x <= 3000 + 250.
Proof.
  split; [exact requester_mmr_in_pool|].
  split; [exact ranked_query_250_built|].
  split; [exact carry_found_under_250|].
  exact (candidates_are_within_delta pool 10 (Some (U "Ranked")) 250 (Some true)
           None (Some false) 3000 ranked_query_250 requester_mmr_in_pool
           ranked_query_250_built (summary carry_player) carry_found_under_250).
Defined.

Lemma updates_write_own_row_only_witness :
  11 <> 10
  /\ get_profile 11
       (db (fst (fst (dispatch Idle 10 None (CallbackQuery (U "toggle_online"))
                        fresh_world))))
     = get_profile 11 (db fresh_world).
Proof.
  split; [exact carry_is_not_requester|].
  exact (updates_write_own_row_only Idle 10 None
           (CallbackQuery (U "toggle_online")) fresh_world 11
           carry_is_not_requester).
Defined.

Lemma pool_is_ok : table_ok pool.
Proof.
  split; [exact pool_ids_unique|]. split.
  - unfold pool.
    repeat (apply List.Forall_cons;
            [intros p Hp; vm_compute in Hp; try discriminate Hp;
             injection Hp as <-;
             first [ exists (U "1"); vm_compute; reflexivity
                   | exists (U "2"); vm_compute; reflexivity
                   | exists (U "3"); vm_compute; reflexivity ]
            |]).
    apply List.Forall_nil.
  - unfold pool.
    repeat (apply List.Forall_cons;
            [intros x Hx; vm_compute in Hx; try discriminate Hx;
             injection Hx as <-; lia
            |]).
    apply List.Forall_nil.
Defined.

(** The requester types 3 at the position prompt: the table stays well
    formed. *)
Lemma updates_keep_table_ok_witness :
  table_ok (db fresh_world)
  /\ table_ok
       (db (fst (fst (dispatch POSITION 10 None (TextMessage (U "3"))
                        fresh_world)))).
Proof.
  split; [exact pool_is_ok|].
  exact (updates_keep_table_ok POSITION 10 None (TextMessage (U "3"))
           fresh_world pool_is_ok).
Defined.

Lemma search_mode_text_cached :
  get_last_text (U "SEARCH_MODE") (ud world_after_search_button) <> None.
Proof. intros H. vm_compute in H. discriminate. Defined.

(** The text cached for the mode step survives the main menu. *)
Lemma cache_is_never_dropped_witness :
  get_last_text (U "SEARCH_MODE") (ud world_after_search_button) <> None
  /\ get_last_text (U "SEARCH_MODE")
       (ud (fst (fst (dispatch SEARCH_MODE 10 None
                        (CallbackQuery (U "main_menu"))
                        world_after_search_button))))
     <> None.
Proof.
  split; [exact search_mode_text_cached|].
  exact (proj1 (cache_is_never_dropped SEARCH_MODE 10 None
                  (CallbackQuery (U "main_menu")) world_after_search_button)
           (U "SEARCH_MODE") search_mode_text_cached).
Defined.

Lemma short_text_not_empty : U "10 | pos=Mid" <> [].
Proof. intros H. vm_compute in H. discriminate. Defined.

Lemma short_text_is_short : (List.length (U "10 | pos=Mid") <= 4000)%nat.
Proof. vm_compute. lia. Defined.

Lemma dump_chunks_are_full_and_nonempty_witness :
  U "10 | pos=Mid" <> []
  /\ (List.length (U "10 | pos=Mid") <= 4000)%nat
  /\ chunks (U "10 | pos=Mid") = [U "10 | pos=Mid"].
Proof.
  split; [exact short_text_not_empty|]. split; [exact short_text_is_short|].
  exact (proj2 (proj2 (proj2 (dump_chunks_are_full_and_nonempty (U "10 | pos=Mid"))))
           short_text_not_empty short_text_is_short).
Defined.

Lemma default_dialogue_runs_the_chosen_search_witness :
  nonempty (field position (get_profile 10 (db fresh_world))) = Some (U "Mid")
  /\ exists w',
       run Idle 10 None
         [ CallbackQuery (U "search_party");
           CallbackQuery (U "mode_" ++ U "Ranked");
           CallbackQuery (U "start_search");
           CallbackQuery (U "only_full_no");
           CallbackQuery (U "mmr_none") ]
         fresh_world
       = (w',
          perform_search_and_reply ViaQuery (db fresh_world) 10
            (Some (U "Ranked")) None (Some (exclude_effective (ud fresh_world)))
            None (Some false),
          Idle)
       /\ db w' = db fresh_world
       /\ session_cleared (ud w').
Proof.
  split; [exact requester_position|].
  exact (default_dialogue_runs_the_chosen_search Idle 10 None fresh_world
           (U "Mid") (U "Ranked") requester_position).
Defined.

Lemma requester_mmr_fresh : field mmr (get_profile 10 (db fresh_world)) = Some 3000.
Proof. vm_compute. reflexivity. Defined.

Lemma key_two_is_mid : dict_get POSITIONS (U "2") = Some (U "Mid").
Proof. vm_compute. reflexivity. Defined.

Lemma specific_dialogue_runs_the_chosen_search_witness :
  nonempty (field position (get_profile 10 (db fresh_world))) = Some (U "Mid")
  /\ field mmr (get_profile 10 (db fresh_world)) = Some 3000
  /\ dict_get POSITIONS (U "2") = Some (U "Mid")
  /\ py_int (U "250") = Some 250
  /\ exists w',
       run Idle 10 None
         [ CallbackQuery (U "search_party");
           CallbackQuery (U "mode_" ++ U "Ranked");
           CallbackQuery (U "spec_position");
           CallbackQuery (U "selectpos_" ++ U "2");
           CallbackQuery (U "only_full_yes");
           CallbackQuery (U "delta_" ++ U "250") ]
         fresh_world
       = (w',
          perform_search_and_reply ViaQuery (db fresh_world) 10
            (Some (U "Ranked")) (Some 250) (Some true) (Some (U "Mid"))
            (Some true),
          Idle)
       /\ db w' = db fresh_world
       /\ session_cleared (ud w').
Proof.
  split; [exact requester_position|]. split; [exact requester_mmr_fresh|].
  split; [exact key_two_is_mid|]. split; [exact int_250|].
  exact (specific_dialogue_runs_the_chosen_search Idle 10 None fresh_world
           (U "Mid") (U "Ranked") (U "2") (U "Mid") (U "250") 250 3000
           requester_position requester_mmr_fresh key_two_is_mid int_250).
Defined.

Lemma stranger_has_no_row_fresh : get_profile 77 (db fresh_world) = None.
Proof. vm_compute. reflexivity. Defined.

Lemma typed_one_not_cancel : is_cancel (strip (U "1")) = false.
Proof. vm_compute. reflexivity. Defined.

Lemma typed_one_is_carry : dict_get POSITIONS (strip (U "1")) = Some (U "Carry").
Proof. vm_compute. reflexivity. Defined.

(** A stranger types 1 at the position prompt: the row created is offline. *)
Lemma new_profile_is_hidden_until_online_witness :
  List.NoDup (List.map user_id (db fresh_world))
  /\ get_profile 77 (db fresh_world) = None
  /\ is_cancel (strip (U "1")) = false
  /\ dict_get POSITIONS (strip (U "1")) = Some (U "Carry")
  /\ get_profile 77 (db (world_of (get_position 77 None (U "1") fresh_world)))
     = Some (mkProfile 77 (Some (U "Carry")) None None None false false).
Proof.
  split; [exact pool_ids_unique|]. split; [exact stranger_has_no_row_fresh|].
  split; [exact typed_one_not_cancel|]. split; [exact typed_one_is_carry|].
  exact (proj1 (new_profile_is_hidden_until_online 77 None (U "1") fresh_world
                  (U "Carry") pool_ids_unique stranger_has_no_row_fresh
                  typed_one_not_cancel typed_one_is_carry)).
Defined.

Lemma few_ranked_rows : (List.length (matching ranked_query pool) <= 30)%nat.
Proof. vm_compute. lia. Defined.

Lemma carry_in_pool : In carry_player pool.
Proof. right. left. reflexivity. Defined.

Lemma carry_matches : where_holds ranked_query carry_player = true.
Proof. vm_compute. reflexivity. Defined.

Lemma ranked_query_binds : binds ranked_query = true.
Proof. vm_compute. reflexivity. Defined.

Lemma search_accepts_exactly_the_eligible_witness :
  build_sql pool 10 (Some (U "Ranked")) None (Some true) None (Some false)
  = Some ranked_query
  /\ binds ranked_query = true
  /\ (List.length (matching ranked_query pool) <= 30)%nat
  /\ In carry_player pool
  /\ where_holds ranked_query carry_player = true
  /\ In (summary carry_player) (fetchall ranked_query pool).
Proof.
  split; [exact ranked_query_built|]. split; [exact ranked_query_binds|].
  split; [exact few_ranked_rows|].
  split; [exact carry_in_pool|]. split; [exact carry_matches|].
  exact (proj1 (proj2 (search_accepts_exactly_the_eligible pool 10
                         (Some (U "Ranked")) None (Some true) None (Some false)
                         ranked_query ranked_query_built))
           ranked_query_binds few_ranked_rows carry_player carry_in_pool
           carry_matches).
Defined.

Lemma key_nine_unknown : dict_get POSITIONS (U "9") = None.
Proof. vm_compute. reflexivity. Defined.

Lemma select_position_token_round_trip_witness :
  dict_get POSITIONS (U "9") = None
  /\ button_handler 10 None (U "selectpos_" ++ U "9") world_at_mmr_step
     = (world_at_mmr_step,
        [edit_message_text bad_position_text (Some get_main_keyboard)],
        Return Idle).
Proof.
  split; [exact key_nine_unknown|].
  exact (proj1 (select_position_token_round_trip 10 None world_at_mmr_step)
           (U "9") key_nine_unknown).
Defined.
